(** * YouTrack MCP adapter: scoped command synthesis and issue creation

    A shallow embedding of the project-scoping logic of [server-core.ts]
    ([resolveProjectId], [handleQueryIssues], [handleIssuesManage]) and of the
    command synthesis and workflows of [api/domains/issues-api.ts]
    ([createIssue], [updateIssue], [smartSearchIssues], [getIssueCount]).

    Conventions of the embedding:
    - a JavaScript string is a [string]: a sequence of code units below 256;
    - an optional string argument is an [option string]; JavaScript truthiness
      ([if (x)], [x || d], [!x]) is written out by [truthy] and [or_else], so
      an empty string behaves as an absent one exactly where the source says;
    - numbers that the source formats into commands are integers ([Z]),
      printed in decimal as a template literal prints them;
    - the backend is an oracle that answers each request given the requests
      made before it; a handler is a function of the world (requests made,
      log lines written) that returns a value or throws. *)

From Stdlib Require Import String Ascii List ZArith Lia Bool Arith.
From Stdlib Require Import DecimalString Sorted.
Import ListNotations.

#[local] Set Warnings "-register-all".
Local Open Scope list_scope.
Local Open Scope string_scope.

(** ** JavaScript primitives used by the sources *)

Module Js.

(** [if (s)] on an optional string: [undefined] and [''] are falsy. *)
Definition truthy (o : option string) : bool :=
  match o with
  | None => false
  | Some s => negb (String.eqb s "")
  end.

(** [o || d] on an optional string. *)
Definition or_else (o : option string) (d : string) : string :=
  match o with
  | None => d
  | Some s => if String.eqb s "" then d else s
  end.

(** [String.prototype.toLowerCase] on code units below 256: [A-Z] and the
    Latin-1 capitals (all of 192..222 but the multiplication sign 215)
    move up by 32. *)
Definition lower_char (c : ascii) : ascii :=
  let n := nat_of_ascii c in
  if ((65 <=? n) && (n <=? 90))%nat then ascii_of_nat (n + 32)
  else if ((192 <=? n) && (n <=? 222) && negb (n =? 215))%nat
       then ascii_of_nat (n + 32)
  else c.

Fixpoint toLowerCase (s : string) : string :=
  match s with
  | EmptyString => EmptyString
  | String c s' => String (lower_char c) (toLowerCase s')
  end.

(** [hay.startsWith(needle)]. *)
Fixpoint startsWith (needle hay : string) : bool :=
  match needle, hay with
  | EmptyString, _ => true
  | String a n', String b h' => Ascii.eqb a b && startsWith n' h'
  | String _ _, EmptyString => false
  end.

(** [hay.includes(needle)]. *)
Fixpoint includes (needle hay : string) : bool :=
  startsWith needle hay ||
  match hay with
  | EmptyString => false
  | String _ h' => includes needle h'
  end.

(** [list.includes(x)] on an array of strings. *)
Definition array_includes (l : list string) (x : string) : bool :=
  existsb (String.eqb x) l.

(** [parts.join(sep)]. *)
Definition join (sep : string) (parts : list string) : string :=
  String.concat sep parts.

(** A template literal applied to an integer. *)
Definition number_to_string (z : Z) : string :=
  NilZero.string_of_int (Z.to_int z).

(** [\s] of a regular expression, on code units below 256: tab, line feed,
    vertical tab, form feed, carriage return, space, no-break space. *)
Definition is_space (c : ascii) : bool :=
  let n := nat_of_ascii c in
  ((9 <=? n) && (n <=? 13) || (n =? 32) || (n =? 160))%nat.

(** [\d] of a regular expression. *)
Definition is_digit (c : ascii) : bool :=
  let n := nat_of_ascii c in ((48 <=? n) && (n <=? 57))%nat.

(** A character of the subject against a lower-case ASCII character of a
    pattern under the [i] flag: they agree up to ASCII case (a code unit
    of 128 or more never folds onto an ASCII one). *)
Definition ci_eq (p c : ascii) : bool :=
  let n := nat_of_ascii c in
  Ascii.eqb p (if ((65 <=? n) && (n <=? 90))%nat then ascii_of_nat (n + 32) else c).

Fixpoint ci_startsWith (pat hay : string) : bool :=
  match pat, hay with
  | EmptyString, _ => true
  | String a n', String b h' => ci_eq a b && ci_startsWith n' h'
  | String _ _, EmptyString => false
  end.

(** The longest prefix of [s] whose characters satisfy [p], and the rest. *)
Fixpoint span (p : ascii -> bool) (s : string) : string * string :=
  match s with
  | EmptyString => (EmptyString, EmptyString)
  | String c s' =>
      if p c then let '(a, b) := span p s' in (String c a, b)
      else (EmptyString, s)
  end.

Fixpoint drop (n : nat) (s : string) : string :=
  match n, s with
  | O, _ => s
  | S n', String _ s' => drop n' s'
  | S _, EmptyString => EmptyString
  end.

Fixpoint take (n : nat) (s : string) : string :=
  match n, s with
  | O, _ => EmptyString
  | S n', String c s' => String c (take n' s')
  | S _, EmptyString => EmptyString
  end.

(** The replacement text of [String.prototype.replace] for a pattern with
    no capture group: [$$] is a dollar sign, [$&] the match, [$`] the text
    before the match and [$'] the text after it; any other dollar sign
    stands for itself. *)
Fixpoint expand_replacement (r matched before after : string) : string :=
  match r with
  | EmptyString => EmptyString
  | String "$" (String "$" r') =>
      String "$" (expand_replacement r' matched before after)
  | String "$" (String "&" r') =>
      matched ++ expand_replacement r' matched before after
  | String "$" (String "`" r') =>
      before ++ expand_replacement r' matched before after
  | String "$" (String "'" r') =>
      after ++ expand_replacement r' matched before after
  | String c r' => String c (expand_replacement r' matched before after)
  end.

End Js.

(** ** Values exchanged with the backend *)

(** A JavaScript value as the sources handle it: what a request carries and
    what a response holds.  The keys of an object are distinct. *)
Inductive Json : Type :=
| JUndefined
| JNull
| JBool (b : bool)
| JNum (z : Z)
| JStr (s : string)
| JArr (items : list Json)
| JObj (fields : list (string * Json)).

Module JsonOps.

Fixpoint assoc (k : string) (l : list (string * Json)) : Json :=
  match l with
  | [] => JUndefined
  | (k', v) :: l' => if String.eqb k k' then v else assoc k l'
  end.

(** [j?.k]. *)
Definition opt_get (j : Json) (k : string) : Json :=
  match j with
  | JObj fields => assoc k fields
  | _ => JUndefined
  end.

(** Whether [j.k] throws a [TypeError]: it does on [undefined] and [null]. *)
Definition nullish (j : Json) : bool :=
  match j with
  | JUndefined | JNull => true
  | _ => false
  end.

(** [if (j)]. *)
Definition truthy (j : Json) : bool :=
  match j with
  | JUndefined | JNull => false
  | JBool b => b
  | JNum z => negb (z =? 0)%Z
  | JStr s => negb (String.eqb s "")
  | JArr _ | JObj _ => true
  end.

(** [a || b]. *)
Definition or_else (a b : Json) : Json := if truthy a then a else b.

(** A template literal applied to a value. *)
Fixpoint to_string (j : Json) : string :=
  match j with
  | JUndefined => "undefined"
  | JNull => "null"
  | JBool true => "true"
  | JBool false => "false"
  | JNum z => Js.number_to_string z
  | JStr s => s
  | JArr items =>
      String.concat ","
        (map (fun x => if nullish x then "" else to_string x) items)
  | JObj _ => "[object Object]"
  end.

(** [j.length]. *)
Definition length (j : Json) : Json :=
  match j with
  | JArr items => JNum (Z.of_nat (List.length items))
  | JStr s => JNum (Z.of_nat (String.length s))
  | _ => JUndefined
  end.

(** An optional string as a value. *)
Definition of_opt (o : option string) : Json :=
  match o with
  | None => JUndefined
  | Some s => JStr s
  end.

Definition of_opt_num (o : option Z) : Json :=
  match o with
  | None => JUndefined
  | Some z => JNum z
  end.

End JsonOps.

(** What a [throw] carries.  [JsErr] is an [Error] (or a subclass such as
    [TypeError]) with its name and message, [McpErr] the protocol error of
    the SDK, [ValidationErr] the error of [ParameterValidator]. *)
Inductive ErrorCode : Type := MethodNotFound | InvalidParams | InternalError.

Inductive Thrown : Type :=
| JsErr (name message : string)
| McpErr (code : ErrorCode) (message : string)
| ValidationErr (field message : string).

(** [error.message]. *)
Definition message_of (e : Thrown) : string :=
  match e with
  | JsErr _ m => m
  | McpErr _ m => m
  | ValidationErr _ m => m
  end.

(** [String(error)], as [Error.prototype.toString] builds it. *)
Definition string_of_thrown (e : Thrown) : string :=
  let name :=
    match e with
    | JsErr n _ => n
    | McpErr _ _ => "McpError"
    | ValidationErr _ _ => "ValidationError"
    end in
  let msg := message_of e in
  if String.eqb name "" then msg
  else if String.eqb msg "" then name
  else name ++ ": " ++ msg.

(** [error.message || String(error)]. *)
Definition message_or_string (e : Thrown) : string :=
  if String.eqb (message_of e) "" then string_of_thrown e else message_of e.

Inductive Method : Type := GET | POST | DELETE.

(** A call of the transport client: [get(path, params)], [post(path, body)]
    or [delete(path)]. *)
Record Request : Type := mkRequest {
  req_method : Method;
  req_path : string;
  req_payload : Json
}.

Inductive Level : Type := LogError | LogWarn | LogInfo | LogDebug.

Record LogLine : Type := mkLog {
  log_level : Level;
  log_text : string;
  log_meta : Json
}.

(** The uniform envelope.  [ResponseFormatter] is a collaborator outside the
    embedded sources: a response is the formatter call that built it. *)
Inductive MCPResponse : Type :=
| formatError (message : string) (context : Json)
| formatCreated (data : Json) (kind : string) (message : string)
| formatUpdated (data : Json) (kind : string) (updates : Json)
                (message : string) (meta : Json)
| formatSuccess (data : Json) (message : string)
| formatList (items : Json) (kind : string) (meta : Json).

(** ** Handlers as functions of the world *)

(** What a handler is given: the backend behind the transport client, the
    process-wide scope configuration, and the collaborators whose sources
    are outside the embedded files. *)
Record Env : Type := mkEnv {
  (** the answer of the backend to a request, given the requests before it:
      the [data] of the response, or the error the client throws *)
  backend : list Request -> Request -> Json + Thrown;
  (** [this.config.get().defaultProjectId] *)
  defaultProjectId : option string;
  (** [sanitizeDescription] of [utils/text-sanitizer] *)
  sanitizeDescription : option string -> Json;
  (** [IssueFields.SEARCH] of [api/field-configurations] *)
  issue_search_fields : string;
  (** [ParameterValidator]: [Some e] when the validation throws [e] *)
  validateProjectId : option string -> string -> option Thrown;
  validateRequired : option string -> string -> option Thrown;
  validateIssueId : option string -> string -> option Thrown;
  toMcpError : Thrown -> Thrown
}.

Record World : Type := mkWorld {
  requests : list Request;
  logs : list LogLine
}.

Definition empty_world : World := mkWorld [] [].

Inductive Outcome (A : Type) : Type :=
| Returned (a : A)
| Threw (e : Thrown).

Arguments Returned {A} a.
Arguments Threw {A} e.

Definition Task (A : Type) : Type := Env -> World -> Outcome A * World.

Module TaskOps.

Definition ret {A} (a : A) : Task A := fun _ w => (Returned a, w).

Definition bind {A B} (m : Task A) (k : A -> Task B) : Task B :=
  fun env w =>
    match m env w with
    | (Returned a, w') => k a env w'
    | (Threw e, w') => (Threw e, w')
    end.

Definition throw {A} (e : Thrown) : Task A := fun _ w => (Threw e, w).

(** [try { m } catch (e) { h e }]. *)
Definition catch {A} (m : Task A) (h : Thrown -> Task A) : Task A :=
  fun env w =>
    match m env w with
    | (Returned a, w') => (Returned a, w')
    | (Threw e, w') => h e env w'
    end.

(** The outcome of [m] as a value: the body of a [try] whose [catch]
    decides what happens next. *)
Definition attempt {A} (m : Task A) : Task (Outcome A) :=
  fun env w => let '(o, w') := m env w in (Returned o, w').

Definition ask : Task Env := fun env w => (Returned env, w).

(** One line written by the logger. *)
Definition emit (line : LogLine) : Task unit :=
  fun _ w => (Returned tt, mkWorld (requests w) (logs w ++ [line])%list).

Definition log (l : Level) (text : string) (meta : Json) : Task unit :=
  emit (mkLog l text meta).

(** One call of the transport client. *)
Definition send (r : Request) : Task Json :=
  fun env w =>
    let w' := mkWorld (requests w ++ [r])%list (logs w) in
    match backend env (requests w) r with
    | inl data => (Returned data, w')
    | inr e => (Threw e, w')
    end.

Definition get (path : string) (params : Json) : Task Json :=
  send (mkRequest GET path params).

Definition post (path : string) (body : Json) : Task Json :=
  send (mkRequest POST path body).

Definition when (c : bool) (m : Task unit) : Task unit :=
  if c then m else ret tt.

End TaskOps.

Import TaskOps.

Declare Scope task_scope.
Delimit Scope task_scope with task.
Notation "x <- m ;; k" := (bind m (fun x => k))
  (at level 61, m at next level, right associativity) : task_scope.
Notation "m ;; k" := (bind m (fun _ => k))
  (at level 61, right associativity) : task_scope.
Local Open Scope task_scope.

(** The text constants of the sources that a string literal cannot hold. *)
Definition nl : string := String (ascii_of_nat 10) EmptyString.
Definition dquote : string := String (ascii_of_nat 34) EmptyString.

(** [new TypeError] of a property read on [undefined] or [null]. *)
Definition type_error (j : Json) (prop : string) : Thrown :=
  JsErr "TypeError"
    ("Cannot read properties of " ++ JsonOps.to_string j
       ++ " (reading '" ++ prop ++ "')").

(** [j.k], which throws on [undefined] and [null]. *)
Definition get_prop (j : Json) (k : string) : Task Json :=
  if JsonOps.nullish j then throw (type_error j k)
  else ret (JsonOps.opt_get j k).

(** ** [api/domains/issues-api.ts] *)

Module IssueCreateParams.
Record t : Type := mk {
  summary : option string;
  description : option string;
  type : option string;
  priority : option string;
  assignee : option string;
  parentId : option string;
  devTeam : option string;
  businessProc : option string;
  sorting : option Z
}.

Definition to_json (p : t) : Json :=
  JObj [("summary", JsonOps.of_opt (summary p));
        ("description", JsonOps.of_opt (description p));
        ("priority", JsonOps.of_opt (priority p));
        ("assignee", JsonOps.of_opt (assignee p));
        ("type", JsonOps.of_opt (type p));
        ("parentId", JsonOps.of_opt (parentId p));
        ("devTeam", JsonOps.of_opt (devTeam p));
        ("businessProc", JsonOps.of_opt (businessProc p));
        ("sorting", JsonOps.of_opt_num (sorting p))].
End IssueCreateParams.

Module IssueUpdateParams.
Record t : Type := mk {
  summary : option string;
  description : option string;
  state : option string;
  priority : option string;
  assignee : option string;
  type : option string;
  estimation : option Z;
  subsystem : option string;
  tags : option (list string)
}.

Definition to_json (u : t) : Json :=
  JObj [("summary", JsonOps.of_opt (summary u));
        ("description", JsonOps.of_opt (description u));
        ("state", JsonOps.of_opt (state u));
        ("priority", JsonOps.of_opt (priority u));
        ("assignee", JsonOps.of_opt (assignee u));
        ("type", JsonOps.of_opt (type u));
        ("estimation", JsonOps.of_opt_num (estimation u));
        ("subsystem", JsonOps.of_opt (subsystem u));
        ("tags", match tags u with
                 | None => JUndefined
                 | Some l => JArr (map JStr l)
                 end)].
End IssueUpdateParams.

Module IssueQueryParams.
Record t : Type := mk {
  query : Json;
  fields : Json;
  limit : option Z;
  skip : option Z
}.
End IssueQueryParams.

(** [parts.push(x)]. *)
Definition push (x : string) (parts : list string) : list string :=
  (parts ++ [x])%list.

(** [if (c) parts.push(x)]. *)
Definition push_if (c : bool) (x : string) (parts : list string) : list string :=
  if c then push x parts else parts.

(** [n ?? 0]. *)
Definition num_or_zero (o : option Z) : Z :=
  match o with
  | None => 0%Z
  | Some z => z
  end.

(** Step 2 of [createIssue], up to the [join]: the command parts built from
    the creation parameters. *)
Definition createCommandParts (params : IssueCreateParams.t) : list string :=
  let commandParts := [] in
  (* Parent link *)
  let commandParts :=
    push_if (Js.truthy (IssueCreateParams.parentId params))
      ("subtask of " ++ Js.or_else (IssueCreateParams.parentId params) "")
      commandParts in
  (* Type *)
  let commandParts :=
    push_if (Js.truthy (IssueCreateParams.type params))
      ("Type: " ++ Js.or_else (IssueCreateParams.type params) "")
      commandParts in
  (* Priority (default: Normal) *)
  let commandParts :=
    push ("Priority: " ++ Js.or_else (IssueCreateParams.priority params) "Normal")
      commandParts in
  (* Sorting *)
  let typeStr := Js.toLowerCase (Js.or_else (IssueCreateParams.type params) "") in
  let commandParts :=
    push_if (Js.array_includes ["epic"; "user story"; "feature"] typeStr
             || negb (Js.truthy (IssueCreateParams.type params)))
      ("Sorting: "
         ++ Js.number_to_string (num_or_zero (IssueCreateParams.sorting params)))
      commandParts in
  (* Dev_Team *)
  let commandParts :=
    push_if (Js.array_includes ["task"; "feature"; "bug"; "devops"] typeStr
             && Js.truthy (IssueCreateParams.devTeam params))
      ("Dev_Team: " ++ Js.or_else (IssueCreateParams.devTeam params) "")
      commandParts in
  (* Assignee *)
  let commandParts :=
    push_if (Js.truthy (IssueCreateParams.assignee params))
      ("Assignee: " ++ Js.or_else (IssueCreateParams.assignee params) "")
      commandParts in
  commandParts.

(** [/^\d+-\d+$/.test(projectId)]. *)
Definition isInternalId (projectId : string) : bool :=
  let '(d1, rest) := Js.span Js.is_digit projectId in
  match rest with
  | String "-" rest' =>
      let '(d2, tail) := Js.span Js.is_digit rest' in
      negb (String.eqb d1 "") && negb (String.eqb d2 "") && String.eqb tail ""
  | _ => false
  end.

Definition resolveInternalProjectId (projectId : string) : Task Json :=
  if isInternalId projectId then ret (JStr projectId)
  else
    catch
      (projResponse <- get ("/admin/projects/" ++ projectId)
                           (JObj [("fields", JStr "id")]) ;;
       ret (JsonOps.or_else (JsonOps.opt_get projResponse "id") (JStr projectId)))
      (fun _ => ret (JStr projectId)).

(** The request of [applyCommand]. *)
Definition command_request (issueId : Json) (command : string) : Request :=
  mkRequest POST "/commands"
    (JObj [("query", JStr command);
           ("issues", JArr [JObj [("idReadable", issueId)]])]).

(** [applyCommand]: one command against one issue. *)
Definition applyCommand (issueId : Json) (command : string) : Task Json :=
  send (command_request issueId command).

(** [x === s] for a string literal [s]. *)
Definition is_str (x : Json) (s : string) : bool :=
  match x with
  | JStr s' => String.eqb s' s
  | _ => false
  end.

(** [items.find(f => f.name === name)]. *)
Fixpoint find_by_name (name : string) (items : list Json) : Task Json :=
  match items with
  | [] => ret JUndefined
  | f :: rest =>
      n <- get_prop f "name" ;;
      if is_str n name then ret f else find_by_name name rest
  end.

(** [customFields?.find(f => f.name === name)]. *)
Definition find_custom_field (name : string) (customFields : Json) : Task Json :=
  match customFields with
  | JUndefined | JNull => ret JUndefined
  | JArr items => find_by_name name items
  | _ => throw (JsErr "TypeError" "customFields.find is not a function")
  end.

(** The request of step 1 of [createIssue]. *)
Definition draft_request (env : Env) (internalProjectId : Json)
    (params : IssueCreateParams.t) : Request :=
  mkRequest POST "/users/me/drafts"
    (JObj [("project", JObj [("id", internalProjectId)]);
           ("summary", JsonOps.of_opt (IssueCreateParams.summary params));
           ("description",
            sanitizeDescription env (IssueCreateParams.description params));
           ("usesMarkdown", JBool true)]).

(** The request of step 2 of [createIssue]. *)
Definition draft_command_request (draftId : Json) (command : string) : Request :=
  mkRequest POST "/commands"
    (JObj [("query", JStr command);
           ("issues", JArr [JObj [("id", draftId)]])]).

(** The request of step 3 of [createIssue]. *)
Definition submit_request (draftId : Json) : Request :=
  mkRequest POST
    ("/issues?draftId=" ++ JsonOps.to_string draftId
       ++ "&fields=id,idReadable,summary,$type")
    (JObj []).

(** Step 4 of [createIssue]: the business process, by command and, when the
    command fails, by a direct write to the custom field. *)
Definition setBusinessProc (idReadable : Json) (businessProc : string) : Task unit :=
  let idr := JsonOps.to_string idReadable in
  catch
    (applyCommand idReadable ("Business_proc " ++ businessProc) ;; ret tt)
    (fun _ =>
       catch
         (fieldsResp <- get ("/issues/" ++ idr)
            (JObj [("fields", JStr "customFields(id,name,projectCustomField(id))")]) ;;
          bpField <- find_custom_field "Business_proc"
                       (JsonOps.opt_get fieldsResp "customFields") ;;
          if JsonOps.truthy bpField then
            post ("/issues/" ++ idr ++ "/customFields/"
                    ++ JsonOps.to_string
                         (JsonOps.or_else
                            (JsonOps.opt_get
                               (JsonOps.opt_get bpField "projectCustomField") "id")
                            (JsonOps.opt_get bpField "id")))
                 (JObj [("value", JObj [("name", JStr businessProc)])]) ;;
            ret tt
          else ret tt)
         (fun bpErr =>
            log LogWarn
              ("Created " ++ idr ++ " but failed to set Business_proc: "
                 ++ message_of bpErr)
              JUndefined)).

(** The outer [catch] of [createIssue]. *)
Definition createIssue_failure (projectId : string) (summary : Json)
    (error : Thrown) : MCPResponse :=
  let m := message_of error in
  if Js.includes "404" m || Js.includes "not found" m then
    formatError
      ("Project " ++ projectId ++ " not found. Please check the project ID.")
      (JObj [("projectId", JStr projectId); ("summary", summary)])
  else if Js.includes "403" m || Js.includes "Forbidden" m then
    formatError
      ("You don't have permission to create issues in project " ++ projectId ++ ".")
      (JObj [("projectId", JStr projectId); ("action", JStr "create")])
  else if Js.includes "circular structure" m || Js.includes "ECONNREFUSED" m
          || Js.includes "ETIMEDOUT" m || Js.includes "ENOTFOUND" m then
    formatError
      "Network error connecting to YouTrack. Check VPN/network connectivity."
      (JObj [("projectId", JStr projectId); ("action", JStr "create")])
  else
    formatError (message_or_string error)
      (JObj [("projectId", JStr projectId); ("summary", summary);
             ("action", JStr "create")]).

(** Steps 3 and 4 of [createIssue]: the draft submitted as a real issue,
    then the business process when one was given. *)
Definition submitDraft (params : IssueCreateParams.t) (draftId : Json)
  : Task MCPResponse :=
  let summary := JsonOps.of_opt (IssueCreateParams.summary params) in
  (* Step 3: submit the draft as a real issue *)
  issue <- send (submit_request draftId) ;;
  readable <- get_prop issue "idReadable" ;;
  let idReadable := JsonOps.or_else readable (JsonOps.opt_get issue "id") in
  (* Step 4 (optional): business process *)
  when (Js.truthy (IssueCreateParams.businessProc params)
        && JsonOps.truthy idReadable)
    (setBusinessProc idReadable
       (Js.or_else (IssueCreateParams.businessProc params) "")) ;;
  ret (formatCreated issue "Issue"
         ("Issue " ++ dquote ++ JsonOps.to_string summary ++ dquote
            ++ " created successfully as " ++ JsonOps.to_string idReadable)).

(** The response of [createIssue] when the command of step 2 is refused. *)
Definition fields_not_applied (projectId : string) (draftId : Json)
    (command cmdMsg : string) : MCPResponse :=
  formatError ("Draft created but failed to apply fields: " ++ cmdMsg)
    (JObj [("draftId", draftId); ("command", JStr command);
           ("projectId", JStr projectId)]).

Definition createIssue (projectId : string) (params : IssueCreateParams.t)
  : Task MCPResponse :=
  let summary := JsonOps.of_opt (IssueCreateParams.summary params) in
  catch
    (internalProjectId <- resolveInternalProjectId projectId ;;
     env <- ask ;;
     (* Step 1: create draft *)
     draftResponse <- send (draft_request env internalProjectId params) ;;
     let draftId := JsonOps.opt_get draftResponse "id" in
     if negb (JsonOps.truthy draftId) then
       ret (formatError "Failed to create draft — no ID returned"
              (JObj [("projectId", JStr projectId); ("summary", summary)]))
     else
       (* Step 2: build the command string and apply it to the draft *)
       let command := Js.join " " (createCommandParts params) in
       applied <- attempt (send (draft_command_request draftId command)) ;;
       match applied with
       | Threw cmdError =>
           let cmdMsg := message_or_string cmdError in
           log LogWarn
             ("Command failed for draft " ++ JsonOps.to_string draftId
                ++ ": " ++ cmdMsg) JUndefined ;;
           ret (fields_not_applied projectId draftId command cmdMsg)
       | Returned _ => submitDraft params draftId
       end)
    (fun error => ret (createIssue_failure projectId summary error)).

(** The integers a JavaScript number holds exactly, with its neighbours:
    those of absolute value below [2^53]. *)
Definition safe_integer (z : Z) : Prop := (Z.abs z < 2 ^ 53)%Z.

(** The estimation of [updateIssue]: minutes as a duration in the command
    syntax of the backend.  The minutes are an integer; on a
    [safe_integer], [Math.floor(x / 60)] is the floor division of [Z] (the
    quotient of the doubles is within [2^-6] of the exact one, which is an
    integer or at least [1/60] away from one), [x % 60] is exact and takes
    the sign of [x], as [Z.rem] does, and both print with all their digits.
    From [2^53] up the quotient of the doubles can round to another integer
    and the digits printed can differ: the theorems about the text of an
    estimation are stated for safe integers. *)
Definition estimationStr (estimation : Z) : string :=
  let hours := (estimation / 60)%Z in
  let minutes := Z.rem estimation 60 in
  let estParts := [] in
  let estParts :=
    push_if (negb (hours =? 0)%Z) (Js.number_to_string hours ++ "h") estParts in
  let estParts :=
    push_if (negb (minutes =? 0)%Z) (Js.number_to_string minutes ++ "m") estParts in
  if negb (List.length estParts =? 0)%nat then Js.join " " estParts else "0m".

(** The command parts of [updateIssue]: one per field present. *)
Definition updateCommandParts (updates : IssueUpdateParams.t) : list string :=
  let commandParts := [] in
  let commandParts :=
    push_if (Js.truthy (IssueUpdateParams.state updates))
      ("State: " ++ Js.or_else (IssueUpdateParams.state updates) "")
      commandParts in
  let commandParts :=
    push_if (Js.truthy (IssueUpdateParams.priority updates))
      ("Priority: " ++ Js.or_else (IssueUpdateParams.priority updates) "")
      commandParts in
  let commandParts :=
    push_if (Js.truthy (IssueUpdateParams.type updates))
      ("Type: " ++ Js.or_else (IssueUpdateParams.type updates) "")
      commandParts in
  let commandParts :=
    push_if (Js.truthy (IssueUpdateParams.assignee updates))
      ("Assignee: " ++ Js.or_else (IssueUpdateParams.assignee updates) "")
      commandParts in
  let commandParts :=
    push_if (Js.truthy (IssueUpdateParams.subsystem updates))
      ("Subsystem: " ++ Js.or_else (IssueUpdateParams.subsystem updates) "")
      commandParts in
  match IssueUpdateParams.estimation updates with
  | Some estimation => push ("Estimation " ++ estimationStr estimation) commandParts
  | None => commandParts
  end.

(** [basicFieldPayload]: the fields written directly. *)
Definition basicFieldPayload (env : Env) (updates : IssueUpdateParams.t)
  : list (string * Json) :=
  ((if Js.truthy (IssueUpdateParams.summary updates)
    then [("summary", JsonOps.of_opt (IssueUpdateParams.summary updates))]
    else [])
   ++
   (if Js.truthy (IssueUpdateParams.description updates)
    then [("description",
           sanitizeDescription env (IssueUpdateParams.description updates))]
    else []))%list.

(** The loop of [updateIssue]: each command in a call of its own, a failure
    recorded and the loop carried on. *)
Fixpoint applyCommands (issueId : string) (commandParts : list string)
    (commandErrors : list string) : Task (list string) :=
  match commandParts with
  | [] => ret commandErrors
  | cmd :: rest =>
      applied <- attempt (applyCommand (JStr issueId) cmd) ;;
      match applied with
      | Returned _ => applyCommands issueId rest commandErrors
      | Threw err =>
          let msg := message_or_string err in
          log LogWarn
            ("Failed to apply command to issue " ++ issueId ++ ": " ++ cmd
               ++ " -> " ++ msg) JUndefined ;;
          applyCommands issueId rest (push (cmd ++ ": " ++ msg) commandErrors)
      end
  end.

Definition basic_fields_request (env : Env) (issueId : string)
    (updates : IssueUpdateParams.t) : Request :=
  mkRequest POST ("/issues/" ++ issueId)
    (JObj (("$type", JStr "Issue") :: basicFieldPayload env updates)).

Definition tags_request (issueId : string) (tags : list string) : Request :=
  mkRequest POST ("/issues/" ++ issueId)
    (JObj [("tags", JArr (map (fun t => JObj [("name", JStr t)]) tags))]).

Definition refresh_request (issueId : string) : Request :=
  mkRequest GET ("/issues/" ++ issueId)
    (JObj [("fields",
            JStr "id,idReadable,summary,description,customFields(name,value(name)),project(shortName),tags(name)")]).

(** [updates.tags && updates.tags.length > 0]. *)
Definition tags_to_write (updates : IssueUpdateParams.t) : list string :=
  match IssueUpdateParams.tags updates with
  | Some l => l
  | None => []
  end.

(** The [meta] of the response of [updateIssue]. *)
Definition update_meta (commandParts commandErrors : list string) : Json :=
  JObj ([("appliedCommands", JNum (Z.of_nat (List.length commandParts)));
         ("commandErrorsCount", JNum (Z.of_nat (List.length commandErrors)))]
        ++ (if negb (List.length commandErrors =? 0)%nat
            then [("commandErrors", JArr (map JStr commandErrors))]
            else []))%list.

Definition updateIssue (issueId : string) (updates : IssueUpdateParams.t)
  : Task MCPResponse :=
  env <- ask ;;
  let commandParts := updateCommandParts updates in
  (* Apply each command individually *)
  commandErrors <- applyCommands issueId commandParts [] ;;
  (* Basic fields, by a direct write *)
  commandErrors <-
    (if negb (List.length (basicFieldPayload env updates) =? 0)%nat then
       catch
         (send (basic_fields_request env issueId updates) ;; ret commandErrors)
         (fun postErr =>
            log LogError
              ("Failed to update basic fields for issue " ++ issueId ++ ": "
                 ++ string_of_thrown postErr) JUndefined ;;
            ret (push ("Basic fields: " ++ message_of postErr) commandErrors))
     else ret commandErrors) ;;
  (* Tags, by a direct write *)
  commandErrors <-
    (if negb (List.length (tags_to_write updates) =? 0)%nat then
       catch
         (send (tags_request issueId (tags_to_write updates)) ;; ret commandErrors)
         (fun tagErr =>
            log LogWarn
              ("Failed to update tags for issue " ++ issueId ++ ": "
                 ++ string_of_thrown tagErr) JUndefined ;;
            ret (push ("Tags: " ++ message_of tagErr) commandErrors))
     else ret commandErrors) ;;
  (* Fetch the updated issue for the response *)
  updatedIssue <-
    catch (send (refresh_request issueId))
      (fun fetchErr =>
         log LogWarn
           ("Could not fetch refreshed issue " ++ issueId ++ ": "
              ++ string_of_thrown fetchErr) JUndefined ;;
         ret JNull) ;;
  ret (formatUpdated
         (JsonOps.or_else updatedIssue (JObj [("id", JStr issueId)]))
         "Issue" (IssueUpdateParams.to_json updates)
         ("Issue " ++ issueId ++ " updated"
            ++ (if negb (List.length commandErrors =? 0)%nat
                then " with partial errors" else " successfully"))
         (update_meta commandParts commandErrors)).

(** [n || d] on an optional number. *)
Definition num_or_else (o : option Z) (d : Z) : Z :=
  match o with
  | None => d
  | Some z => if (z =? 0)%Z then d else z
  end.

Definition query_request (env : Env) (params : IssueQueryParams.t) : Request :=
  mkRequest GET "/issues"
    (JObj [("query", IssueQueryParams.query params);
           ("fields", JsonOps.or_else (IssueQueryParams.fields params)
                        (JStr (issue_search_fields env)));
           ("$top", JNum (num_or_else (IssueQueryParams.limit params) 50));
           ("$skip", JNum (num_or_else (IssueQueryParams.skip params) 0))]).

Definition queryIssues (params : IssueQueryParams.t) : Task MCPResponse :=
  let query := IssueQueryParams.query params in
  catch
    (env <- ask ;;
     data <- send (query_request env params) ;;
     let issues := JsonOps.or_else data (JArr []) in
     ret (formatList issues "issue"
            (JObj [("totalCount", JsonOps.length issues);
                   ("filters", JObj [("query", query)])])))
    (fun error =>
       let m := message_of error in
       if Js.includes "400" m || Js.includes "Bad Request" m then
         ret (formatError
                ("Invalid query syntax: " ++ dquote ++ JsonOps.to_string query
                   ++ dquote ++ ". Please check your search query.")
                (JObj [("query", query);
                       ("hint", JStr ("Example queries: " ++ dquote
                          ++ "project: MYPROJECT" ++ dquote ++ ", " ++ dquote
                          ++ "state: Open assignee: me" ++ dquote ++ ", "
                          ++ dquote ++ "#Bug" ++ dquote))]))
       else
         ret (formatError (message_or_string error)
                (JObj [("query", query); ("action", JStr "query")]))).

(** [smartSearchIssues(searchQuery, { projectId })]. *)
Definition smartSearchIssues (searchQuery : Json) (projectId : option string)
  : Task MCPResponse :=
  let query :=
    if Js.truthy projectId
    then JStr ("project: " ++ Js.or_else projectId "" ++ " "
                 ++ JsonOps.to_string searchQuery)
    else searchQuery in
  queryIssues (IssueQueryParams.mk query JUndefined None None).

Definition count_request (query : Json) : Request :=
  mkRequest POST "/issuesGetter/count" (JObj [("query", query)]).

(** [x ?? d]. *)
Definition nullish_or (x d : Json) : Json :=
  if JsonOps.nullish x then d else x.

Definition getIssueCount (query : Json) : Task MCPResponse :=
  catch
    (data <- send (count_request query) ;;
     let count := nullish_or (JsonOps.opt_get data "count") (JNum 0) in
     ret (formatSuccess (JObj [("count", count); ("query", query)])
            ("Found " ++ JsonOps.to_string count ++ " issues matching query")))
    (fun error =>
       ret (formatError ("Failed to get issue count: " ++ message_of error)
              (JObj [("query", query)]))).

(** ** [server-core.ts] *)

Definition missing_project_message : string :=
  "Project ID is required. Either:" ++ nl
  ++ "1. Set PROJECT_ID in environment/config for single-project mode (recommended)"
  ++ nl
  ++ "2. Provide projectId parameter in each request for multi-project access".

Definition missing_project_error : Thrown :=
  JsErr "Error" missing_project_message.

(** The warning of a blocked override. *)
Definition override_warning (configured attempted : string) : LogLine :=
  mkLog LogWarn "Project ID override attempt blocked"
    (JObj [("configuredProject", JStr configured);
           ("attemptedProject", JStr attempted);
           ("message",
            JStr "Using configured project ID to enforce data isolation")]).

(** [resolveProjectId(providedProjectId, allowOverride = false)]. *)
Definition resolveProjectId (providedProjectId : option string)
    (allowOverride : bool) : Task string :=
  env <- ask ;;
  let configuredProjectId := defaultProjectId env in
  if Js.truthy configuredProjectId then
    let configured := Js.or_else configuredProjectId "" in
    let attempted := Js.or_else providedProjectId "" in
    when (Js.truthy providedProjectId
          && negb (String.eqb attempted configured)
          && negb allowOverride)
      (emit (override_warning configured attempted)) ;;
    ret configured
  else if negb (Js.truthy providedProjectId) then
    throw missing_project_error
  else ret (Js.or_else providedProjectId "").

(** [/project:\s*\S+/i] anchored at the start of [s]: the text matched and
    the text after it.  The white space is taken greedily and must be
    followed by a character that is not white space. *)
Definition match_project_clause (s : string) : option (string * string) :=
  if Js.ci_startsWith "project:" s then
    let '(ws, r1) := Js.span Js.is_space (Js.drop 8 s) in
    let '(tok, r2) := Js.span (fun c => negb (Js.is_space c)) r1 in
    if String.eqb tok "" then None
    else Some (Js.take 8 s ++ ws ++ tok, r2)
  else None.

(** [(before + s).replace(/project:\s*\S+/i, replacement)], the search
    having reached [s]: the leftmost match only is replaced (the pattern has
    no [g] flag), and a subject without a match is returned as it is. *)
Fixpoint replace_project_clause_from (before s replacement : string) : string :=
  match match_project_clause s with
  | Some (matched, after) =>
      before ++ Js.expand_replacement replacement matched before after ++ after
  | None =>
      match s with
      | EmptyString => before
      | String c s' =>
          replace_project_clause_from (before ++ String c EmptyString) s' replacement
      end
  end.

Definition replace_project_clause (query replacement : string) : string :=
  replace_project_clause_from EmptyString query replacement.

(** [fields.split(',')]. *)
Fixpoint split_comma_from (cur s : string) : list string :=
  match s with
  | EmptyString => [cur]
  | String c s' =>
      if Ascii.eqb c "," then cur :: split_comma_from EmptyString s'
      else split_comma_from (cur ++ String c EmptyString) s'
  end.

Definition split_comma (s : string) : list string :=
  split_comma_from EmptyString s.

Module QueryArgs.
(** The arguments of the [query] tool.  [other] holds whatever else the
    caller sent (a [projectId], say): the handler reads none of it. *)
Record t : Type := mk {
  query : option string;
  fields : option string;
  limit : option Z;
  other : list (string * Json)
}.
End QueryArgs.

(** The scoping of the query text in [handleQueryIssues], once the project
    id is resolved and the query is a string. *)
Definition scopeQuery (env : Env) (projectId query : string) : string :=
  if negb (String.eqb projectId "") then
    if negb (Js.includes "project:" (Js.toLowerCase query)) then
      "project: " ++ projectId ++ " " ++ query
    else if Js.truthy (defaultProjectId env) then
      replace_project_clause query ("project: " ++ projectId)
    else query
  else query.

Definition default_query_fields : Json :=
  JArr (map JStr ["id"; "summary"; "description"; "state"; "priority";
                  "reporter"; "assignee"]).

Definition handleQueryIssues (args : QueryArgs.t) : Task MCPResponse :=
  (* Enforce project scoping *)
  projectId <- resolveProjectId None false ;;
  env <- ask ;;
  scopedQuery <-
    (if negb (String.eqb projectId "") then
       match QueryArgs.query args with
       | None => throw (type_error JUndefined "toLowerCase")
       | Some query =>
           when (Js.includes "project:" (Js.toLowerCase query)
                 && Js.truthy (defaultProjectId env))
             (log LogWarn
                "Query contains project filter but PROJECT_ID is configured - enforcing config project"
                (JObj [("configuredProject",
                        JsonOps.of_opt (defaultProjectId env));
                       ("originalQuery", JStr query)])) ;;
           ret (JStr (scopeQuery env projectId query))
       end
     else ret (JsonOps.of_opt (QueryArgs.query args))) ;;
  queryIssues
    (IssueQueryParams.mk scopedQuery
       (if Js.truthy (QueryArgs.fields args)
        then JArr (map JStr (split_comma (Js.or_else (QueryArgs.fields args) "")))
        else default_query_fields)
       (Some (num_or_else (QueryArgs.limit args) 50))
       None).

(** The actions of the [issues] tool that reach [createIssue],
    [updateIssue] and the three search paths.  The other actions of the
    tool are keyed by an issue id and are not embedded. *)
Inductive IssuesAction : Type := Create | Update | Query | Search | Count.

Definition action_name (a : IssuesAction) : string :=
  match a with
  | Create => "create"
  | Update => "update"
  | Query => "query"
  | Search => "search"
  | Count => "count"
  end.

Module IssuesArgs.
Record t : Type := mk {
  action : IssuesAction;
  projectId : option string;
  issueId : option string;
  summary : option string;
  description : option string;
  query : option string;
  state : option string;
  priority : option string;
  assignee : option string;
  type : option string;
  parentId : option string;
  devTeam : option string;
  businessProc : option string;
  sorting : option Z;
  fields : option string;
  limit : option Z
}.
End IssuesArgs.

(** A call of [ParameterValidator]: it throws or it passes. *)
Definition validate (check : option Thrown) : Task unit :=
  match check with
  | Some e => throw e
  | None => ret tt
  end.

(** The first [switch] of [handleIssuesManage]: the parameters an action
    needs, checked before anything is sent. *)
Definition validateIssuesArgs (args : IssuesArgs.t) : Task unit :=
  catch
    (env <- ask ;;
     match IssuesArgs.action args with
     | Create =>
         resolved <- resolveProjectId (IssuesArgs.projectId args) false ;;
         validate (validateProjectId env (Some resolved) "projectId") ;;
         validate (validateRequired env (IssuesArgs.summary args) "summary")
     | Update =>
         validate (validateIssueId env (IssuesArgs.issueId args) "issueId")
     | Query | Search | Count =>
         validate (validateRequired env (IssuesArgs.query args) "query")
     end)
    (fun error =>
       env <- ask ;;
       log LogError "Issue parameter validation failed"
         (JObj [("action", JStr (action_name (IssuesArgs.action args)));
                ("projectId", JsonOps.of_opt (IssuesArgs.projectId args));
                ("issueId", JsonOps.of_opt (IssuesArgs.issueId args));
                ("error", JStr (message_of error))]) ;;
       match error with
       | ValidationErr _ _ => throw (toMcpError env error)
       | _ => throw error
       end).

Definition handleIssuesManage (args : IssuesArgs.t) : Task MCPResponse :=
  validateIssuesArgs args ;;
  match IssuesArgs.action args with
  | Create =>
      resolved <- resolveProjectId (IssuesArgs.projectId args) false ;;
      createIssue resolved
        (IssueCreateParams.mk
           (IssuesArgs.summary args) (IssuesArgs.description args)
           (IssuesArgs.type args) (IssuesArgs.priority args)
           (IssuesArgs.assignee args) (IssuesArgs.parentId args)
           (IssuesArgs.devTeam args) (IssuesArgs.businessProc args)
           (IssuesArgs.sorting args))
  | Update =>
      updateIssue (JsonOps.to_string (JsonOps.of_opt (IssuesArgs.issueId args)))
        (IssueUpdateParams.mk
           (IssuesArgs.summary args) (IssuesArgs.description args)
           (IssuesArgs.state args) (IssuesArgs.priority args)
           (IssuesArgs.assignee args) (IssuesArgs.type args)
           None None None)
  | Query =>
      (* Use handleQueryIssues to apply project scoping *)
      handleQueryIssues
        (QueryArgs.mk (IssuesArgs.query args) (IssuesArgs.fields args)
           (IssuesArgs.limit args) [])
  | Search =>
      (* Apply project scoping to search *)
      resolved <- resolveProjectId (IssuesArgs.projectId args) false ;;
      smartSearchIssues (JsonOps.of_opt (IssuesArgs.query args)) (Some resolved)
  | Count =>
      (* "with project scoping applied via handleQueryIssues logic" *)
      if negb (Js.truthy (IssuesArgs.query args)) then
        throw (JsErr "Error" "query is required for count action")
      else getIssueCount (JsonOps.of_opt (IssuesArgs.query args))
  end.

(** A [CallToolRequest] for one of the two tools embedded here. *)
Inductive ToolCall : Type :=
| CallQuery (args : QueryArgs.t)
| CallIssues (args : IssuesArgs.t).

Definition tool_name (c : ToolCall) : string :=
  match c with
  | CallQuery _ => "query"
  | CallIssues _ => "issues"
  end.

(** The handler the [switch] of [setupToolHandlers] chooses for a call. *)
Definition tool_handler (c : ToolCall) : Task MCPResponse :=
  match c with
  | CallIssues args => handleIssuesManage args
  | CallQuery args => handleQueryIssues args
  end.

(** The request handler of [setupToolHandlers], at the two tools. *)
Definition callTool (c : ToolCall) : Task MCPResponse :=
  catch
    (match c with
     | CallIssues args => handleIssuesManage args
     | CallQuery args => handleQueryIssues args
     end)
    (fun error =>
       log LogError "Tool execution error"
         (JObj [("tool", JStr (tool_name c));
                ("error", JStr (message_of error))]) ;;
       match error with
       | McpErr _ _ => throw error
       | _ =>
           throw (McpErr InternalError
                    ("Tool execution failed: " ++ message_of error))
       end).

(** ** Reading a run *)

(** Run a handler from an empty world. *)
Definition run {A} (env : Env) (m : Task A) : Outcome A * World :=
  m env empty_world.

(** Whether a request went to the submission endpoint of [createIssue]. *)
Definition is_submission (r : Request) : bool :=
  match req_method r with
  | POST => Js.startsWith "/issues?draftId=" (req_path r)
  | _ => false
  end.

Definition submitted (w : World) : bool := existsb is_submission (requests w).

(** The query text a request hands to the backend. *)
Definition query_of (r : Request) : Json :=
  JsonOps.opt_get (req_payload r) "query".

(** ** Sample environments

    Concrete collaborators and backends on which the handlers are run in
    the examples below.  The validator here only rejects a missing value;
    the theorems hold for any validator. *)

Definition sample_required (v : option string) (field : string) : option Thrown :=
  if Js.truthy v then None
  else Some (ValidationErr field (field ++ " is required")).

Definition sample_toMcpError (e : Thrown) : Thrown :=
  McpErr InvalidParams (message_of e).

Definition sample_env (b : list Request -> Request -> Json + Thrown)
    (configured : option string) : Env :=
  mkEnv b configured JsonOps.of_opt "id,summary"
    sample_required sample_required sample_required sample_toMcpError.

(** A backend that accepts everything and answers with an empty object. *)
Definition backend_ok : list Request -> Request -> Json + Thrown :=
  fun _ _ => inl (JObj []).

(** A backend that creates drafts and issues, and rejects every command. *)
Definition backend_rejecting_commands : list Request -> Request -> Json + Thrown :=
  fun _ r =>
    if String.eqb (req_path r) "/commands" then
      inr (JsErr "Error" "Unknown field value")
    else if String.eqb (req_path r) "/users/me/drafts" then
      inl (JObj [("id", JStr "draft-7")])
    else inl (JObj [("id", JStr "2-15"); ("idReadable", JStr "TEAM-15")]).

(** A backend that rejects the commands naming the priority and accepts
    everything else. *)
Definition backend_rejecting_priority : list Request -> Request -> Json + Thrown :=
  fun _ r =>
    if Js.startsWith "Priority:" (JsonOps.to_string (query_of r)) then
      inr (JsErr "Error" "Unknown priority")
    else inl (JObj [("id", JStr "2-15"); ("idReadable", JStr "TEAM-15")]).

(** The creation of the end-to-end scenario: a task for the backend team. *)
Definition task_params : IssueCreateParams.t :=
  IssueCreateParams.mk (Some "X") None (Some "Task") None None None
    (Some "Backend") None None.

(** An epic with a sorting value. *)
Definition epic_params : IssueCreateParams.t :=
  IssueCreateParams.mk (Some "Roadmap") None (Some "Epic") (Some "Major") None
    None (Some "Backend") None (Some 7%Z).

(** ** Clauses of a synthesized command *)

(** The clauses of a given field among the command parts: the parts that
    start with the name of the field. *)
Definition clauses (field : string) (parts : list string) : list string :=
  filter (Js.startsWith field) parts.

(** The place of a command part in the ordering contract of the creation
    command: parent link, type, priority, sorting, dev team, assignee. *)
Definition clause_rank (part : string) : option nat :=
  if Js.startsWith "subtask of " part then Some 0
  else if Js.startsWith "Type: " part then Some 1
  else if Js.startsWith "Priority: " part then Some 2
  else if Js.startsWith "Sorting: " part then Some 3
  else if Js.startsWith "Dev_Team: " part then Some 4
  else if Js.startsWith "Assignee: " part then Some 5
  else None.

(** One command part comes before another in the ordering contract. *)
Definition precedes (a b : string) : Prop :=
  match clause_rank a, clause_rank b with
  | Some x, Some y => x < y
  | _, _ => False
  end.

(** A type was supplied: the parameter is there and is not the empty
    string, which the source treats as no type. *)
Definition supplied (o : option string) : Prop :=
  exists s, o = Some s /\ s <> "".

(** The lower-cased type is one of [names]. *)
Definition type_among (names : list string) (params : IssueCreateParams.t) : Prop :=
  exists t, IssueCreateParams.type params = Some t /\ In (Js.toLowerCase t) names.

(** ** Traces *)

(** The requests of [w'] are those of [w] and some more. *)
Definition extends (w w' : World) : Prop :=
  exists rest, requests w' = (requests w ++ rest)%list.

(** A handler only ever adds to the requests made. *)
Definition monotone {A} (m : Task A) : Prop :=
  forall env w, extends w (snd (m env w)).

(** What the command errors of an update should be: for each command the
    backend refuses, in the order of the commands, the command, a colon and
    the message of the refusal.  The backend sees each command after the
    ones before it. *)
Fixpoint command_failures (env : Env) (history : list Request)
    (issueId : string) (commands : list string) : list string :=
  match commands with
  | [] => []
  | cmd :: rest =>
      List.app
        match backend env history (command_request (JStr issueId) cmd) with
        | inr err => [cmd ++ ": " ++ message_or_string err]
        | inl _ => []
        end
        (command_failures env
           (List.app history [command_request (JStr issueId) cmd]) issueId rest)
  end.

(** What a direct write adds to the errors of an update: nothing when
    there is nothing to write or the write goes through, and the label with
    the message of the refusal otherwise. *)
Definition write_failures (env : Env) (history : list Request)
    (label : string) (writes : list Request) : list string :=
  match writes with
  | [] => []
  | r :: _ =>
      match backend env history r with
      | inr err => [label ++ message_of err]
      | inl _ => []
      end
  end.

(** The direct write of the summary and the description of an update. *)
Definition basic_writes (env : Env) (issueId : string)
    (updates : IssueUpdateParams.t) : list Request :=
  if Js.truthy (IssueUpdateParams.summary updates)
     || Js.truthy (IssueUpdateParams.description updates)
  then [basic_fields_request env issueId updates]
  else [].

(** The direct write of the tags of an update. *)
Definition tag_writes (issueId : string) (updates : IssueUpdateParams.t)
  : list Request :=
  match IssueUpdateParams.tags updates with
  | Some (t :: ts) => [tags_request issueId (t :: ts)]
  | _ => []
  end.

(** An update of the state, the priority and the assignee, with a summary
    and a tag. *)
Definition three_field_update : IssueUpdateParams.t :=
  IssueUpdateParams.mk (Some "s") None (Some "Open") (Some "Bogus") (Some "me")
    None None None (Some ["a"]).

(** An update of the summary alone: no command, one direct write. *)
Definition summary_update : IssueUpdateParams.t :=
  IssueUpdateParams.mk (Some "s") None None None None None None None None.

(** A backend that refuses every write and answers every read. *)
Definition backend_read_only : list Request -> Request -> Json + Thrown :=
  fun _ r =>
    match req_method r with
    | GET => inl (JObj [("id", JStr "2-15"); ("idReadable", JStr "TEAM-1")])
    | _ => inr (JsErr "Error" "read-only")
    end.

(** The arguments of a [count] over the issues of another project. *)
Definition count_other_project : IssuesArgs.t :=
  IssuesArgs.mk Count (Some "OTHER") None None None (Some "project: OTHER")
    None None None None None None None None None None.

(** The request of [handleQueryIssues] for a scoped query. *)
Definition scoped_query_request (env : Env) (args : QueryArgs.t)
    (scopedQuery : string) : Request :=
  query_request env
    (IssueQueryParams.mk (JStr scopedQuery)
       (if Js.truthy (QueryArgs.fields args)
        then JArr (map JStr (split_comma (Js.or_else (QueryArgs.fields args) "")))
        else default_query_fields)
       (Some (num_or_else (QueryArgs.limit args) 50))
       None).

(** The duration of an estimation in the words of the specification: the
    hours are the floor of the minutes over 60, the remainder is the minutes
    modulo 60; an [h] token for positive hours, an [m] token for a positive
    remainder, and [0m] when there is neither. *)
Definition duration_tokens (minutes : Z) : list string :=
  let hours := (minutes / 60)%Z in
  let remainder := (minutes mod 60)%Z in
  List.app
    (if (0 <? hours)%Z then [Js.number_to_string hours ++ "h"] else [])
    (if (0 <? remainder)%Z then [Js.number_to_string remainder ++ "m"] else []).

Definition duration_text (minutes : Z) : string :=
  match duration_tokens minutes with
  | [] => "0m"
  | tokens => Js.join " " tokens
  end.

(** The duration as the source writes it, for hours and a remainder of
    either sign: an [h] token for hours other than zero, an [m] token for a
    remainder other than zero, and [0m] when both are zero. *)
Definition signed_duration_text (hours remainder : Z) : string :=
  let h := Js.number_to_string hours ++ "h" in
  let m := Js.number_to_string remainder ++ "m" in
  match (hours =? 0)%Z, (remainder =? 0)%Z with
  | true, true => "0m"
  | true, false => m
  | false, true => h
  | false, false => h ++ " " ++ m
  end.

(** An update of the state with an estimation of minus ninety minutes. *)
Definition negative_estimation_update : IssueUpdateParams.t :=
  IssueUpdateParams.mk None None (Some "Open") None None None
    (Some (-90)%Z) None None.

(** ** Further reading of a run *)

(** Every character of [s] satisfies [p]. *)
Fixpoint all_chars (p : ascii -> bool) (s : string) : bool :=
  match s with
  | EmptyString => true
  | String c s' => p c && all_chars p s'
  end.

(** [s] is empty or starts with a character that does not satisfy [p]. *)
Definition stops (p : ascii -> bool) (s : string) : bool :=
  match s with
  | EmptyString => true
  | String c _ => negb (p c)
  end.

(** The lookup of [resolveInternalProjectId]. *)
Definition project_lookup_request (projectId : string) : Request :=
  mkRequest GET ("/admin/projects/" ++ projectId) (JObj [("fields", JStr "id")]).

(** The creation parameters that [handleIssuesManage] hands to
    [createIssue]. *)
Definition create_params_of (args : IssuesArgs.t) : IssueCreateParams.t :=
  IssueCreateParams.mk
    (IssuesArgs.summary args) (IssuesArgs.description args)
    (IssuesArgs.type args) (IssuesArgs.priority args)
    (IssuesArgs.assignee args) (IssuesArgs.parentId args)
    (IssuesArgs.devTeam args) (IssuesArgs.businessProc args)
    (IssuesArgs.sorting args).

(** The update that [handleIssuesManage] hands to [updateIssue]. *)
Definition update_params_of (args : IssuesArgs.t) : IssueUpdateParams.t :=
  IssueUpdateParams.mk
    (IssuesArgs.summary args) (IssuesArgs.description args)
    (IssuesArgs.state args) (IssuesArgs.priority args)
    (IssuesArgs.assignee args) (IssuesArgs.type args)
    None None None.

(** A backend that refuses every request with the given message. *)
Definition backend_failing (message : string)
  : list Request -> Request -> Json + Thrown :=
  fun _ _ => inr (JsErr "Error" message).

(** A backend that creates drafts, accepts the command on the draft and
    submits it, and refuses every command given after the submission. *)
Definition backend_refusing_enrichment : list Request -> Request -> Json + Thrown :=
  fun history r =>
    if String.eqb (req_path r) "/users/me/drafts" then
      inl (JObj [("id", JStr "draft-7")])
    else if existsb is_submission history then
      inr (JsErr "Error" "Unknown command")
    else inl (JObj [("id", JStr "2-15"); ("idReadable", JStr "TEAM-15")]).

(** A task with a business process. *)
Definition process_params : IssueCreateParams.t :=
  IssueCreateParams.mk (Some "X") None (Some "Task") None None None
    (Some "Backend") (Some "Auth") None.

(** The response of a creation that went through. *)
Definition created_response (params : IssueCreateParams.t) (issue : Json)
  : MCPResponse :=
  formatCreated issue "Issue"
    ("Issue " ++ dquote
       ++ JsonOps.to_string (JsonOps.of_opt (IssueCreateParams.summary params))
       ++ dquote ++ " created successfully as "
       ++ JsonOps.to_string
            (JsonOps.or_else (JsonOps.opt_get issue "idReadable")
               (JsonOps.opt_get issue "id"))).

(** A backend that creates drafts and accepts commands, and answers the
    submission of a draft with no data. *)
Definition backend_silent_submission : list Request -> Request -> Json + Thrown :=
  fun _ r =>
    if String.eqb (req_path r) "/users/me/drafts" then
      inl (JObj [("id", JStr "draft-7")])
    else if is_submission r then inl JNull
    else inl (JObj []).

(** An update that names no field at all. *)
Definition empty_update : IssueUpdateParams.t :=
  IssueUpdateParams.mk None None None None None None None None None.

(** The arguments of an update through the issues tool. *)
Definition update_call : IssuesArgs.t :=
  IssuesArgs.mk Update None (Some "TEAM-1") (Some "New title") None None
    (Some "Open") None None None None None None None None None.

(** No character of [s] is a dollar sign. *)
Definition dollar_free (s : string) : bool :=
  all_chars (fun c => negb (Ascii.eqb c "$")) s.

(** A search through the issues tool that names another project. *)
Definition search_other_project : IssuesArgs.t :=
  IssuesArgs.mk Search (Some "OTHER") None None None (Some "login page")
    None None None None None None None None None None.

(** A creation through the issues tool that names another project. *)
Definition create_other_project : IssuesArgs.t :=
  IssuesArgs.mk Create (Some "OTHER") None (Some "X") None None
    None None None (Some "Task") None (Some "Backend") None None None None.

(** ** Further operations of [api/domains/issues-api.ts] *)

(** The collaborators of these operations whose sources are outside the
    embedded files. *)
Record Helpers : Type := mkHelpers {
  (** [sanitizeComment] of [utils/text-sanitizer] *)
  sanitizeComment : string -> Json;
  (** [IssueFields.DETAIL] of [api/field-configurations] *)
  issue_detail_fields : string;
  (** [error.response?.status] of an error of the transport client *)
  response_status : Thrown -> Json;
  (** [ResponseFormatter.formatDeleted] *)
  formatDeleted : Json -> string -> MCPResponse;
  (** the value that [ParameterValidator.validateRequired] returns when it
      passes *)
  validated_value : option string -> option string
}.

(** [s.trimStart()]: the white space of [trim] is the white space of [\s]. *)
Fixpoint trimStart (s : string) : string :=
  match s with
  | EmptyString => EmptyString
  | String c s' => if Js.is_space c then trimStart s' else s
  end.

(** [s.trimEnd()]. *)
Fixpoint trimEnd (s : string) : string :=
  match s with
  | EmptyString => EmptyString
  | String c s' =>
      let t := trimEnd s' in
      if Js.is_space c && String.eqb t "" then EmptyString else String c t
  end.

(** [s.trim()]. *)
Definition trim (s : string) : string := trimEnd (trimStart s).

(** [s.replace(/\s+/g, ' ')], the scan being inside a run of white space or
    not: every maximal run of white space becomes one space. *)
Fixpoint collapse_from (in_run : bool) (s : string) : string :=
  match s with
  | EmptyString => EmptyString
  | String c s' =>
      if Js.is_space c then
        if in_run then collapse_from true s'
        else String " " (collapse_from true s')
      else String c (collapse_from false s')
  end.

Definition collapse_spaces (s : string) : string := collapse_from false s.

(** The link phrase of [linkIssues]:
    [(linkCommand || 'relates to').trim().replace(/\s+/g, ' ')]. *)
Definition link_phrase (linkCommand : option string) : string :=
  collapse_spaces (trim (Js.or_else linkCommand "relates to")).

(** [linkIssues(issueId, targetIssueId, linkCommand = 'relates to')]. *)
Definition linkIssues (issueId targetIssueId : string)
    (linkCommand : option string) : Task MCPResponse :=
  let trimmedCommand := link_phrase linkCommand in
  let trimmedTarget := trim targetIssueId in
  let commandQuery := trimmedCommand ++ " " ++ trimmedTarget in
  commandResult <- applyCommand (JStr issueId) commandQuery ;;
  ret (formatSuccess
         (JObj [("issueId", JStr issueId);
                ("targetIssueId", JStr trimmedTarget);
                ("command", JStr commandQuery);
                ("commandResult", commandResult)])
         ("Linked " ++ issueId ++ " to " ++ trimmedTarget ++ " using '"
            ++ trimmedCommand ++ "'")).

Definition comment_request (h : Helpers) (issueId text : string) : Request :=
  mkRequest POST ("/issues/" ++ issueId ++ "/comments")
    (JObj [("$type", JStr "IssueComment"); ("text", sanitizeComment h text)]).

(** [addComment(issueId, text)]. *)
Definition addComment (h : Helpers) (issueId text : string) : Task MCPResponse :=
  data <- send (comment_request h issueId text) ;;
  ret (formatCreated data "Comment" "Comment added successfully").

(** [getIssueComments(issueId)]. *)
Definition getIssueComments (issueId : string) : Task MCPResponse :=
  data <- get ("/issues/" ++ issueId ++ "/comments")
            (JObj [("fields", JStr "id,text,author(login,name),created,updated")]) ;;
  let comments := JsonOps.or_else data (JArr []) in
  ret (formatList comments "comment"
         (JObj [("totalCount", JsonOps.length comments)])).

(** [updateComment(issueId, commentId, text)]. *)
Definition updateComment (h : Helpers) (issueId commentId text : string)
  : Task MCPResponse :=
  data <- post ("/issues/" ++ issueId ++ "/comments/" ++ commentId)
            (JObj [("$type", JStr "IssueComment");
                   ("text", sanitizeComment h text)]) ;;
  ret (formatUpdated data "Comment" (JObj [("text", JStr text)])
         "Comment updated successfully" JUndefined).

(** [this.delete(path)]. *)
Definition delete (path : string) : Task Json :=
  send (mkRequest DELETE path JUndefined).

(** [deleteComment(issueId, commentId)]. *)
Definition deleteComment (h : Helpers) (issueId commentId : string)
  : Task MCPResponse :=
  delete ("/issues/" ++ issueId ++ "/comments/" ++ commentId) ;;
  ret (formatDeleted h (JStr commentId) "Comment").

(** [deleteIssue(issueId)]. *)
Definition deleteIssue (h : Helpers) (issueId : string) : Task MCPResponse :=
  delete ("/issues/" ++ issueId) ;;
  ret (formatDeleted h (JStr issueId) "Issue").

(** [getIssue(issueId, fields?)]. *)
Definition getIssue (h : Helpers) (issueId : string) (fields : option string)
  : Task MCPResponse :=
  catch
    (data <- get ("/issues/" ++ issueId)
               (JObj [("fields", JStr (Js.or_else fields (issue_detail_fields h)))]) ;;
     ret (formatSuccess data ("Retrieved issue " ++ issueId)))
    (fun error =>
       let m := message_of error in
       if Js.includes "404" m || Js.includes "not found" m then
         ret (formatError
                ("Issue " ++ issueId
                   ++ " does not exist or you don't have access to it.")
                (JObj [("issueId", JStr issueId);
                       ("suggestion",
                        JStr "Check the issue ID or use the query tool to list available issues");
                       ("hint",
                        JStr ("You can run a query like " ++ dquote
                                ++ "project: PROJECTNAME" ++ dquote
                                ++ " to see all issues in a project"))]))
       else
         ret (formatError (message_or_string error)
                (JObj [("issueId", JStr issueId); ("action", JStr "get")]))).

(** [changeIssueState(issueId, newState, comment?, resolution?)].  The new
    state is what the caller passed, which the template prints as
    [undefined] when there is none. *)
Definition changeIssueState (h : Helpers) (issueId : string)
    (newState comment resolution : option string) : Task MCPResponse :=
  let state := JsonOps.to_string (JsonOps.of_opt newState) in
  catch
    (applyCommand (JStr issueId) ("State: " ++ state) ;;
     (* Add comment separately if provided *)
     when (Js.truthy comment)
       (catch
          (addComment h issueId (Js.or_else comment "") ;; ret tt)
          (fun commentErr =>
             log LogWarn
               ("State changed but failed to add comment: "
                  ++ string_of_thrown commentErr) JUndefined)) ;;
     ret (formatUpdated (JObj [("id", JStr issueId)]) "Issue"
            (JObj [("state", JsonOps.of_opt newState);
                   ("resolution", JsonOps.of_opt resolution)])
            ("Issue " ++ issueId ++ " moved to " ++ state
               ++ (if Js.truthy resolution
                   then " (" ++ Js.or_else resolution "" ++ ")"
                   else ""))
            JUndefined))
    (fun error =>
       ret (formatError (message_of error)
              (JStr ("Failed to change state of issue " ++ issueId)))).

(** [completeIssue(issueId, comment?)]. *)
Definition completeIssue (h : Helpers) (issueId : string)
    (comment : option string) : Task MCPResponse :=
  changeIssueState h issueId (Some "Fixed") comment (Some "Fixed").

(** [startWorkingOnIssue(issueId, comment?)]. *)
Definition startWorkingOnIssue (h : Helpers) (issueId : string)
    (comment : option string) : Task MCPResponse :=
  changeIssueState h issueId (Some "In Progress") comment None.

(** [x === n] for a number [n]. *)
Definition is_num (x : Json) (n : Z) : bool :=
  match x with
  | JNum z => (z =? n)%Z
  | _ => false
  end.

(** The reference to the target project of a move: by [id] for an internal
    id, by [shortName] otherwise. *)
Definition projectRef (targetProjectId : string) : Json :=
  if isInternalId targetProjectId
  then JObj [("$type", JStr "Project"); ("id", JStr targetProjectId)]
  else JObj [("$type", JStr "Project"); ("shortName", JStr targetProjectId)].

Definition move_request (issueId targetProjectId : string) : Request :=
  mkRequest POST
    ("/issues/" ++ issueId
       ++ "/project?fields=id,idReadable,summary,project(id,name,shortName)")
    (projectRef targetProjectId).

Definition move_comment_request (issueId targetProjectId comment : string)
  : Request :=
  mkRequest POST ("/issues/" ++ issueId ++ "/comments")
    (JObj [("text",
            JStr ("Moved to project " ++ targetProjectId ++ ". " ++ comment))]).

(** [moveIssueToProject(issueId, targetProjectId, comment?)].  The warning
    of [console.warn] is kept as a log line. *)
Definition moveIssueToProject (h : Helpers) (issueId targetProjectId : string)
    (comment : option string) : Task MCPResponse :=
  catch
    (data <- send (move_request issueId targetProjectId) ;;
     (* Optionally add a comment about the move *)
     when (Js.truthy comment)
       (catch
          (send (move_comment_request issueId targetProjectId
                   (Js.or_else comment "")) ;;
           ret tt)
          (fun err =>
             log LogWarn "Failed to add comment after moving issue:"
               (JStr (string_of_thrown err)))) ;;
     ret (formatSuccess data
            ("Issue " ++ issueId ++ " successfully moved to project "
               ++ targetProjectId)))
    (fun error =>
       if is_num (response_status h error) 404 then
         ret (formatError
                ("Issue " ++ issueId ++ " or project " ++ targetProjectId
                   ++ " not found.")
                (JObj [("issueId", JStr issueId);
                       ("targetProjectId", JStr targetProjectId)]))
       else if is_num (response_status h error) 403 then
         ret (formatError
                ("You don't have permission to move issue " ++ issueId
                   ++ " to project " ++ targetProjectId ++ ".")
                (JObj [("issueId", JStr issueId);
                       ("targetProjectId", JStr targetProjectId);
                       ("action", JStr "move")]))
       else
         ret (formatError ("Failed to move issue: " ++ message_of error)
                (JObj [("issueId", JStr issueId);
                       ("targetProjectId", JStr targetProjectId);
                       ("action", JStr "move")]))).

Definition watchers_path (issueId : string) : string :=
  "/issues/" ++ issueId ++ "/watchers".

(** [getIssueWatchers(issueId)]. *)
Definition getIssueWatchers (issueId : string) : Task MCPResponse :=
  catch
    (data <- get (watchers_path issueId)
               (JObj [("fields",
                       JStr "hasStar,issueWatchers(user(id,login,fullName,email,avatarUrl))")]) ;;
     ret (formatSuccess data ("Retrieved watchers for issue " ++ issueId)))
    (fun error =>
       ret (formatError ("Failed to get watchers: " ++ message_of error)
              (JObj [("issueId", JStr issueId);
                     ("action", JStr "get_watchers")]))).

(** [addWatcher(issueId, userId)]. *)
Definition addWatcher (h : Helpers) (issueId userId : string)
  : Task MCPResponse :=
  let context :=
    JObj [("issueId", JStr issueId); ("userId", JStr userId);
          ("action", JStr "add_watcher")] in
  catch
    (data <- post (watchers_path issueId)
               (JObj [("issueWatchers",
                       JArr [JObj [("user", JObj [("id", JStr userId)])]])]) ;;
     ret (formatSuccess data
            ("Added user " ++ userId ++ " as watcher to issue " ++ issueId)))
    (fun error =>
       if is_num (response_status h error) 404 then
         ret (formatError
                ("Issue " ++ issueId ++ " or user " ++ userId ++ " not found.")
                context)
       else
         ret (formatError ("Failed to add watcher: " ++ message_of error)
                context)).

(** [removeWatcher(issueId, userId)]. *)
Definition removeWatcher (h : Helpers) (issueId userId : string)
  : Task MCPResponse :=
  let context :=
    JObj [("issueId", JStr issueId); ("userId", JStr userId);
          ("action", JStr "remove_watcher")] in
  catch
    (delete (watchers_path issueId ++ "/" ++ userId) ;;
     ret (formatSuccess
            (JObj [("issueId", JStr issueId); ("userId", JStr userId)])
            ("Removed user " ++ userId ++ " from watchers of issue " ++ issueId)))
    (fun error =>
       if is_num (response_status h error) 404 then
         ret (formatError
                ("Issue " ++ issueId ++ ", user " ++ userId
                   ++ ", or watcher relationship not found.")
                context)
       else
         ret (formatError ("Failed to remove watcher: " ++ message_of error)
                context)).

Definition star_read_request (issueId : string) : Request :=
  mkRequest GET (watchers_path issueId) (JObj [("fields", JStr "hasStar")]).

Definition star_write_request (issueId : string) (hasStar : bool) : Request :=
  mkRequest POST (watchers_path issueId) (JObj [("hasStar", JBool hasStar)]).

(** [toggleStar(issueId)]. *)
Definition toggleStar (issueId : string) : Task MCPResponse :=
  catch
    (* First, get current star status *)
    (currentStatus <- send (star_read_request issueId) ;;
     let hasStar :=
       JsonOps.or_else (JsonOps.opt_get currentStatus "hasStar") (JBool false) in
     if negb (JsonOps.truthy hasStar) then
       send (star_write_request issueId true) ;;
       ret (formatSuccess
              (JObj [("issueId", JStr issueId); ("hasStar", JBool true)])
              ("Added star to issue " ++ issueId))
     else
       send (star_write_request issueId false) ;;
       ret (formatSuccess
              (JObj [("issueId", JStr issueId); ("hasStar", JBool false)])
              ("Removed star from issue " ++ issueId)))
    (fun error =>
       ret (formatError ("Failed to toggle star: " ++ message_of error)
              (JObj [("issueId", JStr issueId);
                     ("action", JStr "toggle_star")]))).

(** ** The actions of the issues tool that are keyed by an issue id *)

(** The actions of [handleIssuesManage] that the five above leave out, but
    [get_field_values], whose operation is not embedded; [OtherAction]
    stands for a name that is none of the tool's. *)
Inductive IssueIdAction : Type :=
| Delete | Get | State | Complete | Start | Move | Link
| Watchers | AddWatcher | RemoveWatcher | ToggleStar
| OtherAction (name : string).

Definition issue_action_name (a : IssueIdAction) : string :=
  match a with
  | Delete => "delete"
  | Get => "get"
  | State => "state"
  | Complete => "complete"
  | Start => "start"
  | Move => "move"
  | Link => "link"
  | Watchers => "watchers"
  | AddWatcher => "add_watcher"
  | RemoveWatcher => "remove_watcher"
  | ToggleStar => "toggle_star"
  | OtherAction name => name
  end.

Module IssueIdArgs.
Record t : Type := mk {
  action : IssueIdAction;
  projectId : option string;
  issueId : option string;
  userId : option string;
  state : option string;
  comment : option string;
  targetIssueId : option string;
  targetProjectId : option string;
  linkType : option string
}.
End IssueIdArgs.

(** The first [switch] of [handleIssuesManage] at these actions.  It
    returns the link type to use: the one the validation returns when the
    caller gave one. *)
Definition validateIssueIdArgs (h : Helpers) (args : IssueIdArgs.t)
  : Task (option string) :=
  catch
    (env <- ask ;;
     let checkIssueId :=
       validate (validateIssueId env (IssueIdArgs.issueId args) "issueId") in
     match IssueIdArgs.action args with
     | Delete | Get | State | Complete | Start | Watchers | ToggleStar =>
         checkIssueId ;; ret (IssueIdArgs.linkType args)
     | AddWatcher | RemoveWatcher =>
         checkIssueId ;;
         validate (validateRequired env (IssueIdArgs.userId args) "userId") ;;
         ret (IssueIdArgs.linkType args)
     | Move =>
         checkIssueId ;;
         validate (validateProjectId env (IssueIdArgs.targetProjectId args)
                     "targetProjectId") ;;
         ret (IssueIdArgs.linkType args)
     | Link =>
         checkIssueId ;;
         validate (validateIssueId env (IssueIdArgs.targetIssueId args)
                     "targetIssueId") ;;
         match IssueIdArgs.linkType args with
         | Some _ =>
             validate (validateRequired env (IssueIdArgs.linkType args) "linkType") ;;
             ret (validated_value h (IssueIdArgs.linkType args))
         | None => ret None
         end
     | OtherAction _ => ret (IssueIdArgs.linkType args)
     end)
    (fun error =>
       env <- ask ;;
       log LogError "Issue parameter validation failed"
         (JObj [("action", JStr (issue_action_name (IssueIdArgs.action args)));
                ("projectId", JsonOps.of_opt (IssueIdArgs.projectId args));
                ("issueId", JsonOps.of_opt (IssueIdArgs.issueId args));
                ("error", JStr (message_of error))]) ;;
       match error with
       | ValidationErr _ _ => throw (toMcpError env error)
       | _ => throw error
       end).

(** A value that passed the validation, as a template prints it. *)
Definition printed (o : option string) : string :=
  JsonOps.to_string (JsonOps.of_opt o).

(** [handleIssuesManage] at these actions. *)
Definition handleIssueIdAction (h : Helpers) (args : IssueIdArgs.t)
  : Task MCPResponse :=
  normalizedLinkType <- validateIssueIdArgs h args ;;
  let issueId := printed (IssueIdArgs.issueId args) in
  let comment := IssueIdArgs.comment args in
  match IssueIdArgs.action args with
  | Delete => deleteIssue h issueId
  | Get => getIssue h issueId None
  | State => changeIssueState h issueId (IssueIdArgs.state args) comment None
  | Complete => completeIssue h issueId comment
  | Start => startWorkingOnIssue h issueId comment
  | Move =>
      moveIssueToProject h issueId (printed (IssueIdArgs.targetProjectId args))
        comment
  | Link =>
      match IssueIdArgs.targetIssueId args with
      | Some target => linkIssues issueId target normalizedLinkType
      | None => throw (type_error JUndefined "trim")
      end
  | Watchers => getIssueWatchers issueId
  | AddWatcher => addWatcher h issueId (printed (IssueIdArgs.userId args))
  | RemoveWatcher => removeWatcher h issueId (printed (IssueIdArgs.userId args))
  | ToggleStar => toggleStar issueId
  | OtherAction name => throw (JsErr "Error" ("Unknown issues action: " ++ name))
  end.

(** Sample collaborators for the examples. *)
Definition sample_helpers : Helpers :=
  mkHelpers JStr "id,summary,description"
    (fun error => if Js.includes "404" (message_of error) then JNum 404 else JUndefined)
    (fun id kind => formatSuccess id (kind ++ " deleted"))
    (fun v => v).

(** A backend that accepts commands and refuses everything else. *)
Definition backend_commands_only : list Request -> Request -> Json + Thrown :=
  fun _ r =>
    if String.eqb (req_path r) "/commands" then inl (JObj [])
    else inr (JsErr "Error" "403 Forbidden").

(** ** Phrases in normal form *)

(** Every white space character of [s] is a space followed by a character
    that is not white space. *)
Fixpoint single_spaced (s : string) : bool :=
  match s with
  | EmptyString => true
  | String c s' =>
      if Js.is_space c then
        Ascii.eqb c " "
        && match s' with
           | EmptyString => false
           | String d _ => negb (Js.is_space d)
           end
        && single_spaced s'
      else single_spaced s'
  end.

(** Words separated by single spaces, with no white space at either end. *)
Definition normal_phrase (s : string) : bool :=
  stops Js.is_space s && single_spaced s.

(** The last character of [s], if any, is not white space. *)
Fixpoint ends_clean (s : string) : bool :=
  match s with
  | EmptyString => true
  | String c s' => negb (Js.is_space c && String.eqb s' "") && ends_clean s'
  end.

(** A backend on which the issue is starred, and which accepts every
    write. *)
Definition backend_starred : list Request -> Request -> Json + Thrown :=
  fun _ r =>
    match req_method r with
    | GET => inl (JObj [("hasStar", JBool true)])
    | _ => inl (JObj [])
    end.

(** A backend that accepts the move of an issue and refuses every comment. *)
Definition backend_refusing_comments : list Request -> Request -> Json + Thrown :=
  fun _ r =>
    if Js.includes "/comments" (req_path r)
    then inr (JsErr "Error" "403 Forbidden")
    else inl (JObj [("idReadable", JStr "OTHER-9")]).

(** A move to another project, with a comment. *)
Definition move_to_other_project : IssueIdArgs.t :=
  IssueIdArgs.mk Move None (Some "TEAM-1") None None (Some "bye") None
    (Some "OTHER") None.

(** A state change that names no state. *)
Definition state_without_state : IssueIdArgs.t :=
  IssueIdArgs.mk State None (Some "TEAM-1") None None None None None None.

(** A star toggled on no issue at all. *)
Definition star_without_issue : IssueIdArgs.t :=
  IssueIdArgs.mk ToggleStar None None None None None None None None.

(** ** The comments tool *)

Module CommentsArgs.
Record t : Type := mk {
  action : string;
  issueId : option string;
  commentId : option string;
  text : option string
}.
End CommentsArgs.

(** The validation of [handleCommentsManage]. *)
Definition validateCommentsArgs (args : CommentsArgs.t) : Task unit :=
  let action := CommentsArgs.action args in
  catch
    (env <- ask ;;
     validate (validateIssueId env (CommentsArgs.issueId args) "issueId") ;;
     when (Js.array_includes ["add"; "update"] action)
       (validate (validateRequired env (CommentsArgs.text args) "text")) ;;
     when (Js.array_includes ["update"; "delete"] action)
       (validate (validateRequired env (CommentsArgs.commentId args) "commentId")))
    (fun error =>
       env <- ask ;;
       log LogError "Comment parameter validation failed"
         (JObj [("action", JStr action);
                ("issueId", JsonOps.of_opt (CommentsArgs.issueId args));
                ("commentId", JsonOps.of_opt (CommentsArgs.commentId args));
                ("error", JStr (message_of error))]) ;;
       match error with
       | ValidationErr _ _ => throw (toMcpError env error)
       | _ => throw error
       end).

(** [handleCommentsManage]. *)
Definition handleCommentsManage (h : Helpers) (args : CommentsArgs.t)
  : Task MCPResponse :=
  let action := CommentsArgs.action args in
  let issueId := printed (CommentsArgs.issueId args) in
  let commentId := printed (CommentsArgs.commentId args) in
  let text := printed (CommentsArgs.text args) in
  validateCommentsArgs args ;;
  if String.eqb action "get" then getIssueComments issueId
  else if String.eqb action "add" then addComment h issueId text
  else if String.eqb action "update" then updateComment h issueId commentId text
  else if String.eqb action "delete" then deleteComment h issueId commentId
  else throw (JsErr "Error" ("Unknown comments action: " ++ action)).


(** A call of the comments tool with an unknown action and no issue id. *)
Definition comments_unknown_action : CommentsArgs.t :=
  CommentsArgs.mk "purge" None None None.

(** * Theorems *)

(** ** Properties of the primitives *)

Lemma truthy_supplied (o : option string) : Js.truthy o = true <-> supplied o.
Proof.
  unfold supplied. destruct o as [s|]; simpl.
  - destruct (String.eqb_spec s ""); simpl; split.
    + discriminate.
    + intros (s' & E & N). inversion E. subst. contradiction.
    + intros _. now exists s.
    + reflexivity.
  - split; [discriminate | intros (s & E & _); discriminate].
Qed.

Lemma truthy_or_else (o : option string) (s : string) :
  o = Some s -> s <> "" -> Js.or_else o "" = s.
Proof.
  intros -> N. simpl. destruct (String.eqb_spec s ""); [contradiction | reflexivity].
Qed.

Lemma array_includes_In (l : list string) (x : string) :
  Js.array_includes l x = true <-> In x l.
Proof.
  unfold Js.array_includes. rewrite existsb_exists. split.
  - intros (y & Hin & E). apply String.eqb_eq in E. now subst.
  - intros Hin. exists x. split; [assumption | apply String.eqb_refl].
Qed.

Lemma array_includes_not_In (l : list string) (x : string) :
  Js.array_includes l x = false <-> ~ In x l.
Proof.
  rewrite <- array_includes_In. destruct (Js.array_includes l x); split;
    congruence.
Qed.

(** The lower-cased type as the source computes it, for a type that is
    there; for an absent type it is the empty string, which is in no list. *)
Lemma typeStr_among (names : list string) (params : IssueCreateParams.t) :
  ~ In "" names ->
  Js.array_includes names
    (Js.toLowerCase (Js.or_else (IssueCreateParams.type params) "")) = true
  <-> type_among names params.
Proof.
  intros Hne. rewrite array_includes_In. unfold type_among.
  destruct (IssueCreateParams.type params) as [t|]; simpl.
  - destruct (String.eqb_spec t "") as [->|N]; simpl.
    + split; [contradiction |]. intros (t & E & Hin). inversion E; subst.
      contradiction.
    + split; [intros Hin; now exists t |].
      intros (t' & E & Hin). now inversion E; subst.
  - split; [contradiction | intros (t & E & _); discriminate].
Qed.

(** ** Command synthesis for creation *)

Ltac split_conditions params :=
  destruct (Js.truthy (IssueCreateParams.parentId params));
  destruct (Js.truthy (IssueCreateParams.type params));
  destruct (Js.array_includes ["epic"; "user story"; "feature"]
              (Js.toLowerCase (Js.or_else (IssueCreateParams.type params) "")));
  destruct (Js.array_includes ["task"; "feature"; "bug"; "devops"]
              (Js.toLowerCase (Js.or_else (IssueCreateParams.type params) "")));
  destruct (Js.truthy (IssueCreateParams.devTeam params));
  destruct (Js.truthy (IssueCreateParams.assignee params)).

Lemma sorting_clauses (params : IssueCreateParams.t) :
  clauses "Sorting:" (createCommandParts params) =
  if Js.array_includes ["epic"; "user story"; "feature"]
       (Js.toLowerCase (Js.or_else (IssueCreateParams.type params) ""))
     || negb (Js.truthy (IssueCreateParams.type params))
  then ["Sorting: "
          ++ Js.number_to_string (num_or_zero (IssueCreateParams.sorting params))]
  else [].
Proof.
  unfold createCommandParts, clauses, push_if, push.
  split_conditions params; reflexivity.
Qed.

Lemma dev_team_clauses (params : IssueCreateParams.t) :
  clauses "Dev_Team:" (createCommandParts params) =
  if Js.array_includes ["task"; "feature"; "bug"; "devops"]
       (Js.toLowerCase (Js.or_else (IssueCreateParams.type params) ""))
     && Js.truthy (IssueCreateParams.devTeam params)
  then ["Dev_Team: " ++ Js.or_else (IssueCreateParams.devTeam params) ""]
  else [].
Proof.
  unfold createCommandParts, clauses, push_if, push.
  split_conditions params; reflexivity.
Qed.

Lemma no_empty_name_sorting : ~ In "" ["epic"; "user story"; "feature"].
Proof. simpl. intuition discriminate. Qed.

Lemma no_empty_name_team : ~ In "" ["task"; "feature"; "bug"; "devops"].
Proof. simpl. intuition discriminate. Qed.

Lemma sorting_condition (params : IssueCreateParams.t) :
  Js.array_includes ["epic"; "user story"; "feature"]
    (Js.toLowerCase (Js.or_else (IssueCreateParams.type params) ""))
  || negb (Js.truthy (IssueCreateParams.type params)) = true
  <-> type_among ["epic"; "user story"; "feature"] params
      \/ ~ supplied (IssueCreateParams.type params).
Proof.
  rewrite orb_true_iff, negb_true_iff, (typeStr_among _ _ no_empty_name_sorting).
  rewrite <- truthy_supplied.
  destruct (Js.truthy (IssueCreateParams.type params)); intuition congruence.
Qed.

(** C6.  The command parts of a creation hold a [Sorting:] clause if and
    only if the lower-cased type is one of epic, user story and feature, or
    no type was supplied; the clause is then there exactly once and carries
    the sorting value supplied, or 0; for the types task, bug and devops
    there is none. *)
Theorem sorting_clause_eligibility (params : IssueCreateParams.t) :
  let parts := createCommandParts params in
  let eligible :=
    type_among ["epic"; "user story"; "feature"] params
    \/ ~ supplied (IssueCreateParams.type params) in
  let value :=
    match IssueCreateParams.sorting params with
    | Some n => n
    | None => 0%Z
    end in
  (clauses "Sorting:" parts <> [] <-> eligible)
  /\ (eligible ->
      clauses "Sorting:" parts = ["Sorting: " ++ Js.number_to_string value])
  /\ (type_among ["task"; "bug"; "devops"] params ->
      clauses "Sorting:" parts = []).
Proof.
  intros parts eligible value. subst parts.
  pose proof (sorting_condition params) as Hc. fold eligible in Hc.
  rewrite sorting_clauses.
  destruct (Js.array_includes _ _ || negb _) eqn:E.
  - assert (He : eligible) by now apply Hc.
    split; [split; [intros _; exact He | discriminate] |].
    split; [intros _; reflexivity |].
    intros (t & Et & Hin).
    apply orb_true_iff in E. destruct E as [E | E].
    + apply (typeStr_among _ _ no_empty_name_sorting) in E.
      destruct E as (t' & Et' & Hin'). rewrite Et in Et'. inversion Et'; subst.
      exfalso. simpl in Hin, Hin'.
      destruct Hin as [H|[H|[H|[]]]]; rewrite <- H in Hin';
        intuition discriminate.
    + apply negb_true_iff in E. rewrite Et in E. simpl in E.
      apply negb_false_iff in E. apply String.eqb_eq in E. subst t.
      exfalso. simpl in Hin. intuition discriminate.
  - assert (He : ~ eligible) by (rewrite <- Hc; discriminate).
    split; [split; [congruence | contradiction] |].
    split; [contradiction | reflexivity].
Qed.

Lemma sorting_clause_eligibility_witness :
  clauses "Sorting:" (createCommandParts epic_params) = ["Sorting: 7"]
  /\ clauses "Sorting:" (createCommandParts task_params) = [].
Proof.
  pose proof (sorting_clause_eligibility epic_params) as He.
  pose proof (sorting_clause_eligibility task_params) as Ht.
  cbv zeta in He, Ht.
  destruct He as (_ & Hone & _). destruct Ht as (_ & _ & Hnone).
  split.
  - apply Hone. left. exists "Epic". split; [reflexivity | simpl; tauto].
  - apply Hnone. exists "Task". split; [reflexivity | simpl; tauto].
Defined.

(** C7.  The command parts of a creation hold a [Dev_Team:] clause if and
    only if the lower-cased type is one of task, feature, bug and devops and
    a team was supplied; the clause then carries that team.  There is none
    when the type is absent, when it is epic or user story, or when no team
    was supplied. *)
Theorem dev_team_clause_eligibility (params : IssueCreateParams.t) :
  let parts := createCommandParts params in
  let eligible :=
    type_among ["task"; "feature"; "bug"; "devops"] params
    /\ supplied (IssueCreateParams.devTeam params) in
  (clauses "Dev_Team:" parts <> [] <-> eligible)
  /\ (forall team, eligible -> IssueCreateParams.devTeam params = Some team ->
      clauses "Dev_Team:" parts = ["Dev_Team: " ++ team])
  /\ (~ eligible -> clauses "Dev_Team:" parts = [])
  /\ (~ supplied (IssueCreateParams.type params) ->
      clauses "Dev_Team:" parts = [])
  /\ (type_among ["epic"; "user story"] params ->
      clauses "Dev_Team:" parts = [])
  /\ (~ supplied (IssueCreateParams.devTeam params) ->
      clauses "Dev_Team:" parts = []).
Proof.
  intros parts eligible. subst parts.
  assert (Hc : Js.array_includes ["task"; "feature"; "bug"; "devops"]
                 (Js.toLowerCase (Js.or_else (IssueCreateParams.type params) ""))
               && Js.truthy (IssueCreateParams.devTeam params) = true
               <-> eligible).
  { rewrite andb_true_iff, (typeStr_among _ _ no_empty_name_team),
      truthy_supplied. reflexivity. }
  rewrite dev_team_clauses.
  destruct (Js.array_includes _ _ && Js.truthy _) eqn:E.
  - assert (He : eligible) by now apply Hc.
    split; [split; [intros _; exact He | discriminate] |].
    split.
    { intros team _ Et. destruct He as (_ & s & Es & Ns).
      rewrite Et in Es. inversion Es; subst.
      now rewrite (truthy_or_else _ _ Et Ns). }
    split; [contradiction |].
    destruct He as ((t & Et & Hin) & Hs).
    split; [| split].
    + intros Hn. exfalso. apply Hn. exists t. split; [assumption |].
      intros ->. simpl in Hin. intuition discriminate.
    + intros (t' & Et' & Hin'). exfalso. rewrite Et in Et'.
      inversion Et'; subst. simpl in Hin, Hin'.
      destruct Hin as [H|[H|[H|[H|[]]]]]; rewrite <- H in Hin';
        intuition discriminate.
    + intros Hn. contradiction.
  - assert (He : ~ eligible) by (rewrite <- Hc; discriminate).
    split; [split; [congruence | contradiction] |].
    split; [intros team H; contradiction |].
    split; [reflexivity |].
    repeat split; intros _; reflexivity.
Qed.

Lemma dev_team_clause_eligibility_witness :
  clauses "Dev_Team:" (createCommandParts task_params) = ["Dev_Team: Backend"]
  /\ clauses "Dev_Team:" (createCommandParts epic_params) = [].
Proof.
  pose proof (dev_team_clause_eligibility task_params) as Ht.
  pose proof (dev_team_clause_eligibility epic_params) as He.
  cbv zeta in He, Ht.
  destruct Ht as (_ & Hone & _). destruct He as (_ & _ & _ & _ & Hnone & _).
  split.
  - apply (Hone "Backend"); [| reflexivity]. split.
    + exists "Task". split; [reflexivity | simpl; tauto].
    + exists "Backend". split; [reflexivity | discriminate].
  - apply Hnone. exists "Epic". split; [reflexivity | simpl; tauto].
Defined.

(** ** Command synthesis for updates *)

Lemma estimation_clauses (updates : IssueUpdateParams.t) (minutes : Z) :
  IssueUpdateParams.estimation updates = Some minutes ->
  clauses "Estimation " (updateCommandParts updates)
  = ["Estimation " ++ estimationStr minutes].
Proof.
  intros E. unfold updateCommandParts, clauses, push_if, push. rewrite E.
  destruct (Js.truthy (IssueUpdateParams.state updates));
    destruct (Js.truthy (IssueUpdateParams.priority updates));
    destruct (Js.truthy (IssueUpdateParams.type updates));
    destruct (Js.truthy (IssueUpdateParams.assignee updates));
    destruct (Js.truthy (IssueUpdateParams.subsystem updates));
    reflexivity.
Qed.

Lemma estimationStr_duration (minutes : Z) :
  (0 <= minutes)%Z -> estimationStr minutes = duration_text minutes.
Proof.
  intros Hm. unfold estimationStr, duration_text, duration_tokens, push_if, push.
  rewrite (Z.rem_mod_nonneg minutes 60) by lia.
  assert (Hh : (0 <= minutes / 60)%Z) by (apply Z.div_pos; lia).
  assert (Hr : (0 <= minutes mod 60)%Z) by (apply Z.mod_pos_bound; lia).
  destruct (Z.eqb_spec (minutes / 60) 0) as [Eh|Nh];
    destruct (Z.eqb_spec (minutes mod 60) 0) as [Er|Nr]; simpl.
  - rewrite Eh, Er. reflexivity.
  - rewrite Eh. simpl. destruct (Z.ltb_spec 0 (minutes mod 60)); [reflexivity | lia].
  - rewrite Er. simpl. destruct (Z.ltb_spec 0 (minutes / 60)); [reflexivity | lia].
  - destruct (Z.ltb_spec 0 (minutes / 60)); [| lia].
    destruct (Z.ltb_spec 0 (minutes mod 60)); [reflexivity | lia].
Qed.

Lemma estimationStr_signed (minutes : Z) :
  estimationStr minutes
  = signed_duration_text (minutes / 60) (Z.rem minutes 60).
Proof.
  unfold estimationStr, signed_duration_text, push_if, push.
  destruct (minutes / 60 =? 0)%Z; destruct (Z.rem minutes 60 =? 0)%Z;
    reflexivity.
Qed.

(** C8, as the source has it.  For an update whose estimation is an integer
    number of minutes of absolute value below [2^53], the estimation
    command is [Estimation] followed by the duration computed from the
    hours (the floor of the minutes over 60) and the remainder (the
    remainder of the minutes by 60, with the sign of the minutes): an [h]
    token when the hours are not zero, an [m] token when the remainder is
    not zero, [0m] when both are zero.  From 0 minutes up that is the
    duration of the specification: the remainder is the minutes modulo 60,
    the [h] token is there only for positive hours and the [m] token only
    for a positive remainder.  So 90 minutes give [Estimation 1h 30m],
    45 minutes [Estimation 45m] and 0 minutes [Estimation 0m]. *)
Theorem estimation_command (updates : IssueUpdateParams.t) (minutes : Z) :
  safe_integer minutes ->
  IssueUpdateParams.estimation updates = Some minutes ->
  let hours := (minutes / 60)%Z in
  let remainder := Z.rem minutes 60 in
  let command := clauses "Estimation " (updateCommandParts updates) in
  command = ["Estimation " ++ signed_duration_text hours remainder]
  /\ ((0 <= minutes)%Z ->
      remainder = (minutes mod 60)%Z
      /\ command = ["Estimation " ++ duration_text minutes])
  /\ (minutes = 90%Z -> command = ["Estimation 1h 30m"])
  /\ (minutes = 45%Z -> command = ["Estimation 45m"])
  /\ (minutes = 0%Z -> command = ["Estimation 0m"]).
Proof.
  intros _ E hours remainder command. subst command hours remainder.
  rewrite (estimation_clauses _ _ E).
  split; [now rewrite estimationStr_signed |].
  split.
  - intros Hm. split; [apply Z.rem_mod_nonneg; lia |].
    now rewrite (estimationStr_duration _ Hm).
  - repeat split; intros ->; reflexivity.
Qed.

Lemma estimation_command_witness :
  clauses "Estimation "
    (updateCommandParts
       (IssueUpdateParams.mk None None (Some "Open") None None None
          (Some 90%Z) None None))
  = ["Estimation 1h 30m"].
Proof.
  refine (proj1 (proj2 (proj2 (estimation_command
            (IssueUpdateParams.mk None None (Some "Open") None None None
               (Some 90%Z) None None)
            90%Z _ eq_refl))) eq_refl).
  unfold safe_integer. reflexivity.
Defined.

(** The estimation of the source against the one the specification
    describes: for minus ninety minutes the hours are minus two and the
    remainder of the source is minus thirty, neither of them positive, and
    the command has an [h] token and an [m] token all the same; it is not
    the command of the specification, which has no [h] token. *)
Lemma negative_estimation_keeps_tokens :
  let hours := (-90 / 60)%Z in
  let remainder := Z.rem (-90) 60 in
  safe_integer (-90)
  /\ hours = (-2)%Z /\ remainder = (-30)%Z
  /\ (0 <? hours)%Z = false /\ (0 <? remainder)%Z = false
  /\ clauses "Estimation " (updateCommandParts negative_estimation_update)
     = ["Estimation -2h -30m"]
  /\ duration_text (-90) = "30m"
  /\ clauses "Estimation " (updateCommandParts negative_estimation_update)
     <> ["Estimation " ++ duration_text (-90)].
Proof.
  cbv zeta. unfold safe_integer.
  repeat split; try reflexivity. discriminate.
Qed.

(** ** Handlers only add to the trace *)

Lemma extends_refl (w : World) : extends w w.
Proof. exists []. symmetry. apply app_nil_r. Qed.

Lemma extends_trans (w1 w2 w3 : World) :
  extends w1 w2 -> extends w2 w3 -> extends w1 w3.
Proof.
  intros [r1 E1] [r2 E2]. exists (r1 ++ r2)%list.
  rewrite E2, E1. symmetry. apply app_assoc.
Qed.

Section Monotone.

Context {A B : Type}.

Lemma monotone_ret (a : A) : monotone (ret a).
Proof. intros env w. apply extends_refl. Qed.

Lemma monotone_throw (e : Thrown) : monotone (@throw A e).
Proof. intros env w. apply extends_refl. Qed.

Lemma monotone_bind (m : Task A) (k : A -> Task B) :
  monotone m -> (forall a, monotone (k a)) -> monotone (bind m k).
Proof.
  intros Hm Hk env w. unfold bind. specialize (Hm env w).
  destruct (m env w) as [[a|e] w']; simpl in *.
  - eapply extends_trans; [exact Hm | apply Hk].
  - exact Hm.
Qed.

Lemma monotone_catch (m : Task A) (h : Thrown -> Task A) :
  monotone m -> (forall e, monotone (h e)) -> monotone (catch m h).
Proof.
  intros Hm Hh env w. unfold catch. specialize (Hm env w).
  destruct (m env w) as [[a|e] w']; simpl in *.
  - exact Hm.
  - eapply extends_trans; [exact Hm | apply Hh].
Qed.

Lemma monotone_attempt (m : Task A) : monotone m -> monotone (attempt m).
Proof.
  intros Hm env w. unfold attempt. specialize (Hm env w).
  destruct (m env w) as [o w']. exact Hm.
Qed.

End Monotone.

Lemma monotone_ask : monotone ask.
Proof. intros env w. apply extends_refl. Qed.

Lemma monotone_log (l : Level) (text : string) (meta : Json) :
  monotone (log l text meta).
Proof. intros env w. exists []. simpl. symmetry. apply app_nil_r. Qed.

Lemma monotone_send (r : Request) : monotone (send r).
Proof.
  intros env w. unfold send. exists [r].
  destruct (backend env (requests w) r); reflexivity.
Qed.

Lemma monotone_when (c : bool) (m : Task unit) : monotone m -> monotone (when c m).
Proof. intros Hm. destruct c; [exact Hm | apply monotone_ret]. Qed.

Lemma monotone_get_prop (j : Json) (k : string) : monotone (get_prop j k).
Proof.
  unfold get_prop. destruct (JsonOps.nullish j);
    [apply monotone_throw | apply monotone_ret].
Qed.

Create HintDb monotone.

(** One step of a proof that a handler is monotone: a handler known to be
    so, or else the shape of the handler. *)
Ltac monotone_step :=
  first
    [ solve [auto with monotone nocore]
    | apply monotone_bind | apply monotone_catch | apply monotone_attempt
    | apply monotone_when | apply monotone_ret | apply monotone_throw
    | apply monotone_ask | apply monotone_log | apply monotone_send
    | apply monotone_get_prop
    | match goal with
      | |- monotone (if ?c then _ else _) => destruct c
      | |- monotone (match ?x with _ => _ end) => destruct x
      end ].

Ltac monotone_auto :=
  repeat match goal with
         | |- forall _, _ => intro
         | |- monotone _ => monotone_step
         end.

Lemma monotone_find_by_name (name : string) (items : list Json) :
  monotone (find_by_name name items).
Proof.
  induction items as [|f rest IH]; simpl; [apply monotone_ret |].
  monotone_auto.
Qed.

Lemma monotone_find_custom_field (name : string) (customFields : Json) :
  monotone (find_custom_field name customFields).
Proof.
  destruct customFields; simpl; try apply monotone_ret; try apply monotone_throw.
  apply monotone_find_by_name.
Qed.

#[local] Hint Resolve monotone_find_custom_field : monotone.

Lemma monotone_setBusinessProc (idReadable : Json) (businessProc : string) :
  monotone (setBusinessProc idReadable businessProc).
Proof. unfold setBusinessProc, applyCommand, get, post. monotone_auto. Qed.

#[local] Hint Resolve monotone_setBusinessProc : monotone.

Lemma monotone_submitDraft (params : IssueCreateParams.t) (draftId : Json) :
  monotone (submitDraft params draftId).
Proof. unfold submitDraft. monotone_auto. Qed.

(** ** The creation workflow *)

Lemma resolveInternalProjectId_returns (projectId : string) (env : Env) (w : World) :
  exists internal w1,
    resolveInternalProjectId projectId env w = (Returned internal, w1)
    /\ extends w w1
    /\ submitted w1 = submitted w.
Proof.
  unfold resolveInternalProjectId.
  destruct (isInternalId projectId).
  - exists (JStr projectId), w. repeat split. apply extends_refl.
  - unfold catch, bind, get, send, ret, submitted. simpl.
    destruct (backend env (requests w) _) as [data|e]; simpl;
      eexists; eexists; (split; [reflexivity |]); simpl;
      (split; [eexists; reflexivity |]);
      rewrite existsb_app; simpl; now rewrite !orb_false_r.
Qed.

(** Once the draft is there, what is left of [createIssue] is the command
    of step 2 and what follows it. *)
Lemma createIssue_after_draft (env : Env) (w w1 : World) (projectId : string)
    (params : IssueCreateParams.t) (internal data : Json) :
  resolveInternalProjectId projectId env w = (Returned internal, w1) ->
  backend env (requests w1) (draft_request env internal params) = inl data ->
  JsonOps.truthy (JsonOps.opt_get data "id") = true ->
  let draftId := JsonOps.opt_get data "id" in
  let command := Js.join " " (createCommandParts params) in
  createIssue projectId params env w =
  catch
    (applied <- attempt (send (draft_command_request draftId command)) ;;
     match applied with
     | Threw cmdError =>
         log LogWarn
           ("Command failed for draft " ++ JsonOps.to_string draftId
              ++ ": " ++ message_or_string cmdError) JUndefined ;;
         ret (fields_not_applied projectId draftId command
                (message_or_string cmdError))
     | Returned _ => submitDraft params draftId
     end)
    (fun error =>
       ret (createIssue_failure projectId
              (JsonOps.of_opt (IssueCreateParams.summary params)) error))
    env
    (mkWorld (requests w1 ++ [draft_request env internal params])%list (logs w1)).
Proof.
  intros Hr Hd Ht draftId command.
  unfold createIssue, catch at 1, bind at 1. rewrite Hr.
  unfold bind at 1, ask. unfold bind at 1, send at 1. rewrite Hd.
  rewrite Ht. reflexivity.
Qed.

Lemma command_refused (env : Env) (w2 : World) (projectId : string)
    (params : IssueCreateParams.t) (draftId : Json) (command : string)
    (cmdError : Thrown) :
  backend env (requests w2) (draft_command_request draftId command) = inr cmdError ->
  catch
    (applied <- attempt (send (draft_command_request draftId command)) ;;
     match applied with
     | Threw cmdError =>
         log LogWarn
           ("Command failed for draft " ++ JsonOps.to_string draftId
              ++ ": " ++ message_or_string cmdError) JUndefined ;;
         ret (fields_not_applied projectId draftId command
                (message_or_string cmdError))
     | Returned _ => submitDraft params draftId
     end)
    (fun error =>
       ret (createIssue_failure projectId
              (JsonOps.of_opt (IssueCreateParams.summary params)) error))
    env w2
  = (Returned (fields_not_applied projectId draftId command
                 (message_or_string cmdError)),
     mkWorld (requests w2 ++ [draft_command_request draftId command])%list
       (logs w2 ++ [mkLog LogWarn
                      ("Command failed for draft " ++ JsonOps.to_string draftId
                         ++ ": " ++ message_or_string cmdError) JUndefined])%list).
Proof.
  intros Hc. unfold catch, bind, attempt, send. rewrite Hc. reflexivity.
Qed.

(** C1, as the source has it.  When the draft was created and the backend
    refuses the combined command, the workflow stops: it logs the failure,
    one warning [Command failed for draft <id>: <message>] added to the log
    and nothing else, and returns an error response that carries the draft
    id, the command and the project id, with the text of the refusal in its
    message.  The draft request and the command request are the last
    requests made: the draft is not submitted. *)
Theorem field_failure_stops_creation (env : Env) (w w1 : World)
    (projectId : string) (params : IssueCreateParams.t)
    (internal data : Json) (cmdError : Thrown) :
  let draftId := JsonOps.opt_get data "id" in
  let command := Js.join " " (createCommandParts params) in
  resolveInternalProjectId projectId env w = (Returned internal, w1) ->
  backend env (requests w1) (draft_request env internal params) = inl data ->
  JsonOps.truthy draftId = true ->
  backend env (requests w1 ++ [draft_request env internal params])%list
    (draft_command_request draftId command) = inr cmdError ->
  exists w',
    createIssue projectId params env w
    = (Returned
         (formatError
            ("Draft created but failed to apply fields: "
               ++ message_or_string cmdError)
            (JObj [("draftId", draftId); ("command", JStr command);
                   ("projectId", JStr projectId)])),
       w')
    /\ requests w'
       = (requests w1
            ++ [draft_request env internal params;
                draft_command_request draftId command])%list
    /\ logs w'
       = (logs w1
            ++ [mkLog LogWarn
                  ("Command failed for draft " ++ JsonOps.to_string draftId
                     ++ ": " ++ message_or_string cmdError)
                  JUndefined])%list
    /\ submitted w' = submitted w.
Proof.
  intros draftId command Hr Hd Ht Hc.
  rewrite (createIssue_after_draft env w w1 projectId params internal data Hr Hd Ht).
  fold draftId command.
  rewrite (command_refused env
             (mkWorld (requests w1 ++ [draft_request env internal params])%list
                (logs w1))
             projectId params draftId command cmdError Hc).
  eexists. split; [reflexivity |]. simpl. split; [| split].
  - now rewrite <- app_assoc.
  - reflexivity.
  - destruct (resolveInternalProjectId_returns projectId env w)
      as (i & w1' & Hr' & _ & Hs).
    rewrite Hr in Hr'. inversion Hr'; subst i w1'.
    unfold submitted in *. simpl.
    rewrite !existsb_app, Hs. simpl. now rewrite !orb_false_r.
Qed.

(** The workflow of the source against the workflow the specification
    describes: on a backend that creates drafts and issues but refuses
    every command, the creation of a task ends in an error response and the
    draft is never submitted. *)
Lemma field_failure_skips_submission :
  let env := sample_env backend_rejecting_commands (Some "TEAM") in
  let lookup := mkRequest GET "/admin/projects/TEAM" (JObj [("fields", JStr "id")]) in
  let draft := draft_request env (JStr "2-15") task_params in
  let command := "Type: Task Priority: Normal Dev_Team: Backend" in
  (* the draft is created, the command is refused *)
  backend env [lookup] draft = inl (JObj [("id", JStr "draft-7")])
  /\ backend env [lookup; draft] (draft_command_request (JStr "draft-7") command)
     = inr (JsErr "Error" "Unknown field value")
  (* the submission would have been accepted *)
  /\ (exists issue,
        backend env
          [lookup; draft; draft_command_request (JStr "draft-7") command]
          (submit_request (JStr "draft-7")) = inl issue)
  (* and yet the workflow stops with an error and submits nothing *)
  /\ fst (run env (createIssue "TEAM" task_params))
     = Returned
         (formatError
            "Draft created but failed to apply fields: Unknown field value"
            (JObj [("draftId", JStr "draft-7"); ("command", JStr command);
                   ("projectId", JStr "TEAM")]))
  /\ requests (snd (run env (createIssue "TEAM" task_params)))
     = [lookup; draft; draft_command_request (JStr "draft-7") command]
  /\ submitted (snd (run env (createIssue "TEAM" task_params))) = false.
Proof.
  cbv zeta. repeat split; try reflexivity.
  eexists. reflexivity.
Qed.

Lemma field_failure_stops_creation_witness :
  let env := sample_env backend_rejecting_commands (Some "TEAM") in
  exists w',
    createIssue "TEAM" task_params env empty_world
    = (Returned
         (formatError
            "Draft created but failed to apply fields: Unknown field value"
            (JObj [("draftId", JStr "draft-7");
                   ("command",
                    JStr "Type: Task Priority: Normal Dev_Team: Backend");
                   ("projectId", JStr "TEAM")])),
       w')
    /\ requests w'
       = [mkRequest GET "/admin/projects/TEAM" (JObj [("fields", JStr "id")]);
          draft_request env (JStr "2-15") task_params;
          draft_command_request (JStr "draft-7")
            "Type: Task Priority: Normal Dev_Team: Backend"]
    /\ logs w'
       = [mkLog LogWarn "Command failed for draft draft-7: Unknown field value"
            JUndefined]
    /\ submitted w' = false.
Proof.
  exact (field_failure_stops_creation
           (sample_env backend_rejecting_commands (Some "TEAM"))
           empty_world
           (mkWorld [mkRequest GET "/admin/projects/TEAM"
                       (JObj [("fields", JStr "id")])] [])
           "TEAM" task_params (JStr "2-15")
           (JObj [("id", JStr "draft-7")])
           (JsErr "Error" "Unknown field value")
           eq_refl eq_refl eq_refl eq_refl).
Defined.

Ltac ordered_parts :=
  repeat first
    [ apply SSorted_nil | apply SSorted_cons | apply Forall_nil
    | apply Forall_cons | (unfold precedes; cbn; lia) ].

Lemma creation_order (params : IssueCreateParams.t) :
  StronglySorted precedes (createCommandParts params).
Proof.
  unfold createCommandParts, push_if, push.
  split_conditions params; cbn [app]; ordered_parts.
Qed.

Lemma priority_clauses (params : IssueCreateParams.t) :
  clauses "Priority:" (createCommandParts params)
  = ["Priority: " ++ Js.or_else (IssueCreateParams.priority params) "Normal"].
Proof.
  unfold createCommandParts, clauses, push_if, push.
  split_conditions params; reflexivity.
Qed.

Lemma createIssue_sends_synthesized (env : Env) (w w1 : World)
    (projectId : string) (params : IssueCreateParams.t) (internal data : Json) :
  resolveInternalProjectId projectId env w = (Returned internal, w1) ->
  backend env (requests w1) (draft_request env internal params) = inl data ->
  JsonOps.truthy (JsonOps.opt_get data "id") = true ->
  exists rest,
    requests (snd (createIssue projectId params env w))
    = (requests w1
         ++ [draft_request env internal params;
             draft_command_request (JsonOps.opt_get data "id")
               (Js.join " " (createCommandParts params))]
         ++ rest)%list.
Proof.
  intros Hr Hd Ht.
  rewrite (createIssue_after_draft env w w1 projectId params internal data Hr Hd Ht).
  set (w2 := mkWorld _ (logs w1)).
  set (cmd := draft_command_request _ _).
  destruct (backend env (requests w2) cmd) as [ok|cmdError] eqn:Hc.
  - unfold catch, bind at 1, attempt, send. rewrite Hc.
    set (w3 := mkWorld (requests w2 ++ [cmd])%list (logs w2)).
    destruct (monotone_submitDraft params (JsonOps.opt_get data "id") env w3)
      as [rest Hrest].
    exists rest.
    destruct (submitDraft params (JsonOps.opt_get data "id") env w3)
      as [[resp|e] w']; simpl in *; rewrite Hrest; subst w2; simpl;
      now rewrite <- !app_assoc.
  - subst cmd. rewrite (command_refused env w2 _ _ _ _ cmdError Hc).
    exists []. subst w2. simpl. now rewrite <- app_assoc.
Qed.

(** C9.  The command parts of a creation come in the fixed order parent
    link, type, priority, sorting, dev team, assignee, each kind at most
    once; the priority clause is always there, with the priority supplied
    or [Normal]; and the command applied to the draft is a function of the
    creation parameters alone: whatever the environment, the world and the
    project, the request that follows the creation of the draft carries
    the command parts of the parameters, joined in that order. *)
Theorem creation_command_contract (params : IssueCreateParams.t) :
  let parts := createCommandParts params in
  StronglySorted precedes parts
  /\ (forall p, IssueCreateParams.priority params = Some p -> p <> "" ->
      clauses "Priority:" parts = ["Priority: " ++ p])
  /\ (~ supplied (IssueCreateParams.priority params) ->
      clauses "Priority:" parts = ["Priority: Normal"])
  /\ (forall env w w1 projectId internal data,
      resolveInternalProjectId projectId env w = (Returned internal, w1) ->
      backend env (requests w1) (draft_request env internal params) = inl data ->
      JsonOps.truthy (JsonOps.opt_get data "id") = true ->
      exists rest,
        requests (snd (createIssue projectId params env w))
        = (requests w1
             ++ [draft_request env internal params;
                 draft_command_request (JsonOps.opt_get data "id")
                   (Js.join " " parts)]
             ++ rest)%list).
Proof.
  intros parts. subst parts.
  split; [apply creation_order |].
  rewrite priority_clauses.
  split; [| split].
  - intros p Ep Np. simpl. rewrite Ep. simpl.
    destruct (String.eqb_spec p ""); [contradiction | reflexivity].
  - intros Hn. rewrite <- truthy_supplied in Hn.
    destruct (IssueCreateParams.priority params) as [p|]; simpl in *;
      [| reflexivity].
    destruct (String.eqb_spec p ""); [reflexivity | now elim Hn].
  - intros env w w1 projectId internal data.
    apply createIssue_sends_synthesized.
Qed.

Lemma creation_command_contract_witness :
  let env := sample_env backend_rejecting_commands (Some "TEAM") in
  clauses "Priority:" (createCommandParts task_params) = ["Priority: Normal"]
  /\ clauses "Priority:" (createCommandParts epic_params) = ["Priority: Major"]
  /\ exists rest,
       requests (snd (createIssue "TEAM" task_params env empty_world))
       = ([mkRequest GET "/admin/projects/TEAM" (JObj [("fields", JStr "id")])]
            ++ [draft_request env (JStr "2-15") task_params;
                draft_command_request (JStr "draft-7")
                  "Type: Task Priority: Normal Dev_Team: Backend"]
            ++ rest)%list.
Proof.
  intros env.
  pose proof (creation_command_contract task_params) as Ht.
  pose proof (creation_command_contract epic_params) as He.
  cbv zeta in Ht, He.
  destruct Ht as (_ & _ & Hnormal & Hsent).
  destruct He as (_ & Hmajor & _).
  split; [| split].
  - apply Hnormal. intros (p & E & _). discriminate E.
  - apply (Hmajor "Major"); [reflexivity | discriminate].
  - exact (Hsent env empty_world
             (mkWorld [mkRequest GET "/admin/projects/TEAM"
                         (JObj [("fields", JStr "id")])] [])
             "TEAM" (JStr "2-15") (JObj [("id", JStr "draft-7")])
             eq_refl eq_refl eq_refl).
Defined.

(** ** The scope resolver *)

Lemma not_supplied_falsy (o : option string) : ~ supplied o -> Js.truthy o = false.
Proof.
  rewrite <- truthy_supplied. destruct (Js.truthy o); [intros H; now elim H | reflexivity].
Qed.

Lemma supplied_truthy (o : option string) (s : string) :
  o = Some s -> s <> "" -> Js.truthy o = true.
Proof. intros E N. apply truthy_supplied. now exists s. Qed.

Lemma resolveProjectId_enforced (env : Env) (provided : option string)
    (allowOverride : bool) (w : World) (enforced : string) :
  defaultProjectId env = Some enforced -> enforced <> "" ->
  resolveProjectId provided allowOverride env w
  = (Returned enforced,
     mkWorld (requests w)
       (logs w
          ++ (if Js.truthy provided
                 && negb (String.eqb (Js.or_else provided "") enforced)
                 && negb allowOverride
              then [override_warning enforced (Js.or_else provided "")]
              else []))%list).
Proof.
  intros E N. unfold resolveProjectId, bind, ask. rewrite E.
  rewrite (supplied_truthy _ _ eq_refl N), (truthy_or_else _ _ eq_refl N).
  destruct (Js.truthy provided && _ && _); simpl.
  - reflexivity.
  - rewrite app_nil_r. now destruct w.
Qed.

Lemma resolveProjectId_unconfigured (env : Env) (provided : option string)
    (allowOverride : bool) (w : World) :
  Js.truthy (defaultProjectId env) = false ->
  resolveProjectId provided allowOverride env w
  = (if Js.truthy provided then Returned (Js.or_else provided "")
     else Threw missing_project_error, w).
Proof.
  intros E. unfold resolveProjectId, bind, ask. rewrite E.
  destruct (Js.truthy provided); reflexivity.
Qed.

Lemma create_without_scope (env : Env) (w : World) (args : IssuesArgs.t) :
  Js.truthy (defaultProjectId env) = false ->
  Js.truthy (IssuesArgs.projectId args) = false ->
  IssuesArgs.action args = Create ->
  exists w',
    handleIssuesManage args env w = (Threw missing_project_error, w')
    /\ requests w' = requests w.
Proof.
  intros Hn Hp Ea.
  unfold handleIssuesManage, bind at 1, validateIssuesArgs, catch, bind at 1, ask.
  rewrite Ea. unfold bind at 1.
  rewrite (resolveProjectId_unconfigured env _ false w Hn), Hp.
  eexists. split; reflexivity.
Qed.

(** C3.  With an enforced project id configured, the resolver returns it
    for every provided id and never fails, making no request; when the
    provided id differs and no override is allowed, it logs the warning of a
    blocked override.  With no enforced id, it returns the provided id when
    there is one, and when there is none it throws the missing-project
    error, the world left as it was: no request was made.  A creation
    called that way fails with that error and reaches the backend with
    nothing. *)
Theorem scope_resolver_contract (env : Env) (provided : option string)
    (allowOverride : bool) (w : World) :
  let resolved := resolveProjectId provided allowOverride env w in
  (forall enforced,
      defaultProjectId env = Some enforced -> enforced <> "" ->
      fst resolved = Returned enforced
      /\ requests (snd resolved) = requests w
      /\ (forall p, provided = Some p -> p <> "" -> p <> enforced ->
          allowOverride = false ->
          logs (snd resolved) = (logs w ++ [override_warning enforced p])%list))
  /\ (~ supplied (defaultProjectId env) ->
      (forall p, provided = Some p -> p <> "" -> resolved = (Returned p, w))
      /\ (~ supplied provided -> resolved = (Threw missing_project_error, w))
      /\ (~ supplied provided ->
          forall args : IssuesArgs.t,
            IssuesArgs.action args = Create ->
            IssuesArgs.projectId args = provided ->
            exists w',
              handleIssuesManage args env w = (Threw missing_project_error, w')
              /\ requests w' = requests w)).
Proof.
  intros resolved. subst resolved. split.
  - intros enforced E N. rewrite (resolveProjectId_enforced _ _ _ _ _ E N).
    simpl. repeat split.
    intros p Ep Np Hd ->.
    rewrite (supplied_truthy _ _ Ep Np), (truthy_or_else _ _ Ep Np).
    destruct (String.eqb_spec p enforced); [contradiction | reflexivity].
  - intros Hn. apply not_supplied_falsy in Hn.
    rewrite (resolveProjectId_unconfigured _ _ _ _ Hn). split; [| split].
    + intros p Ep Np.
      now rewrite (supplied_truthy _ _ Ep Np), (truthy_or_else _ _ Ep Np).
    + intros Hp. now rewrite (not_supplied_falsy _ Hp).
    + intros Hp args Ea Eproj. apply create_without_scope; try assumption.
      rewrite Eproj. now apply not_supplied_falsy.
Qed.

Lemma scope_resolver_contract_witness :
  let team := sample_env backend_ok (Some "TEAM") in
  let open := sample_env backend_ok None in
  resolveProjectId (Some "OTHER") false team empty_world
  = (Returned "TEAM", mkWorld [] [override_warning "TEAM" "OTHER"])
  /\ resolveProjectId (Some "OTHER") false open empty_world
     = (Returned "OTHER", empty_world)
  /\ resolveProjectId None false open empty_world
     = (Threw missing_project_error, empty_world).
Proof.
  intros team open.
  pose proof (scope_resolver_contract team (Some "OTHER") false empty_world) as Ht.
  pose proof (scope_resolver_contract open (Some "OTHER") false empty_world) as Ho.
  pose proof (scope_resolver_contract open None false empty_world) as Hn.
  cbv zeta in Ht, Ho, Hn.
  destruct Ht as (Ht & _). destruct Ho as (_ & Ho). destruct Hn as (_ & Hn).
  assert (Hopen : ~ supplied (defaultProjectId open))
    by (intros (s & E & _); discriminate E).
  split; [| split].
  - destruct (Ht "TEAM" eq_refl) as (Hr & Hq & Hl); [discriminate |].
    specialize (Hl "OTHER" eq_refl).
    destruct (resolveProjectId (Some "OTHER") false team empty_world)
      as [o [rq lg]].
    simpl in Hr, Hq, Hl. rewrite Hr, Hq, Hl; try discriminate; reflexivity.
  - apply (proj1 (Ho Hopen) "OTHER"); [reflexivity | discriminate].
  - apply (proj1 (proj2 (Hn Hopen))). intros (s & E & _). discriminate E.
Defined.

(** ** The query tool without a configured project *)

Lemma handleQueryIssues_unconfigured (env : Env) (w : World) (args : QueryArgs.t) :
  Js.truthy (defaultProjectId env) = false ->
  handleQueryIssues args env w = (Threw missing_project_error, w).
Proof.
  intros E. unfold handleQueryIssues, bind at 1.
  now rewrite (resolveProjectId_unconfigured env None false w E).
Qed.

Lemma issues_query_unconfigured (env : Env) (w : World) (args : IssuesArgs.t) :
  Js.truthy (defaultProjectId env) = false ->
  IssuesArgs.action args = Query ->
  validateRequired env (IssuesArgs.query args) "query" = None ->
  handleIssuesManage args env w = (Threw missing_project_error, w).
Proof.
  intros Hn Ea Ev.
  unfold handleIssuesManage, bind at 1, validateIssuesArgs, catch, bind at 1, ask.
  rewrite Ea, Ev. simpl.
  now rewrite (handleQueryIssues_unconfigured env w _ Hn).
Qed.

Lemma issues_query_invalid (env : Env) (w : World) (args : IssuesArgs.t)
    (failure : Thrown) :
  IssuesArgs.action args = Query ->
  validateRequired env (IssuesArgs.query args) "query" = Some failure ->
  exists e w',
    handleIssuesManage args env w = (Threw e, w') /\ requests w' = requests w.
Proof.
  intros Ea Ev.
  unfold handleIssuesManage, bind at 1, validateIssuesArgs, catch, bind at 1, ask.
  rewrite Ea, Ev.
  destruct failure; do 2 eexists; split; reflexivity.
Qed.

(** C10.  With no enforced project id configured, every call of the query
    tool fails with the missing-project error and no request is made,
    whatever the arguments: the query text (with a project filter or not)
    and anything else the caller sent.  The [query] action of the issues
    tool goes the same way: it makes no request and fails, with the
    missing-project error as soon as its query passes the validation. *)
Theorem query_without_configured_project (env : Env) (w : World) :
  ~ supplied (defaultProjectId env) ->
  (forall args : QueryArgs.t,
      handleQueryIssues args env w = (Threw missing_project_error, w)
      /\ exists w',
           callTool (CallQuery args) env w
           = (Threw (McpErr InternalError
                       ("Tool execution failed: " ++ missing_project_message)),
              w')
           /\ requests w' = requests w)
  /\ (forall args : IssuesArgs.t,
      IssuesArgs.action args = Query ->
      exists e w',
        handleIssuesManage args env w = (Threw e, w')
        /\ requests w' = requests w
        /\ (validateRequired env (IssuesArgs.query args) "query" = None ->
            e = missing_project_error
            /\ exists w'',
                 callTool (CallIssues args) env w
                 = (Threw (McpErr InternalError
                             ("Tool execution failed: "
                                ++ missing_project_message)),
                    w'')
                 /\ requests w'' = requests w)).
Proof.
  intros Hn. apply not_supplied_falsy in Hn. split.
  - intros args. split; [now apply handleQueryIssues_unconfigured |].
    unfold callTool, catch.
    rewrite (handleQueryIssues_unconfigured env w args Hn).
    eexists. split; reflexivity.
  - intros args Ea.
    destruct (validateRequired env (IssuesArgs.query args) "query")
      as [failure|] eqn:Ev.
    + destruct (issues_query_invalid env w args failure Ea Ev) as (e & w' & H & Hq).
      exists e, w'. split; [exact H |]. split; [exact Hq | discriminate].
    + pose proof (issues_query_unconfigured env w args Hn Ea Ev) as H.
      exists missing_project_error, w. split; [exact H |].
      split; [reflexivity |]. intros _. split; [reflexivity |].
      unfold callTool, catch. rewrite H. eexists. split; reflexivity.
Qed.

Lemma query_without_configured_project_witness :
  let env := sample_env backend_ok None in
  let args :=
    QueryArgs.mk (Some "project: OTHER #Unresolved") None None
      [("projectId", JStr "OTHER")] in
  handleQueryIssues args env empty_world
  = (Threw missing_project_error, empty_world).
Proof.
  intros env args.
  refine (proj1 (proj1 (query_without_configured_project env empty_world _) args)).
  intros (s & E & _). discriminate E.
Defined.

(** ** Updates *)

Lemma applyCommands_run (issueId : string) (commands : list string) :
  forall (errors : list string) (env : Env) (w : World),
  exists w',
    applyCommands issueId commands errors env w
    = (Returned (errors ++ command_failures env (requests w) issueId commands)%list,
       w')
    /\ requests w'
       = (requests w ++ map (command_request (JStr issueId)) commands)%list.
Proof.
  induction commands as [|cmd rest IH]; intros errors env w.
  - exists w. simpl. now rewrite !app_nil_r.
  - simpl. unfold bind at 1, attempt, applyCommand, send.
    destruct (backend env (requests w) (command_request (JStr issueId) cmd))
      as [ok|err].
    + destruct (IH errors env
                  (mkWorld (requests w ++ [command_request (JStr issueId) cmd])%list
                     (logs w))) as (w' & Hrun & Hreq).
      exists w'. split; [exact Hrun |].
      rewrite Hreq. simpl. now rewrite <- app_assoc.
    + unfold bind at 1, log, emit. unfold push.
      match goal with
      | |- context [applyCommands issueId rest ?e env ?w0] =>
          destruct (IH e env w0) as (w' & Hrun & Hreq)
      end.
      exists w'. split.
      * rewrite Hrun. simpl. now rewrite <- app_assoc.
      * rewrite Hreq. simpl. now rewrite <- app_assoc.
Qed.

Lemma direct_write_run (c : bool) (r : Request) (label : string)
    (errors : list string) (l : Level) (text : Thrown -> string)
    (env : Env) (w : World) :
  exists w',
    (if c then
       catch (send r ;; ret errors)
         (fun err =>
            log l (text err) JUndefined ;;
            ret (push (label ++ message_of err) errors))
     else ret errors) env w
    = (Returned
         (errors
            ++ write_failures env (requests w) label (if c then [r] else []))%list,
       w')
    /\ requests w' = (requests w ++ (if c then [r] else []))%list.
Proof.
  destruct c.
  - unfold catch, bind, send, write_failures.
    destruct (backend env (requests w) r) as [ok|err]; simpl.
    + eexists. split; [now rewrite app_nil_r | reflexivity].
    + eexists. split; reflexivity.
  - exists w. simpl. now rewrite !app_nil_r.
Qed.

Lemma basic_payload_empty (env : Env) (updates : IssueUpdateParams.t) :
  negb (List.length (basicFieldPayload env updates) =? 0)%nat
  = Js.truthy (IssueUpdateParams.summary updates)
    || Js.truthy (IssueUpdateParams.description updates).
Proof.
  unfold basicFieldPayload.
  destruct (Js.truthy (IssueUpdateParams.summary updates));
    destruct (Js.truthy (IssueUpdateParams.description updates)); reflexivity.
Qed.

Lemma tag_writes_eq (issueId : string) (updates : IssueUpdateParams.t) :
  tag_writes issueId updates
  = if negb (List.length (tags_to_write updates) =? 0)%nat
    then [tags_request issueId (tags_to_write updates)]
    else [].
Proof.
  unfold tag_writes, tags_to_write.
  destruct (IssueUpdateParams.tags updates) as [[|t ts]|]; reflexivity.
Qed.

(** C5.  An update sends each synthesized command in a request of its own,
    in order, whatever the backend answers to the ones before; then the
    direct write of the summary and description, the direct write of the
    tags, and the refresh.  It returns the envelope of an update, whose
    [appliedCommands] is the number of commands attempted and whose errors
    are, in order, one [command: message] line for each command refused,
    followed by a line for each direct write refused. *)
Theorem update_isolates_failures (env : Env) (w : World) (issueId : string)
    (updates : IssueUpdateParams.t) :
  let commands := updateCommandParts updates in
  let attempts := map (command_request (JStr issueId)) commands in
  let basic := basic_writes env issueId updates in
  let tags := tag_writes issueId updates in
  let commandErrors :=
    (command_failures env (requests w) issueId commands
     ++ write_failures env (requests w ++ attempts) "Basic fields: " basic
     ++ write_failures env (requests w ++ attempts ++ basic) "Tags: " tags)%list in
  let meta := update_meta commands commandErrors in
  exists data message w',
    updateIssue issueId updates env w
    = (Returned
         (formatUpdated data "Issue" (IssueUpdateParams.to_json updates)
            message meta),
       w')
    /\ requests w'
       = (requests w ++ attempts ++ basic ++ tags ++ [refresh_request issueId])%list
    /\ JsonOps.opt_get meta "appliedCommands"
       = JNum (Z.of_nat (List.length attempts))
    /\ JsonOps.opt_get meta "commandErrorsCount"
       = JNum (Z.of_nat (List.length commandErrors))
    /\ (commandErrors <> [] ->
        JsonOps.opt_get meta "commandErrors" = JArr (map JStr commandErrors)).
Proof.
  intros commands attempts basic tags commandErrors meta.
  unfold updateIssue. unfold bind at 1, ask. cbv beta.
  destruct (applyCommands_run issueId commands [] env w) as (w1 & H1 & Q1).
  unfold bind at 1. fold commands. rewrite H1.
  rewrite basic_payload_empty.
  destruct (direct_write_run
              (Js.truthy (IssueUpdateParams.summary updates)
               || Js.truthy (IssueUpdateParams.description updates))
              (basic_fields_request env issueId updates) "Basic fields: "
              ([] ++ command_failures env (requests w) issueId commands)%list
              LogError
              (fun postErr =>
                 "Failed to update basic fields for issue " ++ issueId ++ ": "
                   ++ string_of_thrown postErr)
              env w1) as (w2 & H2 & Q2).
  unfold bind at 1. rewrite H2.
  destruct (direct_write_run
              (negb (List.length (tags_to_write updates) =? 0)%nat)
              (tags_request issueId (tags_to_write updates)) "Tags: "
              (([] ++ command_failures env (requests w) issueId commands)
                 ++ write_failures env (requests w1) "Basic fields: "
                      (if Js.truthy (IssueUpdateParams.summary updates)
                          || Js.truthy (IssueUpdateParams.description updates)
                       then [basic_fields_request env issueId updates]
                       else []))%list
              LogWarn
              (fun tagErr =>
                 "Failed to update tags for issue " ++ issueId ++ ": "
                   ++ string_of_thrown tagErr)
              env w2) as (w3 & H3 & Q3).
  unfold bind at 1. rewrite H3.
  rewrite <- tag_writes_eq in *. fold tags in Q3 |- *.
  fold (basic_writes env issueId updates) in *. fold basic in Q2, Q3 |- *.
  assert (Eerr : ((([] ++ command_failures env (requests w) issueId commands)
                     ++ write_failures env (requests w1) "Basic fields: " basic)
                    ++ write_failures env (requests w2) "Tags: " tags)%list
                 = commandErrors).
  { subst commandErrors. rewrite Q2, Q1. fold attempts. simpl.
    now rewrite <- !app_assoc. }
  rewrite Eerr.
  assert (Ereq : requests w3 = (requests w ++ attempts ++ basic ++ tags)%list).
  { rewrite Q3, Q2, Q1. fold attempts. now rewrite <- !app_assoc. }
  unfold bind at 1, catch, send.
  destruct (backend env (requests w3) (refresh_request issueId)) as [data|err];
    simpl; do 3 eexists; (split; [reflexivity |]); simpl;
    (split; [rewrite Ereq; now rewrite <- !app_assoc |]);
    (split; [subst attempts; now rewrite length_map |]);
    (split; [reflexivity |]);
    intros Hne; unfold meta, update_meta; simpl;
    destruct commandErrors; [contradiction | reflexivity | contradiction | reflexivity].
Qed.

Lemma update_isolates_failures_scenario :
  let env := sample_env backend_rejecting_priority (Some "TEAM") in
  updateCommandParts three_field_update
  = ["State: Open"; "Priority: Bogus"; "Assignee: me"]
  /\ exists data message w',
       updateIssue "TEAM-1" three_field_update env empty_world
       = (Returned
            (formatUpdated data "Issue"
               (IssueUpdateParams.to_json three_field_update) message
               (JObj [("appliedCommands", JNum 3);
                      ("commandErrorsCount", JNum 1);
                      ("commandErrors",
                       JArr [JStr "Priority: Bogus: Unknown priority"])])),
          w')
       /\ requests w'
          = [command_request (JStr "TEAM-1") "State: Open";
             command_request (JStr "TEAM-1") "Priority: Bogus";
             command_request (JStr "TEAM-1") "Assignee: me";
             basic_fields_request env "TEAM-1" three_field_update;
             tags_request "TEAM-1" ["a"];
             refresh_request "TEAM-1"].
Proof.
  intros env. split; [reflexivity |].
  destruct (update_isolates_failures env empty_world "TEAM-1" three_field_update)
    as (data & message & w' & Hrun & Hreq & _).
  exists data, message, w'. split; [exact Hrun | exact Hreq].
Defined.

(** The errors of an update against the ones the specification describes:
    an update of the summary alone has no command, and when the backend
    refuses its direct write the envelope counts one error out of no
    command, and lists a line that names no command. *)
Lemma update_reports_refused_write :
  let env := sample_env backend_read_only (Some "TEAM") in
  updateCommandParts summary_update = []
  /\ backend env [] (basic_fields_request env "TEAM-1" summary_update)
     = inr (JsErr "Error" "read-only")
  /\ fst (run env (updateIssue "TEAM-1" summary_update))
     = Returned
         (formatUpdated
            (JObj [("id", JStr "2-15"); ("idReadable", JStr "TEAM-1")])
            "Issue" (IssueUpdateParams.to_json summary_update)
            "Issue TEAM-1 updated with partial errors"
            (JObj [("appliedCommands", JNum 0);
                   ("commandErrorsCount", JNum 1);
                   ("commandErrors", JArr [JStr "Basic fields: read-only"])]))
  /\ requests (snd (run env (updateIssue "TEAM-1" summary_update)))
     = [basic_fields_request env "TEAM-1" summary_update;
        refresh_request "TEAM-1"].
Proof.
  cbv zeta. repeat split; reflexivity.
Qed.

(** ** Scoping of the search paths *)

Lemma queryIssues_returns (params : IssueQueryParams.t) (env : Env) (w : World) :
  exists resp,
    queryIssues params env w
    = (Returned resp,
       mkWorld (requests w ++ [query_request env params])%list (logs w)).
Proof.
  unfold queryIssues, catch, bind, ask, send.
  destruct (backend env (requests w) (query_request env params)) as [data|err].
  - eexists. reflexivity.
  - simpl. destruct (Js.includes "400" (message_of err) || _);
      eexists; reflexivity.
Qed.

Lemma handleQueryIssues_enforced (env : Env) (w : World) (args : QueryArgs.t)
    (enforced query : string) :
  defaultProjectId env = Some enforced -> enforced <> "" ->
  QueryArgs.query args = Some query ->
  exists resp w',
    handleQueryIssues args env w = (Returned resp, w')
    /\ requests w'
       = (requests w
            ++ [scoped_query_request env args (scopeQuery env enforced query)])%list.
Proof.
  intros E N Eq. unfold handleQueryIssues. unfold bind at 1.
  rewrite (resolveProjectId_enforced env None false w enforced E N). simpl.
  rewrite app_nil_r. unfold bind at 1, ask. unfold bind at 1. rewrite Eq.
  destruct (String.eqb_spec enforced ""); [contradiction |]. simpl.
  unfold bind at 1, when.
  destruct (Js.includes "project:" (Js.toLowerCase query)
            && Js.truthy (defaultProjectId env)); simpl;
    match goal with
    | |- context [queryIssues ?p env ?w0] =>
        destruct (queryIssues_returns p env w0) as (resp & Hq)
    end; rewrite Hq; do 2 eexists; split; reflexivity.
Qed.

(** The scoping that works: a query without a project filter is prefixed
    with the filter of the enforced project. *)
Lemma scopeQuery_prefixes (env : Env) (enforced query : string) :
  enforced <> "" ->
  Js.includes "project:" (Js.toLowerCase query) = false ->
  scopeQuery env enforced query = "project: " ++ enforced ++ " " ++ query.
Proof.
  intros N H. unfold scopeQuery. rewrite H.
  destruct (String.eqb_spec enforced ""); [contradiction | reflexivity].
Qed.

(** C4, where the source departs from it.  With the project TEAM enforced,
    a query with two project filters has only the first one rewritten, so
    the query handed to the backend still names the project of the caller;
    and a query that ends in [project:] counts as holding a project filter
    but has nothing rewritten, so it is handed over as it is, with no
    filter of the enforced project at all. *)
Theorem query_scoping_gaps (env : Env) (w : World) (args : QueryArgs.t) :
  defaultProjectId env = Some "TEAM" ->
  (QueryArgs.query args = Some "project: OTHER or project: SECRET" ->
   exists resp w',
     handleQueryIssues args env w = (Returned resp, w')
     /\ requests w'
        = (requests w
             ++ [scoped_query_request env args
                   "project: TEAM or project: SECRET"])%list)
  /\ (QueryArgs.query args = Some "state: Open project:" ->
      exists resp w',
        handleQueryIssues args env w = (Returned resp, w')
        /\ requests w'
           = (requests w
                ++ [scoped_query_request env args "state: Open project:"])%list).
Proof.
  intros E.
  assert (N : "TEAM" <> "") by discriminate.
  split; intros Eq;
    destruct (handleQueryIssues_enforced env w args "TEAM" _ E N Eq)
      as (resp & w' & Hrun & Hreq);
    exists resp, w'; (split; [exact Hrun |]); rewrite Hreq;
    unfold scopeQuery; rewrite E; reflexivity.
Qed.

Lemma query_scoping_gaps_witness :
  let env := sample_env backend_ok (Some "TEAM") in
  let args := QueryArgs.mk (Some "project: OTHER or project: SECRET") None None [] in
  exists resp w',
    handleQueryIssues args env empty_world = (Returned resp, w')
    /\ map query_of (requests w') = [JStr "project: TEAM or project: SECRET"].
Proof.
  intros env args.
  destruct (proj1 (query_scoping_gaps env empty_world args eq_refl) eq_refl)
    as (resp & w' & Hrun & Hreq).
  exists resp, w'. split; [exact Hrun |]. rewrite Hreq. reflexivity.
Defined.

(** C2, where the source departs from it.  The [count] action of the
    issues tool hands the query of the caller to the backend as it is:
    neither the enforced project id nor any scoping of the query text comes
    into it, whatever is configured. *)
Theorem count_ignores_enforced_project (env : Env) (w : World)
    (args : IssuesArgs.t) (query : string) :
  IssuesArgs.action args = Count ->
  IssuesArgs.query args = Some query ->
  query <> "" ->
  validateRequired env (Some query) "query" = None ->
  exists resp w',
    handleIssuesManage args env w = (Returned resp, w')
    /\ requests w' = (requests w ++ [count_request (JStr query)])%list.
Proof.
  intros Ea Eq N Ev.
  unfold handleIssuesManage, bind at 1, validateIssuesArgs, catch at 1,
    bind at 1, ask.
  rewrite Ea, Eq, Ev. simpl.
  destruct (String.eqb_spec query ""); [contradiction |]. simpl.
  unfold getIssueCount, catch, bind, send.
  destruct (backend env (requests w) (count_request (JStr query)));
    do 2 eexists; split; reflexivity.
Qed.

Lemma count_ignores_enforced_project_witness :
  let env := sample_env backend_ok (Some "TEAM") in
  exists resp w',
    handleIssuesManage count_other_project env empty_world = (Returned resp, w')
    /\ requests w' = [count_request (JStr "project: OTHER")].
Proof.
  intros env.
  refine (count_ignores_enforced_project env empty_world count_other_project
            "project: OTHER" eq_refl eq_refl _ eq_refl).
  discriminate.
Defined.

(** * Further properties of the sources *)

(** ** The creation workflow, step by step *)

Lemma setBusinessProc_returns (idReadable : Json) (businessProc : string)
    (env : Env) (w : World) :
  exists w', setBusinessProc idReadable businessProc env w = (Returned tt, w').
Proof.
  unfold setBusinessProc. unfold catch at 1.
  match goal with
  | |- context [match ?m env w with _ => _ end] =>
      destruct (m env w) as [[[]|e] w1]
  end.
  - now exists w1.
  - unfold catch.
    match goal with
    | |- context [match ?m env w1 with _ => _ end] =>
        destruct (m env w1) as [[[]|e'] w2]
    end.
    + now exists w2.
    + eexists. reflexivity.
Qed.

(** X1.  [createIssue] never throws: whatever the backend does, the call
    ends in a response. *)
Theorem createIssue_never_throws (projectId : string)
    (params : IssueCreateParams.t) (env : Env) (w : World) :
  exists resp w', createIssue projectId params env w = (Returned resp, w').
Proof.
  unfold createIssue, catch.
  match goal with
  | |- context [match ?m env w with _ => _ end] =>
      destruct (m env w) as [[resp|e] w']
  end.
  - now exists resp, w'.
  - eexists. eexists. reflexivity.
Qed.

(** X2.  When the backend answers the draft request without an id,
    [createIssue] reports that no draft was created and sends nothing after
    the draft request: no command, no submission. *)
Theorem createIssue_draft_without_id (env : Env) (w w1 : World)
    (projectId : string) (params : IssueCreateParams.t) (internal data : Json) :
  resolveInternalProjectId projectId env w = (Returned internal, w1) ->
  backend env (requests w1) (draft_request env internal params) = inl data ->
  JsonOps.truthy (JsonOps.opt_get data "id") = false ->
  createIssue projectId params env w
  = (Returned
       (formatError "Failed to create draft — no ID returned"
          (JObj [("projectId", JStr projectId);
                 ("summary", JsonOps.of_opt (IssueCreateParams.summary params))])),
     mkWorld (requests w1 ++ [draft_request env internal params])%list (logs w1)).
Proof.
  intros Hr Hd Ht.
  unfold createIssue, catch at 1, bind at 1. rewrite Hr.
  unfold bind at 1, ask. unfold bind at 1, send at 1. rewrite Hd.
  rewrite Ht. reflexivity.
Qed.

Lemma createIssue_draft_without_id_witness :
  createIssue "12-3" task_params (sample_env backend_ok None) empty_world
  = (Returned
       (formatError "Failed to create draft — no ID returned"
          (JObj [("projectId", JStr "12-3"); ("summary", JStr "X")])),
     mkWorld [draft_request (sample_env backend_ok None) (JStr "12-3") task_params]
       []).
Proof.
  exact (createIssue_draft_without_id (sample_env backend_ok None)
           empty_world empty_world "12-3" task_params (JStr "12-3") (JObj [])
           eq_refl eq_refl eq_refl).
Defined.

(** X3.  When the draft request itself fails, [createIssue] answers with an
    error response, whatever the failure, and sends nothing more.  The
    message of the failure chooses the text: one that mentions 404 or
    [not found] is reported as the project not being found, also when it
    mentions 403 as well; otherwise one that mentions 403 or [Forbidden] is
    reported as a missing permission; otherwise one of the four network
    markers as a network error; and any other failure with its own
    message. *)
Theorem createIssue_draft_request_fails (env : Env) (w w1 : World)
    (projectId : string) (params : IssueCreateParams.t) (internal : Json)
    (error : Thrown) :
  resolveInternalProjectId projectId env w = (Returned internal, w1) ->
  backend env (requests w1) (draft_request env internal params) = inr error ->
  let summary := JsonOps.of_opt (IssueCreateParams.summary params) in
  let m := message_of error in
  let missing := Js.includes "404" m || Js.includes "not found" m in
  let forbidden := Js.includes "403" m || Js.includes "Forbidden" m in
  let network :=
    Js.includes "circular structure" m || Js.includes "ECONNREFUSED" m
    || Js.includes "ETIMEDOUT" m || Js.includes "ENOTFOUND" m in
  exists message context,
    createIssue projectId params env w
    = (Returned (formatError message context),
       mkWorld (requests w1 ++ [draft_request env internal params])%list (logs w1))
    /\ (missing = true ->
        message = "Project " ++ projectId
                    ++ " not found. Please check the project ID."
        /\ context = JObj [("projectId", JStr projectId); ("summary", summary)])
    /\ (missing = false -> forbidden = true ->
        message = "You don't have permission to create issues in project "
                    ++ projectId ++ "."
        /\ context = JObj [("projectId", JStr projectId);
                           ("action", JStr "create")])
    /\ (missing = false -> forbidden = false -> network = true ->
        message = "Network error connecting to YouTrack. Check VPN/network connectivity."
        /\ context = JObj [("projectId", JStr projectId);
                           ("action", JStr "create")])
    /\ (missing = false -> forbidden = false -> network = false ->
        message = message_or_string error
        /\ context = JObj [("projectId", JStr projectId); ("summary", summary);
                           ("action", JStr "create")]).
Proof.
  intros Hr Hd summary m missing forbidden network.
  unfold createIssue, catch at 1, bind at 1. rewrite Hr.
  unfold bind at 1, ask. unfold bind at 1, send at 1. rewrite Hd.
  unfold ret, createIssue_failure.
  fold summary m. fold missing forbidden network.
  destruct missing, forbidden, network;
    (eexists; eexists; split; [reflexivity |]);
    repeat split; intros; congruence.
Qed.

Lemma createIssue_draft_request_fails_witness :
  exists message context,
    createIssue "12-3" task_params
      (sample_env (backend_failing "403 and 404") None) empty_world
    = (Returned (formatError message context),
       mkWorld [draft_request (sample_env (backend_failing "403 and 404") None)
                  (JStr "12-3") task_params] [])
    /\ message = "Project 12-3 not found. Please check the project ID."
    /\ context = JObj [("projectId", JStr "12-3"); ("summary", JStr "X")].
Proof.
  destruct (createIssue_draft_request_fails
              (sample_env (backend_failing "403 and 404") None)
              empty_world empty_world "12-3" task_params (JStr "12-3")
              (JsErr "Error" "403 and 404") eq_refl eq_refl)
    as (message & context & Hrun & Hmissing & _).
  exists message, context. split; [exact Hrun |]. apply Hmissing. reflexivity.
Defined.

(** Once the command of step 2 went through, what is left of [createIssue]
    is the submission and what follows it. *)
Lemma createIssue_after_command (env : Env) (w w1 : World) (projectId : string)
    (params : IssueCreateParams.t) (internal data ok : Json) :
  resolveInternalProjectId projectId env w = (Returned internal, w1) ->
  backend env (requests w1) (draft_request env internal params) = inl data ->
  JsonOps.truthy (JsonOps.opt_get data "id") = true ->
  let draftId := JsonOps.opt_get data "id" in
  let command := Js.join " " (createCommandParts params) in
  backend env (requests w1 ++ [draft_request env internal params])%list
    (draft_command_request draftId command) = inl ok ->
  createIssue projectId params env w =
  catch (submitDraft params draftId)
    (fun error =>
       ret (createIssue_failure projectId
              (JsonOps.of_opt (IssueCreateParams.summary params)) error))
    env
    (mkWorld
       (requests w1
          ++ [draft_request env internal params;
              draft_command_request draftId command])%list
       (logs w1)).
Proof.
  intros Hr Hd Ht draftId command Hc.
  rewrite (createIssue_after_draft env w w1 projectId params internal data Hr Hd Ht).
  fold draftId command.
  unfold catch, bind at 1, attempt, send at 1. simpl requests. rewrite Hc.
  simpl. now rewrite <- app_assoc.
Qed.

(** X4.  Once the draft is submitted and the backend has answered with the
    issue, the creation is reported as a success whatever becomes of the
    business process: a command refused, a lookup that fails, a field that
    is not there.  Without a business process nothing is sent after the
    submission. *)
Theorem createIssue_succeeds_once_submitted (env : Env) (w w1 : World)
    (projectId : string) (params : IssueCreateParams.t)
    (internal data ok issue : Json) :
  let draftId := JsonOps.opt_get data "id" in
  let command := Js.join " " (createCommandParts params) in
  let sent :=
    (requests w1
       ++ [draft_request env internal params;
           draft_command_request draftId command])%list in
  resolveInternalProjectId projectId env w = (Returned internal, w1) ->
  backend env (requests w1) (draft_request env internal params) = inl data ->
  JsonOps.truthy draftId = true ->
  backend env (requests w1 ++ [draft_request env internal params])%list
    (draft_command_request draftId command) = inl ok ->
  backend env sent (submit_request draftId) = inl issue ->
  JsonOps.nullish issue = false ->
  exists w' rest,
    createIssue projectId params env w
    = (Returned (created_response params issue), w')
    /\ requests w' = (sent ++ [submit_request draftId] ++ rest)%list
    /\ (Js.truthy (IssueCreateParams.businessProc params) = false -> rest = []).
Proof.
  intros draftId command sent Hr Hd Ht Hc Hs Hn.
  rewrite (createIssue_after_command env w w1 projectId params internal data ok
             Hr Hd Ht Hc).
  fold draftId command sent.
  unfold catch, submitDraft, bind at 1, send at 1. simpl requests. rewrite Hs.
  unfold bind at 1, get_prop. rewrite Hn. unfold ret at 1.
  unfold bind at 1, when.
  destruct (Js.truthy (IssueCreateParams.businessProc params)
            && JsonOps.truthy _) eqn:Eb.
  - match goal with
    | |- context [setBusinessProc ?i ?b env ?w0] =>
        destruct (setBusinessProc_returns i b env w0) as (w2 & H2);
        destruct (monotone_setBusinessProc i b env w0) as (rest & Hrest)
    end.
    rewrite H2 in *. simpl in Hrest. simpl.
    exists w2, rest. split; [reflexivity |]. split.
    + rewrite Hrest. now rewrite <- app_assoc.
    + intros Hb. rewrite Hb in Eb. discriminate Eb.
  - simpl. eexists. exists []. split; [reflexivity |].
    split; [reflexivity | reflexivity].
Qed.

Lemma createIssue_succeeds_once_submitted_witness :
  let env := sample_env backend_refusing_enrichment None in
  exists w' rest,
    createIssue "12-3" process_params env empty_world
    = (Returned
         (created_response process_params
            (JObj [("id", JStr "2-15"); ("idReadable", JStr "TEAM-15")])),
       w')
    /\ requests w'
       = ([draft_request env (JStr "12-3") process_params;
           draft_command_request (JStr "draft-7")
             "Type: Task Priority: Normal Dev_Team: Backend"]
            ++ [submit_request (JStr "draft-7")] ++ rest)%list.
Proof.
  intros env.
  destruct (createIssue_succeeds_once_submitted env empty_world empty_world
              "12-3" process_params (JStr "12-3")
              (JObj [("id", JStr "draft-7")])
              (JObj [("id", JStr "2-15"); ("idReadable", JStr "TEAM-15")])
              (JObj [("id", JStr "2-15"); ("idReadable", JStr "TEAM-15")])
              eq_refl eq_refl eq_refl eq_refl eq_refl eq_refl)
    as (w' & rest & Hrun & Hreq & _).
  exists w', rest. split; [exact Hrun | exact Hreq].
Defined.

(** X5.  When the backend accepts the submission but answers it with no
    data, [createIssue] ends in an error response although the submission
    request was sent: the caller is told of a failure after the draft was
    handed over for submission. *)
Theorem createIssue_submission_without_data (env : Env) (w w1 : World)
    (projectId : string) (params : IssueCreateParams.t)
    (internal data ok issue : Json) :
  let draftId := JsonOps.opt_get data "id" in
  let command := Js.join " " (createCommandParts params) in
  let sent :=
    (requests w1
       ++ [draft_request env internal params;
           draft_command_request draftId command])%list in
  resolveInternalProjectId projectId env w = (Returned internal, w1) ->
  backend env (requests w1) (draft_request env internal params) = inl data ->
  JsonOps.truthy draftId = true ->
  backend env (requests w1 ++ [draft_request env internal params])%list
    (draft_command_request draftId command) = inl ok ->
  backend env sent (submit_request draftId) = inl issue ->
  JsonOps.nullish issue = true ->
  exists message w',
    createIssue projectId params env w
    = (Returned
         (formatError message
            (JObj [("projectId", JStr projectId);
                   ("summary", JsonOps.of_opt (IssueCreateParams.summary params));
                   ("action", JStr "create")])),
       w')
    /\ requests w' = (sent ++ [submit_request draftId])%list
    /\ submitted w' = true.
Proof.
  intros draftId command sent Hr Hd Ht Hc Hs Hn.
  rewrite (createIssue_after_command env w w1 projectId params internal data ok
             Hr Hd Ht Hc).
  fold draftId command sent.
  unfold catch, submitDraft, bind at 1, send at 1. simpl requests. rewrite Hs.
  unfold bind at 1, get_prop. rewrite Hn. unfold throw, ret.
  destruct issue; try discriminate Hn;
    (do 2 eexists; split; [reflexivity |]; split; [reflexivity |]);
    unfold submitted; simpl; rewrite existsb_app; simpl;
    now rewrite orb_true_r.
Qed.

Lemma createIssue_submission_without_data_witness :
  let env := sample_env backend_silent_submission None in
  exists message w',
    createIssue "12-3" task_params env empty_world
    = (Returned
         (formatError message
            (JObj [("projectId", JStr "12-3"); ("summary", JStr "X");
                   ("action", JStr "create")])),
       w')
    /\ submitted w' = true.
Proof.
  intros env.
  destruct (createIssue_submission_without_data env empty_world empty_world
              "12-3" task_params (JStr "12-3")
              (JObj [("id", JStr "draft-7")]) (JObj []) JNull
              eq_refl eq_refl eq_refl eq_refl eq_refl eq_refl)
    as (message & w' & Hrun & _ & Hsub).
  exists message, w'. split; [exact Hrun | exact Hsub].
Defined.

(** ** Internal project ids *)

Lemma append_nil_r_local (s : string) : s ++ "" = s.
Proof. induction s as [|c s IH]; simpl; [reflexivity | now rewrite IH]. Qed.

Lemma span_splits (p : ascii -> bool) (s : string) :
  forall a b, Js.span p s = (a, b) ->
  s = a ++ b /\ all_chars p a = true /\ stops p b = true.
Proof.
  induction s as [|c s IH]; simpl; intros a b E.
  - inversion E; subst. repeat split.
  - destruct (p c) eqn:Ec.
    + destruct (Js.span p s) as [a' b'] eqn:Es. inversion E; subst.
      destruct (IH a' b eq_refl) as (Hs & Ha & Hb).
      repeat split; simpl; [now rewrite <- Hs | now rewrite Ec | exact Hb].
    + inversion E; subst. simpl. rewrite Ec. repeat split.
Qed.

Lemma span_app (p : ascii -> bool) (a b : string) :
  all_chars p a = true -> stops p b = true -> Js.span p (a ++ b) = (a, b).
Proof.
  induction a as [|c a IH]; simpl; intros Ha Hb.
  - destruct b as [|c b]; [reflexivity |]. simpl in *.
    apply negb_true_iff in Hb. now rewrite Hb.
  - apply andb_true_iff in Ha. destruct Ha as [Hc Ha].
    rewrite Hc, (IH Ha Hb). reflexivity.
Qed.

(** X6.  The test for an internal project id accepts exactly the strings
    made of one or more digits, a hyphen, and one or more digits. *)
Theorem isInternalId_shape (s : string) :
  isInternalId s = true
  <-> exists d1 d2,
        s = d1 ++ "-" ++ d2
        /\ d1 <> "" /\ d2 <> ""
        /\ all_chars Js.is_digit d1 = true
        /\ all_chars Js.is_digit d2 = true.
Proof.
  unfold isInternalId. split.
  - destruct (Js.span Js.is_digit s) as [d1 rest] eqn:E1.
    destruct (span_splits _ _ _ _ E1) as (Hs & Hd1 & _).
    destruct rest as [|c rest']; [discriminate |].
    destruct (Ascii.eqb_spec c "-") as [->|Nc].
    + destruct (Js.span Js.is_digit rest') as [d2 tail] eqn:E2.
      destruct (span_splits _ _ _ _ E2) as (Hs2 & Hd2 & _).
      intros H. apply andb_true_iff in H. destruct H as [H Ht].
      apply andb_true_iff in H. destruct H as [H1 H2].
      apply String.eqb_eq in Ht. subst tail.
      exists d1, d2. repeat split; try assumption.
      * rewrite Hs, Hs2. simpl. now rewrite append_nil_r_local.
      * intros ->. discriminate H1.
      * intros ->. discriminate H2.
    + intros H. exfalso. revert H.
      destruct c as [[] [] [] [] [] [] [] []]; try discriminate;
        now elim Nc.
  - intros (d1 & d2 & -> & N1 & N2 & H1 & H2).
    rewrite (span_app Js.is_digit d1 ("-" ++ d2) H1 eq_refl). simpl.
    replace d2 with (d2 ++ "") at 1 by apply append_nil_r_local.
    rewrite (span_app Js.is_digit d2 "" H2 eq_refl).
    destruct (String.eqb_spec d1 ""); [contradiction |].
    destruct (String.eqb_spec d2 ""); [contradiction | reflexivity].
Qed.

(** X7.  A project id of the internal shape is used as it is, with no
    request.  Any other id costs exactly one lookup and never fails the
    call: the id of the answer is used when there is one, and the id given
    otherwise, also when the lookup is refused. *)
Theorem resolveInternalProjectId_lookup (projectId : string) (env : Env)
    (w : World) :
  (isInternalId projectId = true ->
   resolveInternalProjectId projectId env w = (Returned (JStr projectId), w))
  /\ (isInternalId projectId = false ->
      resolveInternalProjectId projectId env w
      = (Returned
           match backend env (requests w) (project_lookup_request projectId) with
           | inl data =>
               if JsonOps.truthy (JsonOps.opt_get data "id")
               then JsonOps.opt_get data "id"
               else JStr projectId
           | inr _ => JStr projectId
           end,
         mkWorld (requests w ++ [project_lookup_request projectId])%list (logs w))).
Proof.
  unfold resolveInternalProjectId. split; intros E; rewrite E; [reflexivity |].
  unfold catch, bind, get, send, ret. fold (project_lookup_request projectId).
  destruct (backend env (requests w) (project_lookup_request projectId));
    reflexivity.
Qed.

Lemma resolveInternalProjectId_lookup_witness :
  resolveInternalProjectId "77-1072" (sample_env (backend_failing "down") None)
    empty_world
  = (Returned (JStr "77-1072"), empty_world)
  /\ resolveInternalProjectId "SC" (sample_env (backend_failing "down") None)
       empty_world
     = (Returned (JStr "SC"), mkWorld [project_lookup_request "SC"] []).
Proof.
  split.
  - exact (proj1 (resolveInternalProjectId_lookup "77-1072"
                    (sample_env (backend_failing "down") None) empty_world)
             eq_refl).
  - exact (proj2 (resolveInternalProjectId_lookup "SC"
                    (sample_env (backend_failing "down") None) empty_world)
             eq_refl).
Defined.

(** ** Updates, further *)

(** The run of [updateIssue], with its message. *)
Lemma updateIssue_run (env : Env) (w : World) (issueId : string)
    (updates : IssueUpdateParams.t) :
  let commands := updateCommandParts updates in
  let attempts := map (command_request (JStr issueId)) commands in
  let basic := basic_writes env issueId updates in
  let tags := tag_writes issueId updates in
  let commandErrors :=
    (command_failures env (requests w) issueId commands
     ++ write_failures env (requests w ++ attempts) "Basic fields: " basic
     ++ write_failures env (requests w ++ attempts ++ basic) "Tags: " tags)%list in
  exists data w',
    updateIssue issueId updates env w
    = (Returned
         (formatUpdated data "Issue" (IssueUpdateParams.to_json updates)
            ("Issue " ++ issueId ++ " updated"
               ++ (if negb (List.length commandErrors =? 0)%nat
                   then " with partial errors" else " successfully"))
            (update_meta commands commandErrors)),
       w')
    /\ requests w'
       = (requests w ++ attempts ++ basic ++ tags ++ [refresh_request issueId])%list.
Proof.
  intros commands attempts basic tags commandErrors.
  unfold updateIssue. unfold bind at 1, ask. cbv beta.
  destruct (applyCommands_run issueId commands [] env w) as (w1 & H1 & Q1).
  unfold bind at 1. fold commands. rewrite H1.
  rewrite basic_payload_empty.
  destruct (direct_write_run
              (Js.truthy (IssueUpdateParams.summary updates)
               || Js.truthy (IssueUpdateParams.description updates))
              (basic_fields_request env issueId updates) "Basic fields: "
              ([] ++ command_failures env (requests w) issueId commands)%list
              LogError
              (fun postErr =>
                 "Failed to update basic fields for issue " ++ issueId ++ ": "
                   ++ string_of_thrown postErr)
              env w1) as (w2 & H2 & Q2).
  unfold bind at 1. rewrite H2.
  destruct (direct_write_run
              (negb (List.length (tags_to_write updates) =? 0)%nat)
              (tags_request issueId (tags_to_write updates)) "Tags: "
              (([] ++ command_failures env (requests w) issueId commands)
                 ++ write_failures env (requests w1) "Basic fields: "
                      (if Js.truthy (IssueUpdateParams.summary updates)
                          || Js.truthy (IssueUpdateParams.description updates)
                       then [basic_fields_request env issueId updates]
                       else []))%list
              LogWarn
              (fun tagErr =>
                 "Failed to update tags for issue " ++ issueId ++ ": "
                   ++ string_of_thrown tagErr)
              env w2) as (w3 & H3 & Q3).
  unfold bind at 1. rewrite H3.
  rewrite <- tag_writes_eq in *. fold tags in Q3 |- *.
  fold (basic_writes env issueId updates) in *. fold basic in Q2, Q3 |- *.
  assert (Eerr : ((([] ++ command_failures env (requests w) issueId commands)
                     ++ write_failures env (requests w1) "Basic fields: " basic)
                    ++ write_failures env (requests w2) "Tags: " tags)%list
                 = commandErrors).
  { subst commandErrors. rewrite Q2, Q1. fold attempts. simpl.
    now rewrite <- !app_assoc. }
  rewrite Eerr.
  assert (Ereq : requests w3 = (requests w ++ attempts ++ basic ++ tags)%list).
  { rewrite Q3, Q2, Q1. fold attempts. now rewrite <- !app_assoc. }
  unfold bind at 1, catch, send.
  destruct (backend env (requests w3) (refresh_request issueId)) as [data|err];
    simpl; do 2 eexists; (split; [reflexivity |]); simpl;
    rewrite Ereq; now rewrite <- !app_assoc.
Qed.

(** X8.  An update that names no field sends no command and no write: the
    refresh is the only request, and the response reports zero commands
    applied, zero errors, and a success. *)
Theorem updateIssue_without_fields (env : Env) (w : World) (issueId : string)
    (updates : IssueUpdateParams.t) :
  Js.truthy (IssueUpdateParams.summary updates) = false ->
  Js.truthy (IssueUpdateParams.description updates) = false ->
  Js.truthy (IssueUpdateParams.state updates) = false ->
  Js.truthy (IssueUpdateParams.priority updates) = false ->
  Js.truthy (IssueUpdateParams.assignee updates) = false ->
  Js.truthy (IssueUpdateParams.type updates) = false ->
  Js.truthy (IssueUpdateParams.subsystem updates) = false ->
  IssueUpdateParams.estimation updates = None ->
  tags_to_write updates = [] ->
  exists data w',
    updateIssue issueId updates env w
    = (Returned
         (formatUpdated data "Issue" (IssueUpdateParams.to_json updates)
            ("Issue " ++ issueId ++ " updated successfully")
            (JObj [("appliedCommands", JNum 0); ("commandErrorsCount", JNum 0)])),
       w')
    /\ requests w' = (requests w ++ [refresh_request issueId])%list.
Proof.
  intros Hsum Hdesc Hstate Hprio Hass Htype Hsub Hest Htags.
  destruct (updateIssue_run env w issueId updates) as (data & w' & Hrun & Hreq).
  assert (Ec : updateCommandParts updates = []).
  { unfold updateCommandParts, push_if.
    now rewrite Hstate, Hprio, Htype, Hass, Hsub, Hest. }
  assert (Eb : basic_writes env issueId updates = []).
  { unfold basic_writes. now rewrite Hsum, Hdesc. }
  assert (Et : tag_writes issueId updates = []).
  { rewrite tag_writes_eq, Htags. reflexivity. }
  rewrite Ec, Eb, Et in Hrun, Hreq. simpl in Hrun, Hreq.
  exists data, w'. split; [exact Hrun | exact Hreq].
Qed.

Lemma updateIssue_without_fields_witness :
  exists data w',
    updateIssue "TEAM-1" empty_update (sample_env backend_ok None) empty_world
    = (Returned
         (formatUpdated data "Issue" (IssueUpdateParams.to_json empty_update)
            "Issue TEAM-1 updated successfully"
            (JObj [("appliedCommands", JNum 0); ("commandErrorsCount", JNum 0)])),
       w')
    /\ requests w' = [refresh_request "TEAM-1"].
Proof.
  exact (updateIssue_without_fields (sample_env backend_ok None) empty_world
           "TEAM-1" empty_update eq_refl eq_refl eq_refl eq_refl eq_refl
           eq_refl eq_refl eq_refl eq_refl).
Defined.

(** X9.  An update through the issues tool never writes tags and never sets
    an estimation or a subsystem: the handler hands over the summary, the
    description, the state, the priority, the assignee and the type only,
    so the requests are the commands of those fields, the direct write of
    the summary and description, and the refresh. *)
Theorem update_action_fields (env : Env) (w : World) (args : IssuesArgs.t) :
  IssuesArgs.action args = Update ->
  validateIssueId env (IssuesArgs.issueId args) "issueId" = None ->
  let issueId := JsonOps.to_string (JsonOps.of_opt (IssuesArgs.issueId args)) in
  let commands := updateCommandParts (update_params_of args) in
  exists resp w',
    handleIssuesManage args env w = (Returned resp, w')
    /\ requests w'
       = (requests w
            ++ map (command_request (JStr issueId)) commands
            ++ basic_writes env issueId (update_params_of args)
            ++ [refresh_request issueId])%list
    /\ clauses "Estimation " commands = []
    /\ clauses "Subsystem:" commands = []
    /\ tag_writes issueId (update_params_of args) = [].
Proof.
  intros Ea Ev issueId commands.
  unfold handleIssuesManage, bind at 1, validateIssuesArgs, catch at 1,
    bind at 1, ask.
  rewrite Ea, Ev. simpl.
  fold (update_params_of args). fold issueId.
  destruct (updateIssue_run env w issueId (update_params_of args))
    as (data & w' & Hrun & Hreq).
  rewrite Hrun. do 2 eexists. split; [reflexivity |].
  split; [exact Hreq |].
  subst commands. unfold updateCommandParts, update_params_of, clauses, push_if, push.
  simpl.
  destruct (Js.truthy (IssuesArgs.state args));
    destruct (Js.truthy (IssuesArgs.priority args));
    destruct (Js.truthy (IssuesArgs.type args));
    destruct (Js.truthy (IssuesArgs.assignee args)); repeat split.
Qed.

Lemma update_action_fields_witness :
  exists resp w',
    handleIssuesManage update_call (sample_env backend_ok (Some "TEAM"))
      empty_world = (Returned resp, w')
    /\ requests w'
       = [command_request (JStr "TEAM-1") "State: Open";
          basic_fields_request (sample_env backend_ok (Some "TEAM")) "TEAM-1"
            (update_params_of update_call);
          refresh_request "TEAM-1"].
Proof.
  destruct (update_action_fields (sample_env backend_ok (Some "TEAM"))
              empty_world update_call eq_refl eq_refl)
    as (resp & w' & Hrun & Hreq & _).
  exists resp, w'. split; [exact Hrun | exact Hreq].
Defined.

(** ** Scoping, further *)

(** X10.  Whenever an enforced project id is configured, the resolver
    returns it and leaves the log alone if the override flag is set: the
    flag does not let the provided id through, it only silences the
    warning. *)
Theorem allowOverride_only_silences (env : Env) (provided : option string)
    (w : World) (enforced : string) :
  defaultProjectId env = Some enforced -> enforced <> "" ->
  resolveProjectId provided true env w = (Returned enforced, w).
Proof.
  intros E N. rewrite (resolveProjectId_enforced env provided true w enforced E N).
  simpl. rewrite andb_false_r. simpl. rewrite app_nil_r. now destruct w.
Qed.

Lemma allowOverride_only_silences_witness :
  resolveProjectId (Some "OTHER") true (sample_env backend_ok (Some "TEAM"))
    empty_world
  = (Returned "TEAM", empty_world).
Proof.
  refine (allowOverride_only_silences (sample_env backend_ok (Some "TEAM"))
            (Some "OTHER") empty_world "TEAM" eq_refl _).
  discriminate.
Defined.

(** X11.  Resolving is idempotent: the id that the resolver returned, given
    back to it, comes out again, with no warning and no request, whether a
    project is enforced or not. *)
Theorem resolveProjectId_idempotent (env : Env) (provided : option string)
    (allowOverride again : bool) (w w' : World) (resolved : string) :
  resolveProjectId provided allowOverride env w = (Returned resolved, w') ->
  resolveProjectId (Some resolved) again env w' = (Returned resolved, w').
Proof.
  intros H.
  destruct (Js.truthy (defaultProjectId env)) eqn:Ed.
  - apply truthy_supplied in Ed. destruct Ed as (enforced & E & N).
    rewrite (resolveProjectId_enforced env provided allowOverride w enforced E N)
      in H.
    inversion H; subst resolved. clear H.
    rewrite (resolveProjectId_enforced env (Some enforced) again _ enforced E N).
    rewrite (truthy_or_else (Some enforced) enforced eq_refl N).
    rewrite String.eqb_refl, andb_false_r. simpl.
    rewrite app_nil_r. reflexivity.
  - rewrite (resolveProjectId_unconfigured env provided allowOverride w Ed) in H.
    destruct (Js.truthy provided) eqn:Ep; [| discriminate H].
    inversion H; subst. clear H.
    apply truthy_supplied in Ep. destruct Ep as (p & Ep & Np).
    rewrite (truthy_or_else _ _ Ep Np).
    rewrite (resolveProjectId_unconfigured env (Some p) again w' Ed).
    now rewrite (supplied_truthy (Some p) p eq_refl Np),
      (truthy_or_else (Some p) p eq_refl Np).
Qed.

Lemma resolveProjectId_idempotent_witness :
  resolveProjectId (Some "TEAM") false (sample_env backend_ok (Some "TEAM"))
    (mkWorld [] [override_warning "TEAM" "OTHER"])
  = (Returned "TEAM", mkWorld [] [override_warning "TEAM" "OTHER"]).
Proof.
  exact (resolveProjectId_idempotent (sample_env backend_ok (Some "TEAM"))
           (Some "OTHER") false false empty_world
           (mkWorld [] [override_warning "TEAM" "OTHER"]) "TEAM" eq_refl).
Defined.

(** X12.  With an enforced project id, the [search] action sends exactly
    one request, whose query is the filter of the enforced project followed
    by the text of the caller, whatever project id the caller gave. *)
Theorem search_action_scoped (env : Env) (w : World) (args : IssuesArgs.t)
    (enforced query : string) :
  defaultProjectId env = Some enforced -> enforced <> "" ->
  IssuesArgs.action args = Search ->
  IssuesArgs.query args = Some query ->
  validateRequired env (Some query) "query" = None ->
  exists resp w',
    handleIssuesManage args env w = (Returned resp, w')
    /\ requests w'
       = (requests w
            ++ [query_request env
                  (IssueQueryParams.mk
                     (JStr ("project: " ++ enforced ++ " " ++ query))
                     JUndefined None None)])%list.
Proof.
  intros E N Ea Eq Ev.
  unfold handleIssuesManage, bind at 1, validateIssuesArgs, catch at 1,
    bind at 1, ask.
  rewrite Ea, Eq, Ev. simpl.
  unfold bind at 1.
  rewrite (resolveProjectId_enforced env _ false w enforced E N).
  unfold smartSearchIssues.
  rewrite (supplied_truthy (Some enforced) enforced eq_refl N),
    (truthy_or_else (Some enforced) enforced eq_refl N).
  match goal with
  | |- context [queryIssues ?p env ?w0] =>
      destruct (queryIssues_returns p env w0) as (resp & Hq)
  end.
  rewrite Hq. do 2 eexists. split; reflexivity.
Qed.

Lemma search_action_scoped_witness :
  let env := sample_env backend_ok (Some "TEAM") in
  exists resp w',
    handleIssuesManage search_other_project env empty_world = (Returned resp, w')
    /\ map query_of (requests w') = [JStr "project: TEAM login page"].
Proof.
  intros env.
  destruct (search_action_scoped env empty_world search_other_project
              "TEAM" "login page" eq_refl) as (resp & w' & Hrun & Hreq);
    try reflexivity; try discriminate.
  exists resp, w'. split; [exact Hrun |]. rewrite Hreq. reflexivity.
Defined.

(** X13.  With an enforced project id, the [create] action creates the
    issue in the enforced project whatever project id the caller gave: the
    handler runs [createIssue] on the enforced id, having sent nothing
    before. *)
Theorem create_action_scoped (env : Env) (w : World) (args : IssuesArgs.t)
    (enforced : string) :
  defaultProjectId env = Some enforced -> enforced <> "" ->
  IssuesArgs.action args = Create ->
  validateProjectId env (Some enforced) "projectId" = None ->
  validateRequired env (IssuesArgs.summary args) "summary" = None ->
  exists w1,
    requests w1 = requests w
    /\ handleIssuesManage args env w
       = createIssue enforced (create_params_of args) env w1.
Proof.
  intros E N Ea Evp Evs.
  unfold handleIssuesManage, bind at 1, validateIssuesArgs, catch at 1,
    bind at 1, ask.
  rewrite Ea. unfold bind at 1.
  rewrite (resolveProjectId_enforced env _ false w enforced E N).
  rewrite Evp. simpl. rewrite Evs. simpl.
  unfold bind at 1.
  rewrite (resolveProjectId_enforced env _ false _ enforced E N).
  eexists. split; [| reflexivity]. reflexivity.
Qed.

Lemma create_action_scoped_witness :
  let env := sample_env backend_ok (Some "TEAM") in
  exists w1,
    requests w1 = []
    /\ handleIssuesManage create_other_project env empty_world
       = createIssue "TEAM" (create_params_of create_other_project) env w1.
Proof.
  intros env.
  refine (create_action_scoped env empty_world create_other_project "TEAM"
            eq_refl _ eq_refl eq_refl eq_refl).
  discriminate.
Defined.

(** ** The query text under an enforced project *)

Lemma expand_replacement_plain (r matched before after : string) :
  dollar_free r = true -> Js.expand_replacement r matched before after = r.
Proof.
  induction r as [|c r IH]; [reflexivity |].
  intros H. unfold dollar_free in H. simpl in H.
  apply andb_true_iff in H. destruct H as [Hc Hr].
  apply negb_true_iff in Hc.
  assert (E : Js.expand_replacement (String c r) matched before after
              = String c (Js.expand_replacement r matched before after)).
  { destruct c as [[] [] [] [] [] [] [] []]; try reflexivity; discriminate Hc. }
  rewrite E, (IH Hr). reflexivity.
Qed.

Lemma match_leading_clause (ws tok rest : string) :
  all_chars Js.is_space ws = true ->
  tok <> "" ->
  all_chars (fun c => negb (Js.is_space c)) tok = true ->
  stops (fun c => negb (Js.is_space c)) rest = true ->
  match_project_clause ("project:" ++ ws ++ tok ++ rest)
  = Some ("project:" ++ ws ++ tok, rest).
Proof.
  intros Hws Ntok Htok Hrest. unfold match_project_clause.
  change (Js.ci_startsWith "project:" ("project:" ++ ws ++ tok ++ rest)) with true.
  change (Js.drop 8 ("project:" ++ ws ++ tok ++ rest)) with (ws ++ tok ++ rest).
  change (Js.take 8 ("project:" ++ ws ++ tok ++ rest)) with "project:".
  assert (Hstop : stops Js.is_space (tok ++ rest) = true).
  { destruct tok as [|c tok]; [contradiction |]. simpl in *.
    apply andb_true_iff in Htok. now destruct Htok as [Hc _]. }
  rewrite (span_app Js.is_space ws (tok ++ rest) Hws Hstop).
  rewrite (span_app _ tok rest Htok Hrest).
  destruct (String.eqb_spec tok ""); [contradiction | reflexivity].
Qed.

Lemma replace_at_match (before s replacement matched after : string) :
  match_project_clause s = Some (matched, after) ->
  replace_project_clause_from before s replacement
  = before ++ Js.expand_replacement replacement matched before after ++ after.
Proof.
  intros H. destruct s; cbn [replace_project_clause_from]; rewrite H; reflexivity.
Qed.

(** X14.  With an enforced project id, a query that holds no [project:]
    text, in any case, reaches the backend prefixed with the filter of the
    enforced project, in one request. *)
Theorem query_without_filter_prefixed (env : Env) (w : World)
    (args : QueryArgs.t) (enforced query : string) :
  defaultProjectId env = Some enforced -> enforced <> "" ->
  QueryArgs.query args = Some query ->
  Js.includes "project:" (Js.toLowerCase query) = false ->
  exists resp w',
    handleQueryIssues args env w = (Returned resp, w')
    /\ requests w'
       = (requests w
            ++ [scoped_query_request env args
                  ("project: " ++ enforced ++ " " ++ query)])%list.
Proof.
  intros E N Eq Hno.
  destruct (handleQueryIssues_enforced env w args enforced query E N Eq)
    as (resp & w' & Hrun & Hreq).
  exists resp, w'. split; [exact Hrun |].
  now rewrite Hreq, (scopeQuery_prefixes env enforced query N Hno).
Qed.

Lemma query_without_filter_prefixed_witness :
  let env := sample_env backend_ok (Some "TEAM") in
  let args := QueryArgs.mk (Some "state: Open") None None [] in
  exists resp w',
    handleQueryIssues args env empty_world = (Returned resp, w')
    /\ map query_of (requests w') = [JStr "project: TEAM state: Open"].
Proof.
  intros env args.
  destruct (query_without_filter_prefixed env empty_world args "TEAM"
              "state: Open" eq_refl) as (resp & w' & Hrun & Hreq);
    try reflexivity; try discriminate.
  exists resp, w'. split; [exact Hrun |]. rewrite Hreq. reflexivity.
Defined.

(** X15.  With an enforced project id that holds no dollar sign, a query
    that starts with a project filter (the word [project:], white space or
    none, a value free of white space) reaches the backend with that filter
    replaced by the filter of the enforced project and the rest of the
    query unchanged. *)
Theorem leading_filter_rewritten (env : Env) (w : World) (args : QueryArgs.t)
    (enforced ws value rest : string) :
  defaultProjectId env = Some enforced -> enforced <> "" ->
  dollar_free enforced = true ->
  all_chars Js.is_space ws = true ->
  value <> "" ->
  all_chars (fun c => negb (Js.is_space c)) value = true ->
  stops (fun c => negb (Js.is_space c)) rest = true ->
  QueryArgs.query args = Some ("project:" ++ ws ++ value ++ rest) ->
  exists resp w',
    handleQueryIssues args env w = (Returned resp, w')
    /\ requests w'
       = (requests w
            ++ [scoped_query_request env args
                  ("project: " ++ enforced ++ rest)])%list.
Proof.
  intros E N Hd Hws Nv Hv Hrest Eq.
  destruct (handleQueryIssues_enforced env w args enforced _ E N Eq)
    as (resp & w' & Hrun & Hreq).
  exists resp, w'. split; [exact Hrun |]. rewrite Hreq.
  do 3 f_equal. unfold scopeQuery.
  destruct (String.eqb_spec enforced ""); [contradiction |].
  change (Js.includes "project:"
            (Js.toLowerCase ("project:" ++ ws ++ value ++ rest))) with true.
  rewrite (supplied_truthy _ _ E N). simpl negb. cbv iota.
  unfold replace_project_clause.
  rewrite (replace_at_match "" _ _ _ _
             (match_leading_clause ws value rest Hws Nv Hv Hrest)).
  rewrite expand_replacement_plain by exact Hd.
  reflexivity.
Qed.

Lemma leading_filter_rewritten_witness :
  let env := sample_env backend_ok (Some "TEAM") in
  let args := QueryArgs.mk (Some "project: OTHER #bug") None None [] in
  exists resp w',
    handleQueryIssues args env empty_world = (Returned resp, w')
    /\ map query_of (requests w') = [JStr "project: TEAM #bug"].
Proof.
  intros env args.
  destruct (leading_filter_rewritten env empty_world args "TEAM" " " "OTHER"
              " #bug" eq_refl) as (resp & w' & Hrun & Hreq);
    try reflexivity; try discriminate.
  exists resp, w'. split; [exact Hrun |]. rewrite Hreq. reflexivity.
Defined.

(** X16.  With an enforced project id, a call of the query tool that
    carries no query text throws before any request is made, and the tool
    call ends in an internal protocol error. *)
Theorem query_text_missing (env : Env) (w : World) (args : QueryArgs.t)
    (enforced : string) :
  defaultProjectId env = Some enforced -> enforced <> "" ->
  QueryArgs.query args = None ->
  exists error w',
    handleQueryIssues args env w = (Threw error, w')
    /\ requests w' = requests w
    /\ exists w'',
         callTool (CallQuery args) env w
         = (Threw (McpErr InternalError
                     ("Tool execution failed: " ++ message_of error)),
            w'')
         /\ requests w'' = requests w.
Proof.
  intros E N Eq.
  assert (H : handleQueryIssues args env w
              = (Threw (type_error JUndefined "toLowerCase"), w)).
  { unfold handleQueryIssues. unfold bind at 1.
    rewrite (resolveProjectId_enforced env None false w enforced E N). simpl.
    rewrite app_nil_r. unfold bind at 1, ask. unfold bind at 1. rewrite Eq.
    destruct (String.eqb_spec enforced ""); [contradiction |].
    now destruct w. }
  do 2 eexists. split; [exact H |]. split; [reflexivity |].
  unfold callTool, catch. rewrite H.
  eexists. split; reflexivity.
Qed.

Lemma query_text_missing_witness :
  let env := sample_env backend_ok (Some "TEAM") in
  exists error w',
    handleQueryIssues (QueryArgs.mk None None None []) env empty_world
    = (Threw error, w')
    /\ requests w' = [].
Proof.
  intros env.
  destruct (query_text_missing env empty_world (QueryArgs.mk None None None [])
              "TEAM" eq_refl) as (error & w' & Hrun & Hreq & _);
    try reflexivity; try discriminate.
  exists error, w'. split; [exact Hrun | exact Hreq].
Defined.

(** ** The tool dispatch *)

(** X17.  A tool call ends as its handler does.  When the handler returns,
    the call returns its response and leaves the world as the handler left
    it.  When the handler throws, the call throws, after one error line in
    the log and no request of its own: a protocol error of the handler goes
    through as it is, and anything else is wrapped into an internal error
    whose message is [Tool execution failed: ] and the message of what was
    thrown.  So whatever a call throws is a protocol error. *)
Theorem callTool_throws_protocol_errors (c : ToolCall) (env : Env) (w : World) :
  match tool_handler c env w with
  | (Returned resp, w1) => callTool c env w = (Returned resp, w1)
  | (Threw e, w1) =>
      callTool c env w
      = (Threw
           (match e with
            | McpErr _ _ => e
            | _ => McpErr InternalError
                     ("Tool execution failed: " ++ message_of e)
            end),
         mkWorld (requests w1)
           (logs w1
              ++ [mkLog LogError "Tool execution error"
                    (JObj [("tool", JStr (tool_name c));
                           ("error", JStr (message_of e))])])%list)
  end
  /\ (forall (error : Thrown) (w' : World),
        callTool c env w = (Threw error, w') ->
        exists code message, error = McpErr code message).
Proof.
  change (callTool c) with
    (catch (tool_handler c)
       (fun error =>
          log LogError "Tool execution error"
            (JObj [("tool", JStr (tool_name c));
                   ("error", JStr (message_of error))]) ;;
          match error with
          | McpErr _ _ => throw error
          | _ =>
              throw (McpErr InternalError
                       ("Tool execution failed: " ++ message_of error))
          end)%task).
  unfold catch.
  destruct (tool_handler c env w) as [[resp|e] w1].
  - split; [reflexivity | discriminate].
  - unfold bind, log, emit, throw.
    destruct e; (split; [reflexivity |]);
      intros error w' H; inversion H; subst;
      eexists; eexists; reflexivity.
Qed.

Lemma callTool_throws_protocol_errors_witness :
  tool_handler (CallQuery (QueryArgs.mk (Some "#bug") None None []))
    (sample_env backend_ok None) empty_world
  = (Threw missing_project_error, empty_world)
  /\ callTool (CallQuery (QueryArgs.mk (Some "#bug") None None []))
       (sample_env backend_ok None) empty_world
     = (Threw (McpErr InternalError
                 ("Tool execution failed: " ++ missing_project_message)),
        mkWorld []
          [mkLog LogError "Tool execution error"
             (JObj [("tool", JStr "query");
                    ("error", JStr missing_project_message)])]).
Proof.
  split; [reflexivity |].
  exact (proj1 (callTool_throws_protocol_errors
                  (CallQuery (QueryArgs.mk (Some "#bug") None None []))
                  (sample_env backend_ok None) empty_world)).
Defined.

(** ** Queries and counts *)

(** X18.  [queryIssues] never throws and sends exactly one request; a
    refusal whose message mentions 400 or [Bad Request] is reported as an
    invalid query syntax, with the query in the context of the error. *)
Theorem queryIssues_reports_failures (params : IssueQueryParams.t) (env : Env)
    (w : World) :
  exists resp,
    queryIssues params env w
    = (Returned resp,
       mkWorld (requests w ++ [query_request env params])%list (logs w))
    /\ (forall error,
        backend env (requests w) (query_request env params) = inr error ->
        Js.includes "400" (message_of error) = true
        \/ Js.includes "Bad Request" (message_of error) = true ->
        exists message hint,
          resp = formatError message
                   (JObj [("query", IssueQueryParams.query params);
                          ("hint", hint)])).
Proof.
  unfold queryIssues, catch, bind, ask, send.
  destruct (backend env (requests w) (query_request env params)) as [data|err].
  - eexists. split; [reflexivity |]. intros error H. discriminate H.
  - simpl.
    destruct (Js.includes "400" (message_of err)
              || Js.includes "Bad Request" (message_of err)) eqn:Ec.
    + eexists. split; [reflexivity |]. intros _ _ _.
      eexists. eexists. reflexivity.
    + eexists. split; [reflexivity |]. intros error H Hm.
      inversion H; subst error. apply orb_false_iff in Ec.
      destruct Ec as [E1 E2]. destruct Hm as [Hm|Hm]; congruence.
Qed.

(** X19.  [getIssueCount] never throws and sends exactly one request; an
    answer without a count is reported as a count of zero, and a refusal as
    an error response that carries the query. *)
Theorem getIssueCount_outcomes (query : Json) (env : Env) (w : World) :
  exists resp,
    getIssueCount query env w
    = (Returned resp,
       mkWorld (requests w ++ [count_request query])%list (logs w))
    /\ (forall data,
        backend env (requests w) (count_request query) = inl data ->
        JsonOps.nullish (JsonOps.opt_get data "count") = true ->
        resp = formatSuccess (JObj [("count", JNum 0); ("query", query)])
                 "Found 0 issues matching query")
    /\ (forall error,
        backend env (requests w) (count_request query) = inr error ->
        resp = formatError
                 ("Failed to get issue count: " ++ message_of error)
                 (JObj [("query", query)])).
Proof.
  unfold getIssueCount, catch, bind, send.
  destruct (backend env (requests w) (count_request query)) as [data|err].
  - eexists. split; [reflexivity |]. split.
    + intros d H Hn. inversion H; subst d. unfold nullish_or. now rewrite Hn.
    + intros error H. discriminate H.
  - eexists. split; [reflexivity |]. split.
    + intros d H. discriminate H.
    + intros error H. now inversion H.
Qed.

Lemma queryIssues_reports_failures_witness :
  let env := sample_env (backend_failing "400 Bad Request") None in
  let params := IssueQueryParams.mk (JStr "state: {") JUndefined None None in
  exists message hint,
    fst (queryIssues params env empty_world)
    = Returned (formatError message
                  (JObj [("query", JStr "state: {"); ("hint", hint)])).
Proof.
  intros env params.
  destruct (queryIssues_reports_failures params env empty_world)
    as (resp & Hrun & Hfail).
  destruct (Hfail (JsErr "Error" "400 Bad Request") eq_refl)
    as (message & hint & E); [left; reflexivity |].
  exists message, hint. rewrite Hrun, E. reflexivity.
Defined.

Lemma getIssueCount_outcomes_witness :
  fst (getIssueCount (JStr "#bug") (sample_env backend_ok None) empty_world)
  = Returned (formatSuccess (JObj [("count", JNum 0); ("query", JStr "#bug")])
                "Found 0 issues matching query")
  /\ fst (getIssueCount (JStr "#bug") (sample_env (backend_failing "down") None)
            empty_world)
     = Returned (formatError "Failed to get issue count: down"
                   (JObj [("query", JStr "#bug")])).
Proof.
  destruct (getIssueCount_outcomes (JStr "#bug") (sample_env backend_ok None)
              empty_world) as (r1 & H1 & Hzero & _).
  destruct (getIssueCount_outcomes (JStr "#bug")
              (sample_env (backend_failing "down") None) empty_world)
    as (r2 & H2 & _ & Hfail).
  split.
  - rewrite H1. simpl. f_equal. exact (Hzero (JObj []) eq_refl eq_refl).
  - rewrite H2. simpl. f_equal. exact (Hfail (JsErr "Error" "down") eq_refl).
Defined.

(** ** The list of fields of a query *)

Lemma split_comma_from_joins (s : string) :
  forall cur, Js.join "," (split_comma_from cur s) = cur ++ s.
Proof.
  induction s as [|c s IH]; intros cur; simpl.
  - now rewrite append_nil_r_local.
  - destruct (Ascii.eqb_spec c ",") as [->|Nc].
    + unfold Js.join in *. simpl.
      specialize (IH ""). simpl in IH.
      destruct (split_comma_from "" s) as [|x l] eqn:E.
      * destruct s; simpl in E; [discriminate |].
        destruct (Ascii.eqb a ","); discriminate.
      * rewrite IH. reflexivity.
    + rewrite IH. clear IH.
      induction cur as [|x cur IHc]; simpl; [reflexivity | now rewrite IHc].
Qed.

(** Splitting at the commas loses nothing: the pieces joined back with
    commas are the text, and there is always at least one piece. *)
Lemma split_comma_round_trip (s : string) :
  Js.join "," (split_comma s) = s /\ split_comma s <> [].
Proof.
  split.
  - unfold split_comma. now rewrite split_comma_from_joins.
  - unfold split_comma. generalize "" as cur.
    induction s as [|c s IH]; intros cur; simpl; [discriminate |].
    destruct (Ascii.eqb c ","); [discriminate | apply IH].
Qed.

(** X20.  The request of the query tool always carries its fields as a
    list of names, never the search field set of the client: the names of
    the caller, which joined back with commas are the text the caller gave,
    or the seven default names when the caller gave none.  The page size is
    the limit of the caller, or 50 when there is none or it is zero. *)
Theorem query_fields_sent (env : Env) (args : QueryArgs.t) (scopedQuery : string) :
  let payload := req_payload (scoped_query_request env args scopedQuery) in
  exists names,
    names <> []
    /\ JsonOps.opt_get payload "fields" = JArr (map JStr names)
    /\ (forall f, QueryArgs.fields args = Some f -> f <> "" ->
        Js.join "," names = f)
    /\ (Js.truthy (QueryArgs.fields args) = false ->
        names = ["id"; "summary"; "description"; "state"; "priority";
                 "reporter"; "assignee"])
    /\ JsonOps.opt_get payload "$top"
       = JNum (match QueryArgs.limit args with
               | Some n => if (n =? 0)%Z then 50%Z else n
               | None => 50%Z
               end).
Proof.
  intros payload. subst payload.
  unfold scoped_query_request, query_request. simpl.
  destruct (Js.truthy (QueryArgs.fields args)) eqn:Ef.
  - exists (split_comma (Js.or_else (QueryArgs.fields args) "")).
    destruct (split_comma_round_trip (Js.or_else (QueryArgs.fields args) ""))
      as [Hjoin Hne].
    split; [exact Hne |]. split; [reflexivity |]. split; [| split].
    + intros f Efield Nf. rewrite Hjoin. exact (truthy_or_else _ _ Efield Nf).
    + discriminate.
    + destruct (QueryArgs.limit args) as [n|]; simpl; [| reflexivity].
      destruct (Z.eqb_spec n 0); simpl; [reflexivity |].
      destruct (Z.eqb_spec n 0); [contradiction | reflexivity].
  - exists ["id"; "summary"; "description"; "state"; "priority";
            "reporter"; "assignee"].
    split; [discriminate |]. split; [reflexivity |]. split; [| split].
    + intros f Efield Nf. rewrite (supplied_truthy _ _ Efield Nf) in Ef.
      discriminate Ef.
    + reflexivity.
    + destruct (QueryArgs.limit args) as [n|]; simpl; [| reflexivity].
      destruct (Z.eqb_spec n 0); simpl; [reflexivity |].
      destruct (Z.eqb_spec n 0); [contradiction | reflexivity].
Qed.

Lemma query_fields_sent_witness :
  let env := sample_env backend_ok (Some "TEAM") in
  let args := QueryArgs.mk (Some "#bug") (Some "id,summary") (Some 0%Z) [] in
  exists names,
    JsonOps.opt_get (req_payload (scoped_query_request env args "q")) "fields"
    = JArr (map JStr names)
    /\ Js.join "," names = "id,summary".
Proof.
  intros env args.
  destruct (query_fields_sent env args "q")
    as (names & _ & Hfields & Hjoin & _).
  exists names. split; [exact Hfields |].
  apply Hjoin; [reflexivity | discriminate].
Defined.

(** ** Link phrases *)

Lemma trimStart_stops (s : string) : stops Js.is_space (trimStart s) = true.
Proof.
  induction s as [|c s IH]; simpl; [reflexivity |].
  destruct (Js.is_space c) eqn:E; [exact IH | simpl; now rewrite E].
Qed.

Lemma trimEnd_ends_clean (s : string) : ends_clean (trimEnd s) = true.
Proof.
  induction s as [|c s IH]; simpl; [reflexivity |].
  destruct (Js.is_space c && String.eqb (trimEnd s) "") eqn:E; [reflexivity |].
  simpl. now rewrite E, IH.
Qed.

Lemma trimEnd_stops (s : string) :
  stops Js.is_space s = true -> stops Js.is_space (trimEnd s) = true.
Proof.
  destruct s as [|c s]; simpl; [reflexivity |]. intros H.
  apply negb_true_iff in H. rewrite H. simpl. now rewrite H.
Qed.

Lemma collapse_in_run_starts (s : string) :
  ends_clean s = true -> stops Js.is_space (collapse_from true s) = true.
Proof.
  induction s as [|c s IH]; simpl; [reflexivity |]. intros H.
  apply andb_true_iff in H. destruct H as [_ H].
  destruct (Js.is_space c) eqn:E; [now apply IH | simpl; now rewrite E].
Qed.

Lemma collapse_in_run_nonempty (s : string) :
  ends_clean s = true -> s <> "" -> collapse_from true s <> "".
Proof.
  induction s as [|c s IH]; simpl; [congruence |]. intros H _.
  apply andb_true_iff in H. destruct H as [Hc H].
  destruct (Js.is_space c) eqn:E; [| discriminate].
  apply IH; [exact H |]. intros ->. discriminate Hc.
Qed.

Lemma collapse_single_spaced (s : string) :
  forall b, ends_clean s = true -> single_spaced (collapse_from b s) = true.
Proof.
  induction s as [|c s IH]; intros b H; simpl; [reflexivity |].
  simpl in H. apply andb_true_iff in H. destruct H as [Hc H].
  destruct (Js.is_space c) eqn:E.
  - destruct b; [now apply IH |].
    simpl. rewrite (IH true H), andb_true_r.
    assert (Ns : s <> "") by (intros ->; discriminate Hc).
    pose proof (collapse_in_run_nonempty s H Ns) as Hne.
    pose proof (collapse_in_run_starts s H) as Hst.
    destruct (collapse_from true s) as [|d rest]; [contradiction | exact Hst].
  - simpl. rewrite E. now apply IH.
Qed.

Lemma link_phrase_normal (linkCommand : option string) :
  normal_phrase (link_phrase linkCommand) = true.
Proof.
  unfold normal_phrase, link_phrase, collapse_spaces, trim.
  set (t := trimEnd (trimStart (Js.or_else linkCommand "relates to"))).
  assert (Hc : ends_clean t = true) by apply trimEnd_ends_clean.
  assert (Hs : stops Js.is_space t = true)
    by (apply trimEnd_stops, trimStart_stops).
  rewrite (collapse_single_spaced t false Hc), andb_true_r.
  destruct t as [|c t]; [reflexivity |]. simpl in *.
  apply negb_true_iff in Hs. rewrite Hs. simpl. now rewrite Hs.
Qed.

Lemma single_spaced_ends_clean (s : string) :
  single_spaced s = true -> ends_clean s = true.
Proof.
  induction s as [|c s IH]; simpl; [reflexivity |].
  destruct (Js.is_space c) eqn:E; simpl.
  - intros H. apply andb_true_iff in H. destruct H as [H Hs].
    apply andb_true_iff in H. destruct H as [_ Hn].
    destruct s as [|d s]; [discriminate Hn |]. simpl. now apply IH.
  - exact IH.
Qed.

Lemma trimEnd_ends_clean_id (s : string) : ends_clean s = true -> trimEnd s = s.
Proof.
  induction s as [|c s IH]; simpl; [reflexivity |]. intros H.
  apply andb_true_iff in H. destruct H as [Hc H].
  rewrite (IH H). apply negb_true_iff in Hc. now rewrite Hc.
Qed.

Lemma trimStart_stops_id (s : string) : stops Js.is_space s = true -> trimStart s = s.
Proof.
  destruct s as [|c s]; simpl; [reflexivity |]. intros H.
  apply negb_true_iff in H. now rewrite H.
Qed.

Lemma collapse_single_spaced_id (s : string) :
  forall b, single_spaced s = true -> (b = true -> stops Js.is_space s = true) ->
  collapse_from b s = s.
Proof.
  induction s as [|c s IH]; intros b H Hb; simpl; [reflexivity |].
  simpl in H. destruct (Js.is_space c) eqn:E.
  - apply andb_true_iff in H. destruct H as [H Hs].
    apply andb_true_iff in H. destruct H as [Hsp Hn].
    apply Ascii.eqb_eq in Hsp. subst c.
    destruct b.
    + specialize (Hb eq_refl). simpl in Hb. discriminate Hb.
    + rewrite (IH true Hs); [reflexivity |].
      intros _. destruct s; [discriminate Hn | exact Hn].
  - rewrite (IH false H); [reflexivity | discriminate].
Qed.

Lemma or_else_supplied (s d : string) : s <> "" -> Js.or_else (Some s) d = s.
Proof.
  intros N. simpl. destruct (String.eqb_spec s ""); [contradiction | reflexivity].
Qed.

Lemma trimStart_all_space (s : string) :
  all_chars Js.is_space s = true -> trimStart s = "".
Proof.
  induction s as [|c s IH]; simpl; [reflexivity |]. intros H.
  apply andb_true_iff in H. destruct H as [Hc H]. rewrite Hc. now apply IH.
Qed.

(** X21.  The link phrase that [linkIssues] sends is always in normal
    form: words separated by single spaces, no white space of another kind
    and none at either end.  A phrase that is already in that form goes
    through unchanged, so normalising again changes nothing as long as the
    phrase is not empty.  With no phrase, or an empty one, the phrase is
    [relates to]; a phrase of white space only becomes the empty phrase. *)
Theorem link_phrase_normal_form (linkCommand : option string) :
  normal_phrase (link_phrase linkCommand) = true
  /\ (forall phrase, linkCommand = Some phrase -> phrase <> "" ->
      normal_phrase phrase = true -> link_phrase linkCommand = phrase)
  /\ (link_phrase linkCommand <> "" ->
      link_phrase (Some (link_phrase linkCommand)) = link_phrase linkCommand)
  /\ (~ supplied linkCommand -> link_phrase linkCommand = "relates to")
  /\ (forall phrase, linkCommand = Some phrase -> phrase <> "" ->
      all_chars Js.is_space phrase = true -> link_phrase linkCommand = "").
Proof.
  assert (Hid : forall phrase, phrase <> "" -> normal_phrase phrase = true ->
                link_phrase (Some phrase) = phrase).
  { intros phrase N H. unfold link_phrase, collapse_spaces, trim.
    rewrite (or_else_supplied phrase "relates to" N).
    unfold normal_phrase in H. apply andb_true_iff in H. destruct H as [Hs Hss].
    rewrite (trimStart_stops_id _ Hs),
      (trimEnd_ends_clean_id _ (single_spaced_ends_clean _ Hss)).
    apply collapse_single_spaced_id; [exact Hss | discriminate]. }
  split; [apply link_phrase_normal |]. split; [| split; [| split]].
  - intros phrase -> N H. now apply Hid.
  - intros N. apply Hid; [exact N | apply link_phrase_normal].
  - intros Hn. unfold link_phrase.
    destruct linkCommand as [p|]; simpl; [| reflexivity].
    destruct (String.eqb_spec p ""); [reflexivity |].
    exfalso. apply Hn. now exists p.
  - intros phrase -> N H. unfold link_phrase, collapse_spaces, trim.
    rewrite (or_else_supplied phrase "relates to" N).
    now rewrite (trimStart_all_space _ H).
Qed.

Lemma link_phrase_normal_form_witness :
  link_phrase (Some "subtask of") = "subtask of"
  /\ link_phrase (Some "   ") = "".
Proof.
  split.
  - apply (proj1 (proj2 (link_phrase_normal_form (Some "subtask of")))
             "subtask of"); [reflexivity | discriminate | reflexivity].
  - apply (proj2 (proj2 (proj2 (proj2 (link_phrase_normal_form (Some "   ")))))
             "   "); [reflexivity | discriminate | reflexivity].
Defined.

(** X22.  [linkIssues] sends one command, the normalised phrase, a space
    and the trimmed target, and has no error handling of its own: a refusal
    of the backend is thrown to the caller, not turned into a response. *)
Theorem linkIssues_one_command (issueId targetIssueId : string)
    (linkCommand : option string) (env : Env) (w : World) :
  let command := link_phrase linkCommand ++ " " ++ trim targetIssueId in
  let request := command_request (JStr issueId) command in
  let w' := mkWorld (requests w ++ [request])%list (logs w) in
  (forall result,
      backend env (requests w) request = inl result ->
      exists message,
        linkIssues issueId targetIssueId linkCommand env w
        = (Returned
             (formatSuccess
                (JObj [("issueId", JStr issueId);
                       ("targetIssueId", JStr (trim targetIssueId));
                       ("command", JStr command);
                       ("commandResult", result)])
                message),
           w'))
  /\ (forall error,
      backend env (requests w) request = inr error ->
      linkIssues issueId targetIssueId linkCommand env w = (Threw error, w')).
Proof.
  intros command request w'. unfold linkIssues, bind, applyCommand, send.
  fold command. fold request.
  split; intros x H; rewrite H; [eexists |]; reflexivity.
Qed.

Lemma linkIssues_one_command_witness :
  linkIssues "TEAM-1" " TEAM-2 " (Some "  subtask   of ")
    (sample_env (backend_failing "No such issue") None) empty_world
  = (Threw (JsErr "Error" "No such issue"),
     mkWorld [command_request (JStr "TEAM-1") "subtask of TEAM-2"] []).
Proof.
  exact (proj2 (linkIssues_one_command "TEAM-1" " TEAM-2 "
                  (Some "  subtask   of ")
                  (sample_env (backend_failing "No such issue") None)
                  empty_world)
           (JsErr "Error" "No such issue") eq_refl).
Defined.

(** ** State changes *)

(** X23.  When the backend refuses the state command, [changeIssueState]
    answers with an error response that carries the message of the
    refusal, and the comment is not sent: the command is the only
    request. *)
Theorem changeIssueState_refused (h : Helpers) (issueId : string)
    (newState comment resolution : option string) (env : Env) (w : World)
    (error : Thrown) :
  let request := command_request (JStr issueId) ("State: " ++ printed newState) in
  backend env (requests w) request = inr error ->
  changeIssueState h issueId newState comment resolution env w
  = (Returned
       (formatError (message_of error)
          (JStr ("Failed to change state of issue " ++ issueId))),
     mkWorld (requests w ++ [request])%list (logs w)).
Proof.
  intros request H.
  unfold changeIssueState, catch, bind at 1, applyCommand, send.
  fold (printed newState). fold request. rewrite H. reflexivity.
Qed.

Lemma changeIssueState_refused_witness :
  completeIssue sample_helpers "TEAM-1" (Some "done")
    (sample_env (backend_failing "Unknown state") None) empty_world
  = (Returned
       (formatError "Unknown state" (JStr "Failed to change state of issue TEAM-1")),
     mkWorld [command_request (JStr "TEAM-1") "State: Fixed"] []).
Proof.
  exact (changeIssueState_refused sample_helpers "TEAM-1" (Some "Fixed")
           (Some "done") (Some "Fixed")
           (sample_env (backend_failing "Unknown state") None) empty_world
           (JsErr "Error" "Unknown state") eq_refl).
Defined.

(** X24.  When the backend accepts the state command, [changeIssueState]
    reports the update whatever becomes of the comment: the comment is
    sent after the command exactly when one was given, and its refusal
    changes neither the response nor the outcome. *)
Theorem changeIssueState_accepted (h : Helpers) (issueId : string)
    (newState comment resolution : option string) (env : Env) (w : World)
    (ok : Json) :
  let request := command_request (JStr issueId) ("State: " ++ printed newState) in
  backend env (requests w) request = inl ok ->
  exists w',
    changeIssueState h issueId newState comment resolution env w
    = (Returned
         (formatUpdated (JObj [("id", JStr issueId)]) "Issue"
            (JObj [("state", JsonOps.of_opt newState);
                   ("resolution", JsonOps.of_opt resolution)])
            ("Issue " ++ issueId ++ " moved to " ++ printed newState
               ++ (if Js.truthy resolution
                   then " (" ++ Js.or_else resolution "" ++ ")"
                   else ""))
            JUndefined),
       w')
    /\ requests w'
       = (requests w ++ [request]
            ++ (if Js.truthy comment
                then [comment_request h issueId (Js.or_else comment "")]
                else []))%list.
Proof.
  intros request H.
  unfold changeIssueState, catch at 1, bind at 1, applyCommand, send at 1.
  fold (printed newState). fold request. rewrite H.
  unfold bind at 1, when.
  destruct (Js.truthy comment).
  - unfold catch, addComment, bind, send. simpl requests.
    destruct (backend env (requests w ++ [request])
                (comment_request h issueId (Js.or_else comment "")));
      simpl; eexists; (split; [reflexivity |]); simpl;
      now rewrite <- app_assoc.
  - simpl. eexists. split; [reflexivity |]. reflexivity.
Qed.

Lemma changeIssueState_accepted_witness :
  exists w',
    startWorkingOnIssue sample_helpers "TEAM-1" (Some "on it")
      (sample_env backend_commands_only None) empty_world
    = (Returned
         (formatUpdated (JObj [("id", JStr "TEAM-1")]) "Issue"
            (JObj [("state", JStr "In Progress"); ("resolution", JUndefined)])
            "Issue TEAM-1 moved to In Progress" JUndefined),
       w')
    /\ requests w'
       = [command_request (JStr "TEAM-1") "State: In Progress";
          comment_request sample_helpers "TEAM-1" "on it"].
Proof.
  exact (changeIssueState_accepted sample_helpers "TEAM-1" (Some "In Progress")
           (Some "on it") None (sample_env backend_commands_only None)
           empty_world (JObj []) eq_refl).
Defined.

(** ** Stars *)

(** X25.  [toggleStar] never throws.  When the star cannot be read, nothing
    is written.  When it can, exactly one write follows, and it sets the
    star to the opposite of what was read, an answer without the flag
    counting as no star. *)
Theorem toggleStar_flips (issueId : string) (env : Env) (w : World) :
  let read := star_read_request issueId in
  (forall error,
      backend env (requests w) read = inr error ->
      toggleStar issueId env w
      = (Returned
           (formatError ("Failed to toggle star: " ++ message_of error)
              (JObj [("issueId", JStr issueId); ("action", JStr "toggle_star")])),
         mkWorld (requests w ++ [read])%list (logs w)))
  /\ (forall status,
      backend env (requests w) read = inl status ->
      let star := negb (JsonOps.truthy (JsonOps.opt_get status "hasStar")) in
      exists resp,
        toggleStar issueId env w
        = (Returned resp,
           mkWorld (requests w ++ [read; star_write_request issueId star])%list
             (logs w))
        /\ (forall ok,
            backend env (requests w ++ [read])%list
              (star_write_request issueId star) = inl ok ->
            exists message,
              resp = formatSuccess
                       (JObj [("issueId", JStr issueId); ("hasStar", JBool star)])
                       message)).
Proof.
  intros read. split.
  - intros error H. unfold toggleStar, catch, bind at 1, send at 1.
    fold read. rewrite H. reflexivity.
  - intros status H star. unfold toggleStar, catch, bind at 1, send at 1.
    fold read. rewrite H.
    assert (Et : JsonOps.truthy
                   (JsonOps.or_else (JsonOps.opt_get status "hasStar") (JBool false))
                 = JsonOps.truthy (JsonOps.opt_get status "hasStar")).
    { unfold JsonOps.or_else.
      destruct (JsonOps.truthy (JsonOps.opt_get status "hasStar")) eqn:E;
        [exact E | reflexivity]. }
    rewrite Et. subst star.
    destruct (JsonOps.truthy (JsonOps.opt_get status "hasStar")); cbn [negb];
      unfold bind, send; cbn [requests].
    + destruct (backend env (requests w ++ [read])%list
                  (star_write_request issueId false)) as [ok'|err] eqn:Ew;
        simpl; (eexists; split; [now rewrite <- app_assoc |]);
        intros ok Hok; inversion Hok; subst; eexists; reflexivity.
    + destruct (backend env (requests w ++ [read])%list
                  (star_write_request issueId true)) as [ok'|err] eqn:Ew;
        simpl; (eexists; split; [now rewrite <- app_assoc |]);
        intros ok Hok; inversion Hok; subst; eexists; reflexivity.
Qed.

Lemma toggleStar_flips_witness :
  exists resp message,
    toggleStar "TEAM-1" (sample_env backend_starred None) empty_world
    = (Returned resp,
       mkWorld [star_read_request "TEAM-1"; star_write_request "TEAM-1" false] [])
    /\ resp = formatSuccess
                (JObj [("issueId", JStr "TEAM-1"); ("hasStar", JBool false)])
                message.
Proof.
  destruct (proj2 (toggleStar_flips "TEAM-1" (sample_env backend_starred None)
                     empty_world)
              (JObj [("hasStar", JBool true)]) eq_refl)
    as (resp & Hrun & Hok).
  destruct (Hok (JObj []) eq_refl) as (message & E).
  exists resp, message. split; [exact Hrun | exact E].
Defined.

(** ** Moves *)

(** X26.  [moveIssueToProject] never throws.  It names the target project
    by its id when the target has the internal shape and by its short name
    otherwise.  Once the move is accepted the response is a success
    whatever becomes of the comment, which is sent exactly when one was
    given; when the move is refused nothing else is sent. *)
Theorem moveIssueToProject_outcomes (h : Helpers)
    (issueId targetProjectId : string) (comment : option string)
    (env : Env) (w : World) :
  let move := move_request issueId targetProjectId in
  (req_payload move
   = if isInternalId targetProjectId
     then JObj [("$type", JStr "Project"); ("id", JStr targetProjectId)]
     else JObj [("$type", JStr "Project"); ("shortName", JStr targetProjectId)])
  /\ (forall data,
      backend env (requests w) move = inl data ->
      exists w',
        moveIssueToProject h issueId targetProjectId comment env w
        = (Returned
             (formatSuccess data
                ("Issue " ++ issueId ++ " successfully moved to project "
                   ++ targetProjectId)),
           w')
        /\ requests w'
           = (requests w ++ [move]
                ++ (if Js.truthy comment
                    then [move_comment_request issueId targetProjectId
                            (Js.or_else comment "")]
                    else []))%list)
  /\ (forall error,
      backend env (requests w) move = inr error ->
      exists message context,
        moveIssueToProject h issueId targetProjectId comment env w
        = (Returned (formatError message context),
           mkWorld (requests w ++ [move])%list (logs w))).
Proof.
  intros move. split; [reflexivity |]. split.
  - intros data H.
    unfold moveIssueToProject, catch at 1, bind at 1, send at 1.
    fold move. rewrite H. unfold bind at 1, when.
    destruct (Js.truthy comment).
    + unfold catch, bind, send. cbn [requests].
      destruct (backend env (requests w ++ [move])
                  (move_comment_request issueId targetProjectId
                     (Js.or_else comment "")));
        simpl; eexists; (split; [reflexivity |]); simpl;
        now rewrite <- app_assoc.
    + simpl. eexists. split; reflexivity.
  - intros error H.
    unfold moveIssueToProject, catch, bind at 1, send at 1.
    fold move. rewrite H.
    destruct (is_num (response_status h error) 404);
      [| destruct (is_num (response_status h error) 403)];
      do 2 eexists; reflexivity.
Qed.

Lemma moveIssueToProject_outcomes_witness :
  exists w',
    moveIssueToProject sample_helpers "TEAM-1" "OTHER" (Some "bye")
      (sample_env backend_refusing_comments (Some "TEAM")) empty_world
    = (Returned
         (formatSuccess (JObj [("idReadable", JStr "OTHER-9")])
            "Issue TEAM-1 successfully moved to project OTHER"),
       w')
    /\ requests w'
       = [move_request "TEAM-1" "OTHER";
          move_comment_request "TEAM-1" "OTHER" "bye"].
Proof.
  exact (proj1 (proj2 (moveIssueToProject_outcomes sample_helpers "TEAM-1"
                         "OTHER" (Some "bye")
                         (sample_env backend_refusing_comments (Some "TEAM"))
                         empty_world))
           (JObj [("idReadable", JStr "OTHER-9")]) eq_refl).
Defined.

(** ** The actions keyed by an issue id *)

(** X27.  The [move] action takes the target project as the caller gave
    it: the enforced project id plays no part, so with a project enforced
    an issue can still be moved to any other project. *)
Theorem move_action_unscoped (h : Helpers) (env : Env) (w : World)
    (args : IssueIdArgs.t) (issueId target : string) :
  IssueIdArgs.action args = Move ->
  IssueIdArgs.issueId args = Some issueId ->
  IssueIdArgs.targetProjectId args = Some target ->
  validateIssueId env (Some issueId) "issueId" = None ->
  validateProjectId env (Some target) "targetProjectId" = None ->
  handleIssueIdAction h args env w
  = moveIssueToProject h issueId target (IssueIdArgs.comment args) env w.
Proof.
  intros Ea Ei Et Evi Evt.
  unfold handleIssueIdAction, bind at 1, validateIssueIdArgs, catch at 1,
    bind at 1, ask.
  rewrite Ea, Ei, Et, Evi. simpl. rewrite Evt. simpl. reflexivity.
Qed.

Lemma move_action_unscoped_witness :
  let env := sample_env backend_refusing_comments (Some "TEAM") in
  handleIssueIdAction sample_helpers move_to_other_project env empty_world
  = moveIssueToProject sample_helpers "TEAM-1" "OTHER" (Some "bye") env
      empty_world.
Proof.
  exact (move_action_unscoped sample_helpers
           (sample_env backend_refusing_comments (Some "TEAM")) empty_world
           move_to_other_project "TEAM-1" "OTHER"
           eq_refl eq_refl eq_refl eq_refl eq_refl).
Defined.

(** X28.  For every action of the tool that is keyed by an issue id, an
    issue id that fails the validation stops the call before anything is
    sent: the call throws, the validation error turned into a protocol
    error and any other error as it is. *)
Theorem issue_id_validated_first (h : Helpers) (env : Env) (w : World)
    (args : IssueIdArgs.t) (failure : Thrown) :
  (forall name, IssueIdArgs.action args <> OtherAction name) ->
  validateIssueId env (IssueIdArgs.issueId args) "issueId" = Some failure ->
  exists w',
    handleIssueIdAction h args env w
    = (Threw match failure with
             | ValidationErr _ _ => toMcpError env failure
             | _ => failure
             end,
       w')
    /\ requests w' = requests w.
Proof.
  intros Ha Ev.
  unfold handleIssueIdAction, bind at 1, validateIssueIdArgs, catch at 1,
    bind at 1, ask.
  destruct (IssueIdArgs.action args) eqn:Ea;
    try (exfalso; eapply Ha; reflexivity);
    rewrite Ev; simpl; destruct failure; eexists; split; reflexivity.
Qed.

Lemma issue_id_validated_first_witness :
  exists w',
    handleIssueIdAction sample_helpers star_without_issue
      (sample_env backend_ok None) empty_world
    = (Threw (McpErr InvalidParams "issueId is required"), w')
    /\ requests w' = [].
Proof.
  refine (issue_id_validated_first sample_helpers (sample_env backend_ok None)
            empty_world star_without_issue
            (ValidationErr "issueId" "issueId is required") _ eq_refl).
  intros name. discriminate.
Defined.

(** X29.  The [state] action does not check that a state was given: with
    none, the command sent to the issue is [State: undefined]. *)
Theorem state_action_without_state (h : Helpers) (env : Env) (w : World)
    (args : IssueIdArgs.t) (issueId : string) :
  IssueIdArgs.action args = State ->
  IssueIdArgs.issueId args = Some issueId ->
  IssueIdArgs.state args = None ->
  validateIssueId env (Some issueId) "issueId" = None ->
  exists resp w' rest,
    handleIssueIdAction h args env w = (Returned resp, w')
    /\ requests w'
       = (requests w ++ [command_request (JStr issueId) "State: undefined"]
            ++ rest)%list.
Proof.
  intros Ea Ei Es Ev.
  unfold handleIssueIdAction, bind at 1, validateIssueIdArgs, catch at 1,
    bind at 1, ask.
  rewrite Ea, Ei, Ev, Es. simpl.
  change (printed (Some issueId)) with issueId.
  unfold changeIssueState, catch at 1, bind at 1, applyCommand, send at 1.
  change ("State: " ++ JsonOps.to_string (JsonOps.of_opt None))
    with "State: undefined".
  destruct (backend env (requests w)
              (command_request (JStr issueId) "State: undefined"))
    as [ok|error].
  - unfold bind at 1, when.
    destruct (Js.truthy (IssueIdArgs.comment args)).
    + unfold catch, addComment, bind, send. cbn [requests].
      match goal with
      | |- context [backend env ?hist ?r] => destruct (backend env hist r)
      end; simpl; do 3 eexists; (split; [reflexivity |]); simpl;
        rewrite <- app_assoc; reflexivity.
    + simpl. do 2 eexists. exists []. split; reflexivity.
  - do 2 eexists. exists []. split; reflexivity.
Qed.

Lemma state_action_without_state_witness :
  exists resp w' rest,
    handleIssueIdAction sample_helpers state_without_state
      (sample_env backend_ok None) empty_world = (Returned resp, w')
    /\ requests w'
       = ([command_request (JStr "TEAM-1") "State: undefined"] ++ rest)%list.
Proof.
  exact (state_action_without_state sample_helpers (sample_env backend_ok None)
           empty_world state_without_state "TEAM-1"
           eq_refl eq_refl eq_refl eq_refl).
Defined.

Lemma isInternalId_shape_witness : isInternalId "77-1072" = true.
Proof.
  apply (proj2 (isInternalId_shape "77-1072")).
  exists "77", "1072". repeat split; discriminate.
Defined.

(** ** The comments tool *)

Lemma validateCommentsArgs_quiet (args : CommentsArgs.t) (env : Env) (w : World) :
  exists outcome w1,
    validateCommentsArgs args env w = (outcome, w1)
    /\ requests w1 = requests w
    /\ (validateIssueId env (CommentsArgs.issueId args) "issueId" <> None ->
        exists error, outcome = Threw error).
Proof.
  unfold validateCommentsArgs, catch, bind, ask, when, validate, log, emit,
    throw, ret.
  destruct (validateIssueId env (CommentsArgs.issueId args) "issueId")
    as [failure|].
  - destruct failure; do 2 eexists; (split; [reflexivity |]);
      (split; [reflexivity |]); intros _; eexists; reflexivity.
  - destruct (Js.array_includes ["add"; "update"] (CommentsArgs.action args));
      destruct (Js.array_includes ["update"; "delete"] (CommentsArgs.action args));
      try destruct (validateRequired env (CommentsArgs.text args) "text")
        as [[]|];
      try destruct (validateRequired env (CommentsArgs.commentId args) "commentId")
        as [[]|];
      do 2 eexists; (split; [reflexivity |]); (split; [reflexivity |]);
      intros H; now elim H.
Qed.

Lemma validateCommentsArgs_issue_id (args : CommentsArgs.t) (env : Env)
    (w : World) (failure : Thrown) :
  validateIssueId env (CommentsArgs.issueId args) "issueId" = Some failure ->
  validateCommentsArgs args env w
  = (Threw (match failure with
            | ValidationErr _ _ => toMcpError env failure
            | _ => failure
            end),
     mkWorld (requests w)
       (logs w
          ++ [mkLog LogError "Comment parameter validation failed"
                (JObj [("action", JStr (CommentsArgs.action args));
                       ("issueId", JsonOps.of_opt (CommentsArgs.issueId args));
                       ("commentId", JsonOps.of_opt (CommentsArgs.commentId args));
                       ("error", JStr (message_of failure))])])%list).
Proof.
  intros E.
  unfold validateCommentsArgs, catch, bind, ask, when, validate, log, emit,
    throw, ret.
  rewrite E. destruct failure; reflexivity.
Qed.

(** X30.  Whatever the action, a call of the comments tool sends at most
    one request.  When the issue id fails the validation the call throws
    that failure, a validation error turned into a protocol error, after
    one error line in the log and without any request: the validation
    comes before the choice of the action, so an unknown action with a bad
    issue id fails on the issue id and not on the action. *)
Theorem comments_tool_requests (h : Helpers) (args : CommentsArgs.t)
    (env : Env) (w : World) :
  (exists rest,
     requests (snd (handleCommentsManage h args env w))
     = (requests w ++ rest)%list
     /\ List.length rest <= 1)
  /\ (forall failure : Thrown,
        validateIssueId env (CommentsArgs.issueId args) "issueId"
        = Some failure ->
        handleCommentsManage h args env w
        = (Threw (match failure with
                  | ValidationErr _ _ => toMcpError env failure
                  | _ => failure
                  end),
           mkWorld (requests w)
             (logs w
                ++ [mkLog LogError "Comment parameter validation failed"
                      (JObj [("action", JStr (CommentsArgs.action args));
                             ("issueId",
                              JsonOps.of_opt (CommentsArgs.issueId args));
                             ("commentId",
                              JsonOps.of_opt (CommentsArgs.commentId args));
                             ("error", JStr (message_of failure))])])%list)).
Proof.
  split.
  - destruct (validateCommentsArgs_quiet args env w)
      as (outcome & w1 & Ev & Hq & _).
    unfold handleCommentsManage, bind at 1. rewrite Ev.
    destruct outcome as [[]|error].
    + destruct (String.eqb (CommentsArgs.action args) "get");
        [| destruct (String.eqb (CommentsArgs.action args) "add");
           [| destruct (String.eqb (CommentsArgs.action args) "update");
              [| destruct (String.eqb (CommentsArgs.action args) "delete")]]];
        unfold getIssueComments, addComment, updateComment, deleteComment,
          delete, get, post, bind, send, throw;
        try match goal with
            | |- context [backend env ?hist ?r] => destruct (backend env hist r)
            end;
        simpl; rewrite Hq;
        first [ exists []; rewrite app_nil_r;
                split; [reflexivity | simpl; lia]
              | eexists; split; [reflexivity | simpl; lia] ].
    + simpl. exists []. rewrite app_nil_r. split; [exact Hq | simpl; lia].
  - intros failure E.
    unfold handleCommentsManage, bind at 1.
    now rewrite (validateCommentsArgs_issue_id args env w failure E).
Qed.

Lemma comments_tool_requests_witness :
  handleCommentsManage sample_helpers comments_unknown_action
    (sample_env backend_ok None) empty_world
  = (Threw (McpErr InvalidParams "issueId is required"),
     mkWorld []
       [mkLog LogError "Comment parameter validation failed"
          (JObj [("action", JStr "purge"); ("issueId", JUndefined);
                 ("commentId", JUndefined);
                 ("error", JStr "issueId is required")])]).
Proof.
  exact (proj2 (comments_tool_requests sample_helpers comments_unknown_action
                  (sample_env backend_ok None) empty_world)
           (ValidationErr "issueId" "issueId is required") eq_refl).
Defined.
